(** * tg-bot-prediction: a shallow embedding of the prediction bot

    The development follows the layout of the Python package [bot]:

    - [bot/db/models.py]                  -> Module [Models]
    - the relational store behind the ORM -> Module [Store]
    - [bot/services/user_service.py],
      [bot/services/prediction_service.py] -> Module [PredictionService]
    - [bot/services/statistics_service.py] -> Module [StatisticsService]
    - [bot/keyboards/user.py]             -> Module [Keyboards]
    - [bot/services/broadcast_service.py] -> Module [BroadcastService]
    - [bot/db/session.py], whose session factory is not among the
      sources and is modelled from the spec -> Module [DbSession]
    - [bot/scheduler/jobs.py]             -> Module [Jobs]
    - [bot/handlers/user/prediction.py]   -> Module [Handlers]

    Coroutines are modelled by state passing: the data base is an explicit
    value, the messaging transport is an abstract state machine, and every
    function that talks to the outside returns the list of [Action]s it
    performed, in order.  Python exceptions are the [Raise] case of
    [Result]. *)

From Equations Require Import Equations.
From Stdlib Require Import ZArith List Bool Ascii String Arith Lia.
From Stdlib Require Import DecimalString.
Import ListNotations.

Local Open Scope Z_scope.

(** ** Exceptions and results *)

(** The exceptions the modelled code can see.  [MultipleResultsFound] is what
    [scalar_one_or_none] raises on more than one row; [IntegrityError] is what
    a flush raises when a write violates a constraint of the store;
    [DBAPIError] is what a statement raises when a value does not fit the
    type of its column or parameter. *)
Inductive exn : Type :=
| MultipleResultsFound
| IntegrityError
| DBAPIError.

Inductive Result (A : Type) : Type :=
| Ok (a : A)
| Raise (e : exn).

Arguments Ok {A} a.
Arguments Raise {A} e.

Definition bind {A B : Type} (r : Result A) (k : A -> Result B) : Result B :=
  match r with
  | Ok a => k a
  | Raise e => Raise e
  end.

Notation "x <- c1 ;; c2" := (bind c1 (fun x => c2))
  (at level 61, c1 at next level, right associativity).

(** ** bot/db/models.py *)

Module Models.

Inductive PredictionStatus : Type :=
| SCHEDULED
| ACTIVE
| CANCELLED
| ARCHIVED.

Inductive MediaType : Type :=
| PHOTO
| GIF
| VIDEO
| ANIMATION.

Definition status_eqb (a b : PredictionStatus) : bool :=
  match a, b with
  | SCHEDULED, SCHEDULED | ACTIVE, ACTIVE
  | CANCELLED, CANCELLED | ARCHIVED, ARCHIVED => true
  | _, _ => false
  end.

(** Instants are seconds on the time line; [datetime.now(tz)] is a reading of
    the clock that the caller passes in. *)
Record datetime : Type := mk_datetime {
  timestamp : Z;
  dt_year : Z;
  dt_month : Z
}.

Record User : Type := mk_User {
  user_id : Z;
  user_telegram_user_id : Z;
  is_admin : bool
}.

Record Prediction : Type := mk_Prediction {
  id : Z;
  status : PredictionStatus;
  media_type : MediaType;
  media_file_id : string;
  post_text : string;
  button_1_initial : string;
  button_2_initial : string;
  button_3_initial : string;
  button_1_final : string;
  button_2_final : string;
  button_3_final : string;
  scheduled_at : Z;
  activated_at : option Z;
  broadcast_started : bool;
  broadcast_completed : bool;
  created_by_admin_id : option Z
}.

Record UserPredictionChoice : Type := mk_Choice {
  choice_id : Z;
  telegram_user_id : Z;
  prediction_id : Z;
  selected_button : Z;
  year : Z;
  month : Z;
  is_test : bool
}.

(** The range the column comment gives for [selected_button]: 1, 2, or 3. *)
Definition valid_button (c : UserPredictionChoice) : bool :=
  (selected_button c =? 1) || (selected_button c =? 2)
  || (selected_button c =? 3).


(** [Prediction.get_final_button]: a three-entry dict looked up with
    [mapping.get(button_number, "")]. *)
Definition final_mapping (self : Prediction) : list (Z * string) :=
  [(1, button_1_final self); (2, button_2_final self); (3, button_3_final self)].

Fixpoint dict_get {V : Type} (d : list (Z * V)) (k : Z) (default : V) : V :=
  match d with
  | [] => default
  | (k', v) :: rest => if k =? k' then v else dict_get rest k default
  end.

Definition get_final_button (self : Prediction) (button_number : Z) : string :=
  dict_get (final_mapping self) button_number EmptyString.

(** Field updates, as attribute assignments on a mapped row. *)
Definition set_status (s : PredictionStatus) (p : Prediction) : Prediction :=
  mk_Prediction (id p) s (media_type p) (media_file_id p) (post_text p)
    (button_1_initial p) (button_2_initial p) (button_3_initial p)
    (button_1_final p) (button_2_final p) (button_3_final p)
    (scheduled_at p) (activated_at p) (broadcast_started p)
    (broadcast_completed p) (created_by_admin_id p).

Definition set_activated_at (t : option Z) (p : Prediction) : Prediction :=
  mk_Prediction (id p) (status p) (media_type p) (media_file_id p) (post_text p)
    (button_1_initial p) (button_2_initial p) (button_3_initial p)
    (button_1_final p) (button_2_final p) (button_3_final p)
    (scheduled_at p) t (broadcast_started p)
    (broadcast_completed p) (created_by_admin_id p).

Definition set_broadcast_started (b : bool) (p : Prediction) : Prediction :=
  mk_Prediction (id p) (status p) (media_type p) (media_file_id p) (post_text p)
    (button_1_initial p) (button_2_initial p) (button_3_initial p)
    (button_1_final p) (button_2_final p) (button_3_final p)
    (scheduled_at p) (activated_at p) b
    (broadcast_completed p) (created_by_admin_id p).

Definition set_broadcast_completed (b : bool) (p : Prediction) : Prediction :=
  mk_Prediction (id p) (status p) (media_type p) (media_file_id p) (post_text p)
    (button_1_initial p) (button_2_initial p) (button_3_initial p)
    (button_1_final p) (button_2_final p) (button_3_final p)
    (scheduled_at p) (activated_at p) (broadcast_started p)
    b (created_by_admin_id p).

(** A [str] is kept as its UTF-8 bytes: a character starts at every byte
    that is not a continuation byte. *)
Definition continuation_byte (c : ascii) : bool :=
  let n := nat_of_ascii c in ((128 <=? n) && (n <? 192))%nat.

(** The number of characters of a string. *)
Fixpoint char_length (s : string) : nat :=
  match s with
  | EmptyString => O
  | String c rest =>
      if continuation_byte c then char_length rest else S (char_length rest)
  end.

End Models.

Import Models.

(** ** The relational store

    The tables of [bot/db/migrations/versions/001_initial.py], with the
    constraints the migration declares.  ORM objects are rows identified by
    their primary key: assigning to an attribute of a loaded object and
    flushing is an UPDATE of the row with that key. *)

Module Store.

Record Database : Type := mk_Database {
  users : list User;
  predictions : list Prediction;
  choices : list UserPredictionChoice;
  predictions_id_seq : Z;
  choices_id_seq : Z
}.

Definition with_predictions (rows : list Prediction) (db : Database) : Database :=
  mk_Database (users db) rows (choices db)
    (predictions_id_seq db) (choices_id_seq db).

Definition with_choices (rows : list UserPredictionChoice) (db : Database)
  : Database :=
  mk_Database (users db) (predictions db) rows
    (predictions_id_seq db) (choices_id_seq db).

(** The data base with the rows of test choices deleted. *)
Definition without_test_choices (db : Database) : Database :=
  with_choices (filter (fun c => negb (is_test c)) (choices db)) db.

Definition has_status (s : PredictionStatus) (p : Prediction) : bool :=
  status_eqb (status p) s.

(** [select(Prediction).where(Prediction.status == s)] *)
Definition select_by_status (s : PredictionStatus) (db : Database)
  : list Prediction :=
  filter (has_status s) (predictions db).

(** [select(Prediction).where(Prediction.id == i)] *)
Definition select_by_id (i : Z) (db : Database) : list Prediction :=
  filter (fun p => id p =? i) (predictions db).

(** [Result.scalar_one_or_none()] *)
Definition scalar_one_or_none {A : Type} (rows : list A) : Result (option A) :=
  match rows with
  | [] => Ok None
  | [r] => Ok (Some r)
  | _ :: _ :: _ => Raise MultipleResultsFound
  end.

(** UPDATE of the row whose primary key is [i]. *)
Definition update_prediction (i : Z) (f : Prediction -> Prediction)
  (db : Database) : Database :=
  with_predictions
    (map (fun p => if id p =? i then f p else p) (predictions db)) db.

(** *** Column types

    [predictions.id] is an [INTEGER], and so is a parameter compared with
    it; [media_file_id] is a [VARCHAR(255)] and the six button labels are
    [VARCHAR(64)].  The other integer columns are filled from sequences,
    from Telegram's ids, from the clock, or with a button number that has
    been checked, and are given no range here. *)

(** The values of a 32-bit integer. *)
Definition int32 (n : Z) : bool :=
  (-2147483648 <=? n) && (n <=? 2147483647).

(** The first [n] characters of a string, and what comes after them. *)
Fixpoint clip (n : nat) (s : string) : string * string :=
  match s with
  | EmptyString => (EmptyString, EmptyString)
  | String c rest =>
      if continuation_byte c
      then let (kept, excess) := clip n rest in (String c kept, excess)
      else match n with
           | O => (EmptyString, s)
           | S n' => let (kept, excess) := clip n' rest in
                     (String c kept, excess)
           end
  end.

Fixpoint only_spaces (s : string) : bool :=
  match s with
  | EmptyString => true
  | String c rest => Ascii.eqb c " " && only_spaces rest
  end.

(** What a [VARCHAR(n)] column makes of a value written to it: characters
    beyond the [n]th are cut off when they are all spaces; any other
    over-long value is not changed, and the statement that writes it is
    refused. *)
Definition varchar (n : nat) (s : string) : string :=
  let (kept, excess) := clip n s in
  if only_spaces excess then kept else s.

(** The row an INSERT of a prediction writes. *)
Definition stored_prediction (p : Prediction) : Prediction :=
  mk_Prediction (id p) (status p) (media_type p)
    (varchar 255 (media_file_id p)) (post_text p)
    (varchar 64 (button_1_initial p)) (varchar 64 (button_2_initial p))
    (varchar 64 (button_3_initial p))
    (varchar 64 (button_1_final p)) (varchar 64 (button_2_final p))
    (varchar 64 (button_3_final p))
    (scheduled_at p) (activated_at p) (broadcast_started p)
    (broadcast_completed p) (created_by_admin_id p).

(** A row of [predictions] whose values fit their columns. *)
Definition prediction_row_ok (p : Prediction) : bool :=
  int32 (id p)
  && (char_length (media_file_id p) <=? 255)%nat
  && (char_length (button_1_initial p) <=? 64)%nat
  && (char_length (button_2_initial p) <=? 64)%nat
  && (char_length (button_3_initial p) <=? 64)%nat
  && (char_length (button_1_final p) <=? 64)%nat
  && (char_length (button_2_final p) <=? 64)%nat
  && (char_length (button_3_final p) <=? 64)%nat.

(** INSERT into [predictions]: the key comes from the table's sequence.  The
    object is returned as it was built; the table holds what its columns
    keep of it. *)
Definition insert_prediction (mk : Z -> Prediction) (db : Database)
  : Prediction * Database :=
  let p := mk (predictions_id_seq db) in
  (p, mk_Database (users db) (predictions db ++ [stored_prediction p])
        (choices db) (predictions_id_seq db + 1) (choices_id_seq db)).

(** INSERT into [user_prediction_choices]. *)
Definition insert_choice (mk : Z -> UserPredictionChoice) (db : Database)
  : UserPredictionChoice * Database :=
  let c := mk (choices_id_seq db) in
  (c, mk_Database (users db) (predictions db) (choices db ++ [c])
        (predictions_id_seq db) (choices_id_seq db + 1)).

(** *** Declared constraints *)

Fixpoint distinct {A : Type} (eqb : A -> A -> bool) (l : list A) : bool :=
  match l with
  | [] => true
  | x :: rest => negb (existsb (eqb x) rest) && distinct eqb rest
  end.

(** The partial unique indexes [ix_predictions_unique_active] and
    [ix_predictions_unique_scheduled]: at most one row with that status. *)
Definition unique_status (s : PredictionStatus) (db : Database) : bool :=
  (List.length (select_by_status s db) <=? 1)%nat.

(** [uq_user_prediction_choice_per_month]: UNIQUE (telegram_user_id, year,
    month).  The constraint has no condition on [is_test]. *)
Definition same_period_key (a b : UserPredictionChoice) : bool :=
  (telegram_user_id a =? telegram_user_id b)
  && (year a =? year b) && (month a =? month b).

(** [ForeignKey("users.id")] on [predictions.created_by_admin_id], which
    may be NULL. *)
Definition admin_reference_ok (rows : list User) (p : Prediction) : bool :=
  match created_by_admin_id p with
  | None => true
  | Some a => existsb (fun u => user_id u =? a) rows
  end.

(** [ForeignKey("predictions.id")] on
    [user_prediction_choices.prediction_id]. *)
Definition prediction_reference_ok (rows : list Prediction)
  (c : UserPredictionChoice) : bool :=
  existsb (fun p => id p =? prediction_id c) rows.

Definition references_ok (db : Database) : bool :=
  forallb (admin_reference_ok (users db)) (predictions db)
  && forallb (prediction_reference_ok (predictions db)) (choices db).

(** Every stored value fits the type of its column. *)
Definition columns_ok (db : Database) : bool :=
  forallb prediction_row_ok (predictions db).

(** What the schema declares: the keys and unique indexes, the foreign
    keys, and the types of the columns. *)
Definition constraints_ok (db : Database) : bool :=
  distinct Z.eqb (map id (predictions db))
  && unique_status SCHEDULED db
  && unique_status ACTIVE db
  && distinct Z.eqb (map choice_id (choices db))
  && distinct same_period_key (choices db)
  && distinct Z.eqb (map user_id (users db))
  && distinct Z.eqb (map user_telegram_user_id (users db))
  && references_ok db
  && columns_ok db.

(** [session.flush()]: the pending writes reach the store.  A value that
    does not fit its column is refused with [DBAPIError]; a write that
    violates a key, a unique index or a foreign key is refused with
    [IntegrityError]. *)
Definition flush (db : Database) : Result Database :=
  if constraints_ok db then Ok db
  else if columns_ok db then Raise IntegrityError
  else Raise DBAPIError.

(** [session.rollback()]: the rows are those of the last commit; a sequence
    does not take back the keys that were drawn since. *)
Definition rollback (committed reached : Database) : Database :=
  mk_Database (users committed) (predictions committed) (choices committed)
    (predictions_id_seq reached) (choices_id_seq reached).

(** Whether an INSERT that was refused had drawn its key.  A row that a
    constraint refuses was built, key and all.  A value that does not fit
    its column is refused where the server evaluates the values of the
    statement: before any key is drawn when it does so while planning, after
    the key is drawn when it does so at execution. *)
Definition key_drawn (at_execution : bool) (e : exn) : bool :=
  match e with
  | DBAPIError => at_execution
  | _ => true
  end.

(** The session after an INSERT that was refused: there is no new row, and
    the key, if one was drawn, is spent. *)
Definition refused_prediction (drawn : bool) (db : Database) : Database :=
  mk_Database (users db) (predictions db) (choices db)
    (if drawn then predictions_id_seq db + 1 else predictions_id_seq db)
    (choices_id_seq db).

(** The rows of the ledger have no column a value can fail to fit, so a
    refused INSERT into it was refused by a constraint. *)
Definition refused_choice (db : Database) : Database :=
  mk_Database (users db) (predictions db) (choices db)
    (predictions_id_seq db) (choices_id_seq db + 1).

(** A store as the data base can hold it: the constraints hold and the key
    sequences are ahead of every key handed out. *)
Definition consistent (db : Database) : Prop :=
  constraints_ok db = true
  /\ Forall (fun p => id p < predictions_id_seq db) (predictions db)
  /\ Forall (fun c => choice_id c < choices_id_seq db) (choices db).

Definition empty : Database := mk_Database [] [] [] 1 1.

End Store.

Import Store.

(** ** bot/services/user_service.py *)

Module UserService.

(** [get_all_user_telegram_ids] *)
Definition get_all_user_telegram_ids (db : Database) : list Z :=
  map user_telegram_user_id (users db).

End UserService.

(** ** bot/services/prediction_service.py *)

Module PredictionService.

Definition get_active_prediction (db : Database) : Result (option Prediction) :=
  scalar_one_or_none (select_by_status ACTIVE db).

Definition get_scheduled_prediction (db : Database)
  : Result (option Prediction) :=
  scalar_one_or_none (select_by_status SCHEDULED db).

(** The key is bound as a parameter of type [INTEGER]: one outside its
    range does not reach the query. *)
Definition get_prediction_by_id (prediction_id : Z) (db : Database)
  : Result (option Prediction) :=
  if int32 prediction_id
  then scalar_one_or_none (select_by_id prediction_id db)
  else Raise DBAPIError.

(** The keyword arguments of [create_prediction]. *)
Record Content : Type := mk_Content {
  c_media_type : MediaType;
  c_media_file_id : string;
  c_post_text : string;
  c_button_1_initial : string;
  c_button_2_initial : string;
  c_button_3_initial : string;
  c_button_1_final : string;
  c_button_2_final : string;
  c_button_3_final : string;
  c_scheduled_at : Z;
  c_created_by_admin_id : option Z
}.

(** The row [Prediction(status=SCHEDULED, ...)] builds; the columns not set
    there take their defaults. *)
Definition new_prediction (c : Content) (key : Z) : Prediction :=
  mk_Prediction key SCHEDULED (c_media_type c) (c_media_file_id c)
    (c_post_text c)
    (c_button_1_initial c) (c_button_2_initial c) (c_button_3_initial c)
    (c_button_1_final c) (c_button_2_final c) (c_button_3_final c)
    (c_scheduled_at c) None false false (c_created_by_admin_id c).

(** First half of [create_prediction]: cancel any existing scheduled
    prediction, up to and including its flush. *)
Definition supersede_scheduled (db : Database) : Result Database :=
  existing_scheduled <- get_scheduled_prediction db ;;
  match existing_scheduled with
  | Some e => flush (update_prediction (id e) (set_status CANCELLED) db)
  | None => Ok db
  end.

Definition create_prediction (c : Content) (db : Database)
  : Result (Prediction * Database) :=
  db1 <- supersede_scheduled db ;;
  let (prediction, db2) := insert_prediction (new_prediction c) db1 in
  db3 <- flush db2 ;;
  Ok (prediction, db3).

(** The three assignments of [activate_prediction] to the loaded object:
    [status], [activated_at], [broadcast_started]. *)
Definition activated (now : datetime) (p : Prediction) : Prediction :=
  set_broadcast_started true
    (set_activated_at (Some (timestamp now)) (set_status ACTIVE p)).

(** [activate_prediction]: archive the active prediction, if any, then make
    this one active.  There is no test of [prediction.status]. *)
Definition activate_prediction (now : datetime) (prediction : Prediction)
  (db : Database) : Result Database :=
  active <- get_active_prediction db ;;
  db1 <- match active with
         | Some a => flush (update_prediction (id a) (set_status ARCHIVED) db)
         | None => Ok db
         end ;;
  flush (update_prediction (id prediction) (activated now) db1).

Definition mark_broadcast_completed (prediction : Prediction) (db : Database)
  : Result Database :=
  flush (update_prediction (id prediction) (set_broadcast_completed true) db).

Definition cancel_prediction (prediction : Prediction) (db : Database)
  : Result Database :=
  flush (update_prediction (id prediction) (set_status CANCELLED) db).

Definition has_user_chosen_this_month (telegram_user_id0 year0 month0 : Z)
  (db : Database) : Result bool :=
  r <- scalar_one_or_none
         (filter (fun c => (telegram_user_id c =? telegram_user_id0)
                           && (year c =? year0) && (month c =? month0)
                           && Bool.eqb (is_test c) false)
                 (choices db)) ;;
  Ok (match r with Some _ => true | None => false end).

(** [record_user_choice]: build the row from the arguments and the current
    year and month, add it, flush.  Nothing is looked up first. *)
Definition record_user_choice (now : datetime)
  (telegram_user_id0 prediction_id0 selected_button0 : Z) (is_test0 : bool)
  (db : Database) : Result (UserPredictionChoice * Database) :=
  let (choice, db1) :=
    insert_choice
      (fun key => mk_Choice key telegram_user_id0 prediction_id0
                    selected_button0 (dt_year now) (dt_month now) is_test0)
      db in
  db2 <- flush db1 ;;
  Ok (choice, db2).

(** A sequence of [create_prediction] calls and every state of the store
    it passes through: the state before each call, the state after the flush
    that cancels the superseded prediction, and the state the call leaves.
    Each call runs in a session of its own; a call that raises is rolled
    back: the cancellation is undone with the refused insert, and the key
    the insert had drawn, if any, stays spent.  [at_execution] tells, call
    by call, where the server evaluates the values of the INSERT (at
    execution when the list runs out). *)
Fixpoint create_history (at_execution : list bool) (cs : list Content)
  (db : Database) : list Database :=
  match cs with
  | [] => [db]
  | c :: rest =>
      db ::
      match supersede_scheduled db with
      | Raise _ => create_history (tl at_execution) rest db
      | Ok db1 =>
          db1 ::
          match create_prediction c db with
          | Ok (_, db2) => create_history (tl at_execution) rest db2
          | Raise e =>
              create_history (tl at_execution) rest
                (rollback db
                   (refused_prediction (key_drawn (hd true at_execution) e)
                      db1))
          end
      end
  end.

(** A content the store takes as it is: the key the sequence hands out is
    in range, every string fits its column with nothing to cut off, and the
    admin, when one is given, is a user. *)
Definition acceptable (c : Content) (db : Database) : bool :=
  let p := new_prediction c (predictions_id_seq db) in
  prediction_row_ok p && admin_reference_ok (users db) p.

Definition get_current_or_scheduled_prediction (db : Database)
  : Result (option Prediction) :=
  active <- get_active_prediction db ;;
  match active with
  | Some a => Ok (Some a)
  | None => get_scheduled_prediction db
  end.

End PredictionService.

(** ** bot/services/statistics_service.py *)

Module StatisticsService.

Record MonthlyStatistics : Type := mk_MonthlyStatistics {
  ms_year : Z;
  ms_month : Z;
  total_users : nat;
  active_users : nat;
  button_1_count : nat;
  button_2_count : nat;
  button_3_count : nat
}.

(** Python's [sum] over a list of naturals. *)
Definition py_sum (l : list nat) : nat := fold_left Nat.add l 0%nat.

(** [sum(1 for c in choices if c.selected_button == b)] *)
Definition count_button (b : Z) (choices : list UserPredictionChoice) : nat :=
  py_sum (map (fun _ => 1%nat) (filter (fun c => selected_button c =? b) choices)).

(** The WHERE clause of the monthly query. *)
Definition in_month_not_test (year0 month0 : Z) (c : UserPredictionChoice)
  : bool :=
  (year c =? year0) && (month c =? month0) && Bool.eqb (is_test c) false.

Definition get_current_month_statistics (now : datetime) (db : Database)
  : MonthlyStatistics :=
  let year0 := dt_year now in
  let month0 := dt_month now in
  let total_users := List.length (users db) in
  let choices := filter (in_month_not_test year0 month0) (choices db) in
  let active_users := List.length choices in
  let button_1_count := count_button 1 choices in
  let button_2_count := count_button 2 choices in
  let button_3_count := count_button 3 choices in
  mk_MonthlyStatistics year0 month0 total_users active_users
    button_1_count button_2_count button_3_count.

End StatisticsService.

(** ** bot/keyboards/user.py *)

Module Keyboards.

Record InlineKeyboardButton : Type := mk_Button {
  text : string;
  callback_data : string
}.

Definition InlineKeyboardMarkup : Type := list (list InlineKeyboardButton).

(** [str(n)] for an integer, as an f-string formats it. *)
Definition str_of_int (n : Z) : string := NilZero.string_of_int (Z.to_int n).

Definition get_prediction_keyboard (prediction : Prediction) (is_test : bool)
  : InlineKeyboardMarkup :=
  let prefix := (if is_test then "test_" else "")%string in
  let data (n : string) : string :=
    (prefix ++ "select:" ++ str_of_int (id prediction) ++ ":" ++ n)%string in
  [ [mk_Button (button_1_initial prediction) (data "1"%string)];
    [mk_Button (button_2_initial prediction) (data "2"%string)];
    [mk_Button (button_3_initial prediction) (data "3"%string)] ].

Definition get_selected_keyboard (prediction : Prediction) (selected_button : Z)
  : InlineKeyboardMarkup :=
  let final_text := get_final_button prediction selected_button in
  [ [mk_Button final_text
       ("selected:" ++ str_of_int (id prediction) ++ ":"
          ++ str_of_int selected_button)%string] ].

End Keyboards.

Import Keyboards.

(** ** The messaging transport and the record of what was done *)

Module Effects.

(** What a call of the bot API can do: return, or raise one of the
    exception classes the code tells apart. *)
Inductive ApiOutcome : Type :=
| Returned
| TelegramRetryAfter (retry_after : Z)
| TelegramForbiddenError
| TelegramBadRequest
| OtherException.

(** The texts the handlers answer a callback with. *)
Inductive Notice : Type :=
| DataError
| BadButtonNumber
| AlreadyChosenThisMonth
| PredictionNotFound
| ChoiceSaved
| TestChoiceNotCounted
| TestChoice.

Inductive BotCall : Type :=
| send_photo (chat_id : Z) (photo caption : string)
    (reply_markup : InlineKeyboardMarkup)
| send_video (chat_id : Z) (video caption : string)
    (reply_markup : InlineKeyboardMarkup)
| send_animation (chat_id : Z) (animation caption : string)
    (reply_markup : InlineKeyboardMarkup)
| edit_reply_markup (reply_markup : InlineKeyboardMarkup)
| answer (text : option Notice) (show_alert : bool).

(** Scheduler jobs are named ["broadcast_{id}"]; the name is kept as the
    prediction id it is built from. *)
Record DateJob : Type := mk_DateJob {
  job_prediction_id : Z;
  run_date : Z
}.

Inductive Action : Type :=
| ApiCall (c : BotCall)
| Sleep (seconds : Z)
| OnProgress (processed total : nat)
| Activate (prediction_id : Z)
| Broadcast (prediction_id : Z) (user_ids : list Z)
| MarkCompleted (prediction_id : Z)
| RecordChoice (telegram_user_id : Z) (is_test : bool)
| Commit
| Rollback
| AddJob (j : DateJob).

Definition is_api_send (a : Action) : bool :=
  match a with
  | ApiCall (send_photo _ _ _ _) | ApiCall (send_video _ _ _ _)
  | ApiCall (send_animation _ _ _ _) => true
  | _ => false
  end.

Definition is_activate (a : Action) : bool :=
  match a with Activate _ => true | _ => false end.

Definition is_broadcast (a : Action) : bool :=
  match a with Broadcast _ _ => true | _ => false end.

Definition is_record_choice (a : Action) : bool :=
  match a with RecordChoice _ _ => true | _ => false end.

(** The actions of the broadcast service: calls of the transport, sleeps
    and progress reports. *)
Definition transport_only (a : Action) : bool :=
  match a with
  | ApiCall _ | Sleep _ | OnProgress _ _ => true
  | _ => false
  end.

Definition count_actions (f : Action -> bool) (tr : list Action) : nat :=
  List.length (filter f tr).

End Effects.

Import Effects.

(** ** bot/services/broadcast_service.py *)

Module BroadcastService.

Definition BATCH_SIZE : nat := 25.
Definition BATCH_DELAY : Z := 1.
Definition MAX_RETRIES : nat := 3.
Definition RETRY_DELAY : Z := 5.

Record BroadcastResult : Type := mk_BroadcastResult {
  success_count : nat;
  failure_count : nat;
  errors : list Z
}.

Section Transport.

(** The bot API client: a state and a transition that answers each call. *)
Variable Bot : Type.
Variable bot_call : Bot -> BotCall -> ApiOutcome * Bot.

(** The request [_send_media_message] makes for a media type. *)
Definition media_call (chat_id : Z) (prediction : Prediction)
  (keyboard : InlineKeyboardMarkup) : BotCall :=
  let caption := post_text prediction in
  match media_type prediction with
  | PHOTO => send_photo chat_id (media_file_id prediction) caption keyboard
  | VIDEO => send_video chat_id (media_file_id prediction) caption keyboard
  | GIF | ANIMATION =>
      send_animation chat_id (media_file_id prediction) caption keyboard
  end.

Definition _send_media_message (bot : Bot) (chat_id : Z)
  (prediction : Prediction) (keyboard : InlineKeyboardMarkup)
  : ApiOutcome * Bot * list Action :=
  let c := media_call chat_id prediction keyboard in
  let (o, bot1) := bot_call bot c in
  (o, bot1, [ApiCall c]).

(** What came before a recursive call is put in front of its record. *)
Definition after (pre : list Action) (r : bool * Bot * list Action)
  : bool * Bot * list Action :=
  let '(ok, bot1, tr) := r in (ok, bot1, pre ++ tr).

Equations? _send_to_user (bot : Bot) (user_id : Z) (prediction : Prediction)
  (keyboard : InlineKeyboardMarkup) (retry_count : nat)
  : bool * Bot * list Action by wf (MAX_RETRIES - retry_count)%nat lt :=
_send_to_user bot user_id prediction keyboard retry_count
  with _send_media_message bot user_id prediction keyboard := {
  | (Returned, bot1, tr) := (true, bot1, tr)
  | (TelegramRetryAfter retry_after, bot1, tr)
      with lt_dec retry_count MAX_RETRIES := {
      | left _ :=
          after (tr ++ [Sleep retry_after])
            (_send_to_user bot1 user_id prediction keyboard (retry_count + 1))
      | right _ := (false, bot1, tr) }
  | (TelegramForbiddenError, bot1, tr) := (false, bot1, tr)
  | (TelegramBadRequest, bot1, tr) := (false, bot1, tr)
  | (OtherException, bot1, tr)
      with lt_dec retry_count MAX_RETRIES := {
      | left _ :=
          let delay := RETRY_DELAY * 2 ^ Z.of_nat retry_count in
          after (tr ++ [Sleep delay])
            (_send_to_user bot1 user_id prediction keyboard (retry_count + 1))
      | right _ := (false, bot1, tr) } }.
Proof.
  all: unfold MAX_RETRIES in *; destruct retry_count as [|[|[|n]]]; simpl; lia.
Qed.

(** [range(start, stop, step)] for a positive step. *)
Definition py_range (start stop step : nat) : list nat :=
  map (fun k => start + k * step)%nat
      (seq 0 ((stop - start + step - 1) / step)).

(** The loop state of [broadcast_prediction]: the transport, the three
    accumulators, and the record of what was done. *)
Record Tally : Type := mk_Tally {
  t_bot : Bot;
  t_success_count : nat;
  t_failure_count : nat;
  t_errors : list Z;
  t_trace : list Action
}.

Definition log (tr : list Action) (st : Tally) : Tally :=
  mk_Tally (t_bot st) (t_success_count st) (t_failure_count st) (t_errors st)
    (t_trace st ++ tr).

(** Body of [for user_id in batch]. *)
Definition send_one (prediction : Prediction) (keyboard : InlineKeyboardMarkup)
  (st : Tally) (user_id : Z) : Tally :=
  let '(success, bot1, tr) :=
    _send_to_user (t_bot st) user_id prediction keyboard 0 in
  if success
  then mk_Tally bot1 (t_success_count st + 1) (t_failure_count st)
         (t_errors st) (t_trace st ++ tr)
  else mk_Tally bot1 (t_success_count st) (t_failure_count st + 1)
         (t_errors st ++ [user_id]) (t_trace st ++ tr).

(** The progress callback either returns ([true]) or raises ([false]); what
    it raises is logged and dropped. *)
Definition report_progress (on_progress : option (nat -> nat -> bool))
  (processed total : nat) : list Action :=
  match on_progress with
  | Some callback =>
      if callback processed total
      then [OnProgress processed total]
      else [OnProgress processed total]
  | None => []
  end.

(** Body of [for i in range(0, total_users, BATCH_SIZE)]. *)
Definition batch_step (prediction : Prediction) (user_ids : list Z)
  (keyboard : InlineKeyboardMarkup) (on_progress : option (nat -> nat -> bool))
  (st : Tally) (i : nat) : Tally :=
  let total_users := List.length user_ids in
  let batch := firstn BATCH_SIZE (skipn i user_ids) in
  let st1 := fold_left (send_one prediction keyboard) batch st in
  let st2 :=
    log (report_progress on_progress (i + List.length batch) total_users) st1 in
  if (i + BATCH_SIZE <? total_users)%nat
  then log [Sleep BATCH_DELAY] st2
  else st2.

Definition broadcast_prediction (bot : Bot) (prediction : Prediction)
  (user_ids : list Z) (keyboard : InlineKeyboardMarkup)
  (on_progress : option (nat -> nat -> bool))
  : BroadcastResult * Bot * list Action :=
  let total_users := List.length user_ids in
  let st :=
    fold_left (batch_step prediction user_ids keyboard on_progress)
      (py_range 0 total_users BATCH_SIZE)
      (mk_Tally bot 0 0 [] []) in
  (mk_BroadcastResult (t_success_count st) (t_failure_count st) (t_errors st),
   t_bot st, t_trace st).

(** [send_test_prediction]: one call of [_send_media_message] inside a
    [try]; every exception gives [False]. *)
Definition send_test_prediction (bot : Bot) (chat_id : Z)
  (prediction : Prediction) (keyboard : InlineKeyboardMarkup)
  : bool * Bot * list Action :=
  let '(o, bot1, tr) := _send_media_message bot chat_id prediction keyboard in
  match o with
  | Returned => (true, bot1, tr)
  | _ => (false, bot1, tr)
  end.

(** The accumulators of [st'] are those of [st] advanced over the
    recipients [l], of which [fails] tells the ones that end as failures. *)
Definition grows_by (fails : Z -> bool) (l : list Z)
  (st st' : Tally) : Prop :=
  t_success_count st'
    = (t_success_count st
       + List.length (filter (fun u => negb (fails u)) l))%nat
  /\ t_failure_count st'
    = (t_failure_count st + List.length (filter fails l))%nat
  /\ t_errors st' = t_errors st ++ filter fails l.

(** The single-recipient send as the specification describes it: the
    per-recipient send of a broadcast, with its retry policy, started afresh
    for one recipient.  It is compared with [send_test_prediction] below. *)
Definition send_single_spec (bot : Bot) (recipient_id : Z)
  (prediction : Prediction) (keyboard : InlineKeyboardMarkup)
  : bool * Bot * list Action :=
  _send_to_user bot recipient_id prediction keyboard 0.

(** Observations on the result of a send. *)
Definition outcome_of (r : bool * Bot * list Action) : bool := fst (fst r).
Definition trace_of (r : bool * Bot * list Action) : list Action := snd r.
Definition sends (r : bool * Bot * list Action) : nat :=
  count_actions is_api_send (trace_of r).

End Transport.

(** The two kinds of outcome [_send_to_user] retries on. *)
Definition retryable (o : ApiOutcome) : bool :=
  match o with
  | TelegramRetryAfter _ | OtherException => true
  | _ => false
  end.

(** The two kinds it gives up on at once. *)
Definition permanent (o : ApiOutcome) : bool :=
  match o with
  | TelegramForbiddenError | TelegramBadRequest => true
  | _ => false
  end.

End BroadcastService.

(** ** bot/db/session.py *)

Module DbSession.

(** Modelled from the spec: the session factory [async_session_maker] of
    [bot/db/session.py], which is not among the sources.  The spec has the
    activation, the broadcast and the completion applied one after the
    other, each in a transaction of its own, on the prediction that was
    fetched at the start: an object loaded in a session is still readable
    after a commit of that session, so the factory is the one created with
    [expire_on_commit=False]. *)
Definition expire_on_commit : bool := false.

End DbSession.

(** ** bot/scheduler/jobs.py *)

Module Jobs.

Import UserService PredictionService BroadcastService.

Section Transport.

Variable Bot : Type.
Variable bot_call : Bot -> BotCall -> ApiOutcome * Bot.

(** What the jobs act on: the committed data base, the transport, and the
    module-level [scheduler] ([None] until [setup_scheduler] ran) with the
    one-shot jobs it holds. *)
Record World : Type := mk_World {
  w_db : Database;
  w_bot : Bot;
  w_scheduler : option (list DateJob)
}.

Definition with_db (db : Database) (w : World) : World :=
  mk_World db (w_bot w) (w_scheduler w).

(** [scheduler.get_job(job_id)] *)
Definition get_job (prediction_id : Z) (jobs : list DateJob) : option DateJob :=
  find (fun j => job_prediction_id j =? prediction_id) jobs.

(** [scheduler.add_job(..., replace_existing=True)] *)
Definition add_job (j : DateJob) (jobs : list DateJob) : list DateJob :=
  filter (fun j' => negb (job_prediction_id j' =? job_prediction_id j)) jobs
    ++ [j].

(** [broadcast_prediction_job].  Every commit makes the session's view the
    committed data base; the [except] branch rolls back to the last commit.
    The job writes by UPDATE only, so no key of a sequence is involved.
    After the first commit the job reads [prediction] again to build the
    keyboard: were the objects of the session expired by a commit, that
    read would raise and the job would end in its [except] branch. *)
Definition broadcast_prediction_job (now : datetime) (w : World)
  (prediction_id : Z) : World * list Action :=
  let db := w_db w in
  match get_prediction_by_id prediction_id db with
  | Raise _ => (w, [Rollback])
  | Ok None => (w, [])
  | Ok (Some prediction) =>
      if negb (status_eqb (status prediction) SCHEDULED) then (w, [])
      else if broadcast_started prediction
              && negb (broadcast_completed prediction) then (w, [])
      else
        match activate_prediction now prediction db with
        | Raise _ => (w, [Activate (id prediction); Rollback])
        | Ok db1 =>
            let prediction1 := activated now prediction in
            let user_ids := get_all_user_telegram_ids db1 in
            match user_ids with
            | [] =>
                match mark_broadcast_completed prediction1 db1 with
                | Raise _ =>
                    (with_db db1 w,
                     [Activate (id prediction); Commit;
                      MarkCompleted (id prediction); Rollback])
                | Ok db2 =>
                    (with_db db2 w,
                     [Activate (id prediction); Commit;
                      MarkCompleted (id prediction); Commit])
                end
            | _ :: _ =>
                if DbSession.expire_on_commit
                then (with_db db1 w,
                      [Activate (id prediction); Commit; Rollback])
                else
                let keyboard := get_prediction_keyboard prediction1 false in
                let '(_, bot1, tr) :=
                  broadcast_prediction Bot bot_call (w_bot w) prediction1
                    user_ids keyboard None in
                let done :=
                  [Activate (id prediction); Commit;
                   Broadcast (id prediction) user_ids] ++ tr
                  ++ [MarkCompleted (id prediction)] in
                match mark_broadcast_completed prediction1 db1 with
                | Raise _ =>
                    (mk_World db1 bot1 (w_scheduler w), done ++ [Rollback])
                | Ok db2 =>
                    (mk_World db2 bot1 (w_scheduler w), done ++ [Commit])
                end
            end
        end
  end.

(** [check_scheduled_predictions].  [now] is the clock reading of the due
    test, [later] the one the job takes when it activates. *)
Definition check_scheduled_predictions (now later : datetime) (w : World)
  : World * list Action :=
  match get_scheduled_prediction (w_db w) with
  | Raise _ => (w, [])
  | Ok None => (w, [])
  | Ok (Some scheduled) =>
      if scheduled_at scheduled <=? timestamp now then
        if negb (broadcast_started scheduled)
        then broadcast_prediction_job later w (id scheduled)
        else (w, [])
      else
        match w_scheduler w with
        | None => (w, [])
        | Some jobs =>
            match get_job (id scheduled) jobs with
            | Some _ => (w, [])
            | None =>
                let j := mk_DateJob (id scheduled) (scheduled_at scheduled) in
                (mk_World (w_db w) (w_bot w) (Some (add_job j jobs)),
                 [AddJob j])
            end
        end
  end.

End Transport.

End Jobs.

(** ** bot/handlers/user/prediction.py and bot/middlewares/database.py *)

Module Handlers.

Import PredictionService.

Record CallbackQuery : Type := mk_CallbackQuery {
  from_user : option Z;
  data : option string
}.

(** [str.split(sep)] for a one-character separator. *)
Fixpoint split (sep : Ascii.ascii) (s : string) : list string :=
  match s with
  | EmptyString => [EmptyString]
  | String c rest =>
      if Ascii.eqb c sep then EmptyString :: split sep rest
      else match split sep rest with
           | [] => [String c EmptyString]
           | w :: ws => String c w :: ws
           end
  end.

(** Python truthiness of an optional string. *)
Definition truthy (s : option string) : bool :=
  match s with
  | None | Some EmptyString => false
  | Some _ => true
  end.

Section Transport.

Variable Bot : Type.
(** Here the transport answers [callback.answer] and
    [callback.message.edit_reply_markup]. *)
Variable bot_call : Bot -> BotCall -> ApiOutcome * Bot.
(** Python's [int(str)]: [None] stands for [ValueError]. *)
Variable py_int : string -> option Z.

(** How a handler ended: it returned, or an exception left it. *)
Record HandlerEnd : Type := mk_HandlerEnd {
  returned : bool;
  h_db : Database;
  h_bot : Bot;
  h_trace : list Action
}.

(** [await callback.answer(...)] as the last statement of a path. *)
Definition reply (notice : option Notice) (show_alert : bool)
  (db : Database) (bot : Bot) (tr : list Action) : HandlerEnd :=
  let c := answer notice show_alert in
  let (o, bot1) := bot_call bot c in
  mk_HandlerEnd
    (match o with Returned => true | _ => false end)
    db bot1 (tr ++ [ApiCall c]).

(** The common tail of both handlers:
    [try: edit_reply_markup; answer(first) except Exception: answer(second)]. *)
Definition edit_then_answer (kb : InlineKeyboardMarkup) (first second : Notice)
  (db : Database) (bot : Bot) (tr : list Action) : HandlerEnd :=
  let c := edit_reply_markup kb in
  let (o, bot1) := bot_call bot c in
  match o with
  | Returned =>
      let a := answer (Some first) false in
      let (o2, bot2) := bot_call bot1 a in
      match o2 with
      | Returned =>
          mk_HandlerEnd true db bot2 (tr ++ [ApiCall c; ApiCall a])
      | _ => reply (Some second) false db bot2 (tr ++ [ApiCall c; ApiCall a])
      end
  | _ => reply (Some second) false db bot1 (tr ++ [ApiCall c])
  end.

Definition handle_button_selection (now : datetime) (callback : CallbackQuery)
  (db : Database) (bot : Bot) : HandlerEnd :=
  match from_user callback, truthy (data callback), data callback with
  | Some user_id, true, Some data0 =>
      let parts := split ":"%char data0 in
      if negb (List.length parts =? 3)%nat
      then reply (Some DataError) false db bot []
      else
        match py_int (nth 1 parts EmptyString) with
        | None => reply (Some DataError) false db bot []
        | Some prediction_id =>
        match py_int (nth 2 parts EmptyString) with
        | None => reply (Some DataError) false db bot []
        | Some button_number =>
            if negb ((button_number =? 1) || (button_number =? 2)
                     || (button_number =? 3))
            then reply (Some BadButtonNumber) false db bot []
            else
              match has_user_chosen_this_month user_id (dt_year now)
                      (dt_month now) db with
              | Raise _ => mk_HandlerEnd false db bot []
              | Ok true => reply (Some AlreadyChosenThisMonth) true db bot []
              | Ok false =>
                  match get_prediction_by_id prediction_id db with
                  | Raise _ => mk_HandlerEnd false db bot []
                  | Ok None => reply (Some PredictionNotFound) false db bot []
                  | Ok (Some prediction) =>
                      match record_user_choice now user_id prediction_id
                              button_number false db with
                      | Raise _ =>
                          mk_HandlerEnd false (refused_choice db) bot
                            [RecordChoice user_id false]
                      | Ok (_, db1) =>
                          edit_then_answer
                            (get_selected_keyboard prediction button_number)
                            ChoiceSaved ChoiceSaved db1 bot
                            [RecordChoice user_id false]
                      end
                  end
              end
        end
        end
  | _, _, _ => reply None false db bot []
  end.

Definition handle_test_button_selection (callback : CallbackQuery)
  (db : Database) (bot : Bot) : HandlerEnd :=
  match from_user callback, truthy (data callback), data callback with
  | Some _, true, Some data0 =>
      let parts := split ":"%char data0 in
      if negb (List.length parts =? 3)%nat
      then reply (Some DataError) false db bot []
      else
        match py_int (nth 1 parts EmptyString) with
        | None => reply (Some DataError) false db bot []
        | Some prediction_id =>
        match py_int (nth 2 parts EmptyString) with
        | None => reply (Some DataError) false db bot []
        | Some button_number =>
            match get_prediction_by_id prediction_id db with
            | Raise _ => mk_HandlerEnd false db bot []
            | Ok None => reply (Some PredictionNotFound) false db bot []
            | Ok (Some prediction) =>
                edit_then_answer
                  (get_selected_keyboard prediction button_number)
                  TestChoiceNotCounted TestChoice db bot []
            end
        end
        end
  | _, _, _ => reply None false db bot []
  end.

(** [DatabaseMiddleware.__call__]: commit when the handler returns, roll
    back when an exception leaves it. *)
Definition with_session (handler : Database -> Bot -> HandlerEnd)
  (db : Database) (bot : Bot) : HandlerEnd :=
  let r := handler db bot in
  if returned r
  then mk_HandlerEnd true (h_db r) (h_bot r) (h_trace r ++ [Commit])
  else mk_HandlerEnd false (rollback db (h_db r)) (h_bot r)
         (h_trace r ++ [Rollback]).

End Transport.

End Handlers.

(** ** Concrete transports and data used in the examples *)

Module Scenarios.

Import BroadcastService.

(** A transport that answers every call the same way. *)
Definition always (o : ApiOutcome) (bot : unit) (c : BotCall)
  : ApiOutcome * unit := (o, bot).

(** A transport that plays a script of outcomes, then accepts everything. *)
Definition scripted (bot : list ApiOutcome) (c : BotCall)
  : ApiOutcome * list ApiOutcome :=
  match bot with
  | [] => (Returned, [])
  | o :: rest => (o, rest)
  end.

Definition chat_of (c : BotCall) : option Z :=
  match c with
  | send_photo chat _ _ _ | send_video chat _ _ _
  | send_animation chat _ _ _ => Some chat
  | _ => None
  end.

(** A transport on which the chats of [blocked] have blocked the bot; the
    state counts the calls made. *)
Definition blocking (blocked : list Z) (bot : nat) (c : BotCall)
  : ApiOutcome * nat :=
  match chat_of c with
  | Some chat =>
      if existsb (Z.eqb chat) blocked
      then (TelegramForbiddenError, S bot)
      else (Returned, S bot)
  | None => (Returned, S bot)
  end.

Definition sample_prediction (key : Z) (s : PredictionStatus) : Prediction :=
  mk_Prediction key s PHOTO "file-1" "What awaits you this month?"
    "Sun" "Moon" "Star" "Joy" "Rest" "Luck" 1000 None false false None.

Definition sixty_users : list Z := map Z.of_nat (seq 1 60).

Definition sample_content (label : string) (at_time : Z) : PredictionService.Content :=
  PredictionService.mk_Content VIDEO "file-2" label
    "Sun" "Moon" "Star" "Joy" "Rest" "Luck" at_time (Some 1).

(** A store with a cancelled prediction and an active one. *)
Definition lifecycle_db : Database :=
  mk_Database []
    [sample_prediction 1 CANCELLED; sample_prediction 2 ACTIVE] [] 3 1.

(** A store with an archived, an active and a scheduled prediction. *)
Definition busy_db : Database :=
  mk_Database [mk_User 1 10 true]
    [sample_prediction 1 ARCHIVED; sample_prediction 2 ACTIVE;
     sample_prediction 3 SCHEDULED] [] 4 1.

(** A store with one scheduled prediction, due at 1000, and no recipient. *)
Definition lonely_db : Database :=
  mk_Database [] [sample_prediction 1 SCHEDULED] [] 2 1.

Definition lonely_world : Jobs.World unit :=
  Jobs.mk_World unit lonely_db tt None.

(** The same with two recipients, the second of whom blocked the bot. *)
Definition due_db : Database :=
  mk_Database [mk_User 1 10 false; mk_User 2 11 false]
    [sample_prediction 1 ARCHIVED; sample_prediction 2 ACTIVE;
     sample_prediction 3 SCHEDULED] [] 4 1.

Definition due_world : Jobs.World nat :=
  Jobs.mk_World nat due_db 0%nat (Some []).

Definition lifecycle_world : Jobs.World unit :=
  Jobs.mk_World unit lifecycle_db tt None.

Definition nov_2026 : datetime := mk_datetime 1793000000 2026 11.

(** A ledger with three November choices, one of them a test, and one
    choice of October. *)
Definition ledger_db : Database :=
  mk_Database
    [mk_User 1 10 false; mk_User 2 11 false; mk_User 3 12 true;
     mk_User 4 13 false]
    [sample_prediction 1 ACTIVE]
    [mk_Choice 1 10 1 1 2026 11 false;
     mk_Choice 2 11 1 3 2026 11 false;
     mk_Choice 3 12 1 2 2026 11 true;
     mk_Choice 4 13 1 2 2026 10 false]
    2 5.

End Scenarios.

(** ** bot/services/user_service.py, the rest *)

Module UserDirectory.

(** The data base together with the key sequence of the [users] table. *)
Record Directory : Type := mk_Directory {
  d_db : Database;
  users_id_seq : Z
}.

Definition with_users (rows : list User) (db : Database) : Database :=
  mk_Database rows (predictions db) (choices db)
    (predictions_id_seq db) (choices_id_seq db).

Definition get_user_by_telegram_id (telegram_user_id0 : Z) (db : Database)
  : Result (option User) :=
  scalar_one_or_none
    (filter (fun u => user_telegram_user_id u =? telegram_user_id0) (users db)).

Definition get_user_by_id (user_id0 : Z) (db : Database)
  : Result (option User) :=
  scalar_one_or_none (filter (fun u => user_id u =? user_id0) (users db)).

Definition get_all_users (db : Database) : list User := users db.

(** [select(func.count(User.id))], [scalar() or 0]. *)
Definition get_total_users_count (db : Database) : nat :=
  List.length (users db).

(** [telegram_user_id in settings.admin_ids_list]: the list is what the
    setting parses to. *)
Definition in_admin_ids_list (admin_ids_list : list Z) (telegram_user_id0 : Z)
  : bool :=
  existsb (Z.eqb telegram_user_id0) admin_ids_list.

(** [UserService.is_admin]; the record field of the same name is
    [Models.is_admin]. *)
Definition is_admin (admin_ids_list : list Z) (telegram_user_id0 : Z) : bool :=
  in_admin_ids_list admin_ids_list telegram_user_id0.

Definition get_or_create_user (admin_ids_list : list Z)
  (telegram_user_id0 : Z) (d : Directory) : Result (User * Directory) :=
  user <- get_user_by_telegram_id telegram_user_id0 (d_db d) ;;
  match user with
  | Some u => Ok (u, d)
  | None =>
      let u := mk_User (users_id_seq d) telegram_user_id0
                 (in_admin_ids_list admin_ids_list telegram_user_id0) in
      db1 <- flush (with_users (users (d_db d) ++ [u]) (d_db d)) ;;
      Ok (u, mk_Directory db1 (users_id_seq d + 1))
  end.

(** [AdminMiddleware]: the flag handed to the handlers. *)
Definition middleware_is_admin (admin_ids_list : list Z)
  (from_user : option Z) : bool :=
  match from_user with
  | Some user_id0 =>
      if user_id0 =? 0 then false
      else in_admin_ids_list admin_ids_list user_id0
  | None => false
  end.

Definition directory_consistent (d : Directory) : Prop :=
  consistent (d_db d)
  /\ Forall (fun u => user_id u < users_id_seq d) (users (d_db d)).

End UserDirectory.

(** ** bot/services/statistics_service.py, the rest *)

Module PredictionStatistics.

Import StatisticsService.

(** The dict [get_prediction_statistics] returns. *)
Record PredictionStats : Type := mk_PredictionStats {
  total_choices : nat;
  ps_button_1_count : nat;
  ps_button_2_count : nat;
  ps_button_3_count : nat
}.

Definition get_prediction_statistics (prediction_id0 : Z) (db : Database)
  : PredictionStats :=
  let choices :=
    filter (fun c => (prediction_id c =? prediction_id0)
                     && Bool.eqb (is_test c) false) (choices db) in
  match choices with
  | [] => mk_PredictionStats 0 0 0 0
  | _ :: _ =>
      mk_PredictionStats (List.length choices) (count_button 1 choices)
        (count_button 2 choices) (count_button 3 choices)
  end.

End PredictionStatistics.

(** ** The callback filters of bot/handlers/user/prediction.py *)

Module Dispatch.

(** [str.startswith] *)
Definition startswith (s prefix : string) : bool := String.prefix prefix s.

Inductive Route : Type :=
| to_handle_button_selection
| to_handle_already_selected
| to_handle_test_button_selection
| not_handled.

(** The three handlers of the router, tried in the order they are
    registered; a filter on [F.data] does not pass when there is no data. *)
Definition route (data : option string) : Route :=
  match data with
  | None => not_handled
  | Some d =>
      if startswith d "select:" then to_handle_button_selection
      else if startswith d "selected:" then to_handle_already_selected
      else if startswith d "test_select:" then to_handle_test_button_selection
      else not_handled
  end.

Fixpoint contains (c : ascii) (s : string) : bool :=
  match s with
  | EmptyString => false
  | String a rest => Ascii.eqb a c || contains c rest
  end.

(** The callback data of the buttons of a keyboard, row by row. *)
Definition button_data (kb : InlineKeyboardMarkup) : list string :=
  map callback_data (List.concat kb).

End Dispatch.

(** ** What a record of actions shows *)

Module Observations.

(** The chats the transport was asked to deliver to, in order. *)
Definition sent_chats (tr : list Action) : list Z :=
  flat_map (fun a => match a with
                     | ApiCall c => match Scenarios.chat_of c with
                                    | Some chat => [chat]
                                    | None => []
                                    end
                     | _ => []
                     end) tr.

(** The lengths of the sleeps, in order. *)
Definition sleeps (tr : list Action) : list Z :=
  flat_map (fun a => match a with Sleep n => [n] | _ => [] end) tr.

(** The arguments the progress callback was called with, in order. *)
Definition progress_reports (tr : list Action) : list (nat * nat) :=
  flat_map (fun a => match a with OnProgress k n => [(k, n)] | _ => [] end) tr.

End Observations.

(** ** bot/keyboards/admin.py *)

Module AdminKeyboards.

Definition get_admin_menu_keyboard : InlineKeyboardMarkup :=
  [ [mk_Button "📋 Текущее предсказание" "admin:current_prediction"];
    [mk_Button "📊 Статистика" "admin:statistics"];
    [mk_Button "➕ Создать новое предсказание" "admin:create_prediction"];
    [mk_Button "🧪 Отправить тест себе" "admin:test_message"] ]%string.

(** A mapped row is always truthy, so [if prediction:] asks whether there is
    one. *)
Definition get_prediction_actions_keyboard (prediction : option Prediction)
  : InlineKeyboardMarkup :=
  List.app
    match prediction with
    | Some p =>
        if status_eqb (status p) SCHEDULED
        then [ [mk_Button "❌ Отменить"
                  ("admin:cancel_prediction:" ++ str_of_int (id p))%string];
               [mk_Button "🔄 Пересоздать" "admin:create_prediction"] ]
        else []
    | None => [ [mk_Button "➕ Создать предсказание" "admin:create_prediction"] ]
    end
    [ [mk_Button "🔙 Назад" "admin:menu"] ].

End AdminKeyboards.

(** ** The calls of the admin menu and of /start *)

Module Ui.

(** The fixed texts these handlers answer with. *)
Inductive UiNotice : Type :=
| GenericError
| CancelDataError
| CancelNotFound
| OnlyScheduledCanBeCancelled
| PredictionCancelled
| NothingToTest
| TestMessageSent
| TestSendFailed
| AdminWelcome
| ComingSoon
| AlreadyReceivedThisMonth
| DeliveryFailed.

(** [callback.answer], [callback.message.edit_text] with the text of
    [show_current_prediction], which is rendered from the active and the
    scheduled prediction, and [message.answer]. *)
Inductive UiCall : Type :=
| callback_answer (text : option UiNotice) (show_alert : bool)
| edit_text_current_predictions (active scheduled : option Prediction)
    (reply_markup : InlineKeyboardMarkup)
| message_answer (text : UiNotice)
    (reply_markup : option InlineKeyboardMarkup).

Inductive Step : Type :=
| Service (a : Action)
| Said (c : UiCall).

Definition said (s : Step) : list UiCall :=
  match s with Said c => [c] | Service _ => [] end.

Definition service (s : Step) : list Action :=
  match s with Service a => [a] | Said _ => [] end.

(** The sends among the steps, and the answers among them, in order. *)
Definition api_calls (tr : list Step) : list BotCall :=
  flat_map (fun s => match s with
                     | Service (ApiCall c) => [c]
                     | _ => []
                     end) tr.

Definition answers (tr : list Step) : list UiCall := flat_map said tr.

Section Transport.

Variable Bot : Type.
Variable Session : Type.
Variable ui_call : Bot -> UiCall -> ApiOutcome * Bot.

(** How a handler ended: it returned, or an exception left it. *)
Record UiEnd : Type := mk_UiEnd {
  u_returned : bool;
  u_session : Session;
  u_bot : Bot;
  u_trace : list Step
}.

(** A call that is the last statement of a path. *)
Definition say (c : UiCall) (s : Session) (bot : Bot) (tr : list Step)
  : UiEnd :=
  let (o, bot1) := ui_call bot c in
  mk_UiEnd (match o with Returned => true | _ => false end)
    s bot1 (tr ++ [Said c]).

(** [DatabaseMiddleware.__call__] around such a handler; [rollback before
    reached] is what the data base holds after the session that reached
    [reached] from [before] is rolled back. *)
Definition with_session (rollback : Session -> Session -> Session)
  (handler : Session -> Bot -> UiEnd) (s : Session) (bot : Bot) : UiEnd :=
  let r := handler s bot in
  if u_returned r
  then mk_UiEnd true (u_session r) (u_bot r) (u_trace r ++ [Service Commit])
  else mk_UiEnd false (rollback s (u_session r)) (u_bot r)
         (u_trace r ++ [Service Rollback]).

End Transport.

Arguments mk_UiEnd {Bot Session}.
Arguments u_returned {Bot Session}.
Arguments u_session {Bot Session}.
Arguments u_bot {Bot Session}.
Arguments u_trace {Bot Session}.
Arguments say {Bot Session}.
Arguments with_session {Bot Session}.

End Ui.

(** ** bot/handlers/admin/menu.py *)

Module AdminMenu.

Import PredictionService Handlers AdminKeyboards Ui.

Inductive MenuRoute : Type :=
| to_show_admin_menu
| to_show_current_prediction
| to_show_statistics
| to_send_test_message
| to_cancel_prediction
| not_in_menu.

(** The filters of the menu router, in the order the handlers are
    registered. *)
Definition menu_route (data : option string) : MenuRoute :=
  match data with
  | None => not_in_menu
  | Some d =>
      if String.eqb d "admin:menu" then to_show_admin_menu
      else if String.eqb d "admin:current_prediction"
      then to_show_current_prediction
      else if String.eqb d "admin:statistics" then to_show_statistics
      else if String.eqb d "admin:test_message" then to_send_test_message
      else if Dispatch.startswith d "admin:cancel_prediction:"
      then to_cancel_prediction
      else not_in_menu
  end.

(** Nothing these handlers insert draws on a sequence, so a rolled-back
    session leaves the data base as it was. *)
Definition rollback (before reached : Database) : Database := before.

Section Transport.

Variable Bot : Type.
Variable bot_call : Bot -> BotCall -> ApiOutcome * Bot.
Variable ui_call : Bot -> UiCall -> ApiOutcome * Bot.
Variable py_int : string -> option Z.

Definition show_current_prediction (db : Database) (bot : Bot)
  (tr : list Step) : UiEnd Bot Database :=
  match get_active_prediction db with
  | Raise _ => mk_UiEnd false db bot tr
  | Ok active =>
  match get_scheduled_prediction db with
  | Raise _ => mk_UiEnd false db bot tr
  | Ok scheduled =>
      let prediction_for_actions :=
        match scheduled with
        | Some s => Some s
        | None =>
            match active with
            | Some a =>
                if status_eqb (status a) SCHEDULED then Some a else None
            | None => None
            end
        end in
      let c :=
        edit_text_current_predictions active scheduled
          (get_prediction_actions_keyboard prediction_for_actions) in
      let (o, bot1) := ui_call bot c in
      match o with
      | Returned => say ui_call (callback_answer None false) db bot1
                      (tr ++ [Said c])
      | _ => mk_UiEnd false db bot1 (tr ++ [Said c])
      end
  end
  end.

Definition send_test_message (callback : CallbackQuery) (db : Database)
  (bot : Bot) : UiEnd Bot Database :=
  match from_user callback with
  | None => say ui_call (callback_answer (Some GenericError) false) db bot []
  | Some user_id =>
      match get_current_or_scheduled_prediction db with
      | Raise _ => mk_UiEnd false db bot []
      | Ok None =>
          say ui_call (callback_answer (Some NothingToTest) true) db bot []
      | Ok (Some prediction) =>
          let keyboard := get_prediction_keyboard prediction true in
          let '(success, bot1, tr) :=
            BroadcastService.send_test_prediction Bot bot_call bot user_id
              prediction keyboard in
          if success
          then say ui_call (callback_answer (Some TestMessageSent) false)
                 db bot1 (map Service tr)
          else say ui_call (callback_answer (Some TestSendFailed) true)
                 db bot1 (map Service tr)
      end
  end.

(** The handler [cancel_prediction] of the menu; the method of the same
    name it calls is [PredictionService.cancel_prediction]. *)
Definition cancel_prediction (callback : CallbackQuery) (db : Database)
  (bot : Bot) : UiEnd Bot Database :=
  match truthy (data callback), data callback with
  | true, Some data0 =>
      match py_int (last (split ":"%char data0) EmptyString) with
      | None =>
          say ui_call (callback_answer (Some CancelDataError) false) db bot []
      | Some prediction_id =>
          match get_prediction_by_id prediction_id db with
          | Raise _ => mk_UiEnd false db bot []
          | Ok None =>
              say ui_call (callback_answer (Some CancelNotFound) true)
                db bot []
          | Ok (Some prediction) =>
              if negb (status_eqb (status prediction) SCHEDULED)
              then say ui_call
                     (callback_answer (Some OnlyScheduledCanBeCancelled) true)
                     db bot []
              else
                match PredictionService.cancel_prediction prediction db with
                | Raise _ => mk_UiEnd false db bot []
                | Ok db1 =>
                    let c := callback_answer (Some PredictionCancelled) false in
                    let (o, bot1) := ui_call bot c in
                    match o with
                    | Returned => show_current_prediction db1 bot1 [Said c]
                    | _ => mk_UiEnd false db1 bot1 [Said c]
                    end
                end
          end
      end
  | _, _ => say ui_call (callback_answer (Some GenericError) false) db bot []
  end.

End Transport.

End AdminMenu.

(** ** bot/handlers/user/start.py and bot/middlewares/admin.py *)

Module Start.

Import PredictionService UserDirectory AdminKeyboards Ui.

Record Message : Type := mk_Message {
  m_from_user : option Z;
  m_chat_id : Z
}.

(** The rows a rolled-back session wrote are gone; the key sequence of the
    [users] table does not go back. *)
Definition rollback (before reached : Directory) : Directory :=
  mk_Directory (d_db before) (users_id_seq reached).

Section Transport.

Variable Bot : Type.
Variable bot_call : Bot -> BotCall -> ApiOutcome * Bot.
Variable ui_call : Bot -> UiCall -> ApiOutcome * Bot.

(** [message.answer_photo], [answer_video] and [answer_animation] are the
    sends of the bot to the chat of the message. *)
Definition cmd_start (admin_ids_list : list Z) (now : datetime)
  (message : Message) (is_admin : bool) (d : Directory) (bot : Bot)
  : UiEnd Bot Directory :=
  match m_from_user message with
  | None => mk_UiEnd true d bot []
  | Some user_id =>
  match get_or_create_user admin_ids_list user_id d with
  | Raise _ => mk_UiEnd false d bot []
  | Ok (_, d1) =>
      if is_admin
      then say ui_call
             (message_answer AdminWelcome (Some get_admin_menu_keyboard))
             d1 bot []
      else
        match get_active_prediction (d_db d1) with
        | Raise _ => mk_UiEnd false d1 bot []
        | Ok None => say ui_call (message_answer ComingSoon None) d1 bot []
        | Ok (Some active_prediction) =>
            match has_user_chosen_this_month user_id (dt_year now)
                    (dt_month now) (d_db d1) with
            | Raise _ => mk_UiEnd false d1 bot []
            | Ok true =>
                say ui_call (message_answer AlreadyReceivedThisMonth None)
                  d1 bot []
            | Ok false =>
                let keyboard :=
                  get_prediction_keyboard active_prediction false in
                let c :=
                  BroadcastService.media_call (m_chat_id message)
                    active_prediction keyboard in
                let (o, bot1) := bot_call bot c in
                match o with
                | Returned => mk_UiEnd true d1 bot1 [Service (ApiCall c)]
                | _ =>
                    say ui_call (message_answer DeliveryFailed None)
                      d1 bot1 [Service (ApiCall c)]
                end
            end
        end
  end
  end.

(** A [/start] message as the dispatcher handles it: the session
    middleware outside, the admin middleware inside, then the handler. *)
Definition on_start (admin_ids_list : list Z) (now : datetime)
  (message : Message) (d : Directory) (bot : Bot) : UiEnd Bot Directory :=
  with_session rollback
    (cmd_start admin_ids_list now message
       (middleware_is_admin admin_ids_list (m_from_user message)))
    d bot.

End Transport.

End Start.

(** ** bot/services/prediction_service.py, the rest *)

Module ChoiceLookup.

Definition get_user_choice (telegram_user_id0 prediction_id0 : Z)
  (db : Database) : Result (option UserPredictionChoice) :=
  scalar_one_or_none
    (filter (fun c => (telegram_user_id c =? telegram_user_id0)
                      && (prediction_id c =? prediction_id0)
                      && Bool.eqb (is_test c) false)
            (choices db)).

End ChoiceLookup.

(** ** bot/config/settings.py *)

Module Settings.

(** [str.isspace] on the characters of ASCII. *)
Definition isspace (c : ascii) : bool :=
  let n := nat_of_ascii c in
  ((9 <=? n) && (n <=? 13) || (28 <=? n) && (n <=? 32))%nat.

Fixpoint lstrip (s : string) : string :=
  match s with
  | EmptyString => EmptyString
  | String c rest => if isspace c then lstrip rest else s
  end.

Fixpoint rstrip (s : string) : string :=
  match s with
  | EmptyString => EmptyString
  | String c rest =>
      match rstrip rest with
      | EmptyString => if isspace c then EmptyString else String c EmptyString
      | kept => String c kept
      end
  end.

(** [str.strip()] *)
Definition strip (s : string) : string := rstrip (lstrip s).

(** [[int(id_.strip()) for id_ in entries if id_.strip()]]: [None] stands
    for the [ValueError] of [int], which leaves the property. *)
Fixpoint ints (py_int : string -> option Z) (entries : list string)
  : option (list Z) :=
  match entries with
  | [] => Some []
  | id_ :: rest =>
      match strip id_ with
      | EmptyString => ints py_int rest
      | String _ _ =>
          match py_int (strip id_) with
          | None => None
          | Some n => option_map (cons n) (ints py_int rest)
          end
      end
  end.

(** [Settings.admin_ids_list] *)
Definition admin_ids_list (py_int : string -> option Z) (admin_ids : string)
  : option (list Z) :=
  match admin_ids with
  | EmptyString => Some []
  | String _ _ => ints py_int (Handlers.split ","%char admin_ids)
  end.

End Settings.

(** ** More data for the examples *)

Module MoreScenarios.

(** A clock reading before the sample predictions are due. *)
Definition early : datetime := mk_datetime 500 1970 1.

(** A reader of decimal integers, standing in for [int] where an example
    needs one. *)
Definition decimal_int (s : string) : option Z :=
  match s with
  | EmptyString => None
  | _ => option_map Z.of_int (NilZero.int_of_string s)
  end.

Definition sample_directory : UserDirectory.Directory :=
  UserDirectory.mk_Directory Scenarios.due_db 3.

(** How a list of ids may be written in [ADMIN_IDS]: entries separated by
    commas, each an id with spaces around it, or nothing but spaces. *)
Record Entry : Type := mk_Entry {
  lead : nat;
  number : option Z;
  trail : nat
}.

Fixpoint spaces (k : nat) : string :=
  match k with
  | O => EmptyString
  | S k' => String " "%char (spaces k')
  end.

Definition written (e : Entry) : string :=
  (spaces (lead e)
   ++ match number e with Some n => str_of_int n | None => EmptyString end
   ++ spaces (trail e))%string.

(** [sep.join(l)] *)
Fixpoint join (sep : string) (l : list string) : string :=
  match l with
  | [] => EmptyString
  | x :: rest =>
      match rest with
      | [] => x
      | _ :: _ => (x ++ sep ++ join sep rest)%string
      end
  end.

Definition numbers (es : list Entry) : list Z :=
  flat_map (fun e => match number e with Some n => [n] | None => [] end) es.

(** The characters [str] writes an integer with. *)
Definition numeral_char (c : ascii) : bool :=
  existsb (Ascii.eqb c)
    ["0"; "1"; "2"; "3"; "4"; "5"; "6"; "7"; "8"; "9"; "-"]%char.

(** A label of 65 characters, one more than [String(64)] takes. *)
Definition long_label : string :=
  String.concat EmptyString (List.repeat "x"%string 65).

(** A label of three characters followed by 70 spaces. *)
Definition padded_label : string := ("Sun" ++ spaces 70)%string.

(** What the wizard hands to [create_prediction] when the admin with user
    id 1 typed [label] for the first button. *)
Definition labelled_content (label : string) : PredictionService.Content :=
  PredictionService.mk_Content PHOTO "file-3" "What next?"
    label "Moon" "Star" "Joy" "Rest" "Luck" 4000 (Some 1).

(** A transport for the menus that answers every call the same way. *)
Definition ui_always (o : ApiOutcome) (bot : unit) (c : Ui.UiCall)
  : ApiOutcome * unit := (o, bot).

End MoreScenarios.

(** * Properties *)

(** ** The model on small inputs *)

Example py_range_batches :
  BroadcastService.py_range 0 60 25 = [0; 25; 50]%nat
  /\ BroadcastService.py_range 0 50 25 = [0; 25]%nat
  /\ BroadcastService.py_range 0 0 25 = [].
Proof. repeat split. Qed.

Example split_callback_data :
  Handlers.split ":"%char "test_select:12:3"
    = ["test_select"; "12"; "3"]%string
  /\ Handlers.split ":"%char "" = [""%string]
  /\ Handlers.split ":"%char "a:" = ["a"; ""]%string.
Proof. repeat split. Qed.

Example test_keyboard_callback_data :
  map (map callback_data)
    (get_prediction_keyboard (Scenarios.sample_prediction 12 ACTIVE) true)
  = [["test_select:12:1"]; ["test_select:12:2"]; ["test_select:12:3"]]%string.
Proof. reflexivity. Qed.

(** Rate-limited for two seconds, then two other errors, then accepted: four
    calls, with sleeps of 2, 10 and 20 seconds between them. *)
Example retry_delays :
  filter (fun a => negb (is_api_send a))
    (snd (BroadcastService._send_to_user (list ApiOutcome) Scenarios.scripted
            [TelegramRetryAfter 2; OtherException; OtherException] 7
            (Scenarios.sample_prediction 1 ACTIVE) [] 0))
  = [Sleep 2; Sleep 10; Sleep 20].
Proof. reflexivity. Qed.

(** ** Final labels *)

(** C10: [get_final_button] is total; it gives the final label of button 1, 2
    or 3 and the empty string for every other integer. *)
Theorem get_final_button_total : forall (p : Prediction) (button_number : Z),
  get_final_button p button_number =
  match button_number with
  | 1 => button_1_final p
  | 2 => button_2_final p
  | 3 => button_3_final p
  | _ => EmptyString
  end.
Proof.
  intros p n. unfold get_final_button, final_mapping. simpl.
  destruct n as [|[q|q|]|q]; try reflexivity;
    destruct q as [q|q|]; try reflexivity; destruct q; reflexivity.
Qed.

Example get_final_button_outside :
  get_final_button (Scenarios.sample_prediction 1 ACTIVE) 0 = EmptyString
  /\ get_final_button (Scenarios.sample_prediction 1 ACTIVE) (-1) = EmptyString
  /\ get_final_button (Scenarios.sample_prediction 1 ACTIVE) 4 = EmptyString
  /\ get_final_button (Scenarios.sample_prediction 1 ACTIVE) 2 = "Rest"%string.
Proof. repeat split. Qed.

(** ** The per-recipient send *)

Module SendProps.

Import BroadcastService.

Section Transport.

Variable Bot : Type.
Variable bot_call : Bot -> BotCall -> ApiOutcome * Bot.

Lemma media_call_is_send : forall chat p kb,
  is_api_send (ApiCall (media_call chat p kb)) = true.
Proof. intros chat p kb. unfold media_call. destruct (media_type p); reflexivity. Qed.

Lemma send_media_message_eq : forall bot chat p kb,
  _send_media_message Bot bot_call bot chat p kb =
  (fst (bot_call bot (media_call chat p kb)),
   snd (bot_call bot (media_call chat p kb)),
   [ApiCall (media_call chat p kb)]).
Proof.
  intros. unfold _send_media_message.
  destruct (bot_call bot (media_call chat p kb)); reflexivity.
Qed.

Lemma send_media_message_inv : forall bot chat p kb o bot1 tr,
  _send_media_message Bot bot_call bot chat p kb = (o, bot1, tr) ->
  o = fst (bot_call bot (media_call chat p kb))
  /\ bot1 = snd (bot_call bot (media_call chat p kb))
  /\ tr = [ApiCall (media_call chat p kb)].
Proof.
  intros * H. rewrite send_media_message_eq in H.
  inversion H; subst. auto.
Qed.

End Transport.

(** In a case of [_send_to_user], replace what [_send_media_message]
    returned by the call it made; [Ho] names the equation on the outcome and
    [Hb] the one on the transport. *)
Ltac media_inv Ho Hb :=
  match goal with
  | Hm : _send_media_message _ _ _ _ _ _ = _ |- _ =>
      apply send_media_message_inv in Hm; destruct Hm as (Ho & Hb & ->)
  end.

Section Transport.

Variable Bot : Type.
Variable bot_call : Bot -> BotCall -> ApiOutcome * Bot.

Lemma sends_one_call : forall ok (b : Bot) chat p kb,
  sends Bot (ok, b, [ApiCall (media_call chat p kb)]) = 1%nat.
Proof.
  intros. unfold sends, trace_of, count_actions. cbn [snd filter].
  rewrite media_call_is_send. reflexivity.
Qed.

Lemma sends_after : forall pre r,
  sends Bot (after Bot pre r)
  = (count_actions is_api_send pre + sends Bot r)%nat.
Proof.
  intros pre [[ok b] tr]. unfold sends, trace_of, after, count_actions. simpl.
  rewrite filter_app, length_app. reflexivity.
Qed.

Lemma outcome_after : forall pre r,
  outcome_of Bot (after Bot pre r) = outcome_of Bot r.
Proof. intros pre [[ok b] tr]. reflexivity. Qed.

Lemma count_call_then_sleep : forall chat p kb n,
  count_actions is_api_send ([ApiCall (media_call chat p kb)] ++ [Sleep n])
  = 1%nat.
Proof.
  intros. unfold count_actions. cbn [app filter].
  rewrite media_call_is_send. reflexivity.
Qed.

(** However the transport answers, a send started at [retry_count] makes at
    most one call per remaining retry, plus the first. *)
Lemma sends_bounded_from : forall bot user_id p kb retry_count,
  (sends Bot (_send_to_user Bot bot_call bot user_id p kb retry_count)
   <= S (MAX_RETRIES - retry_count))%nat.
Proof.
  intros bot user_id p kb retry_count.
  funelim (_send_to_user Bot bot_call bot user_id p kb retry_count);
    try clear Heqcall;
    media_inv ipattern:(_) ipattern:(_);
    try (rewrite sends_one_call; lia).
  - rewrite sends_after, count_call_then_sleep.
    unfold MAX_RETRIES in *. lia.
  - rewrite sends_after, count_call_then_sleep.
    unfold MAX_RETRIES in *. lia.
Qed.

(** On a transport that keeps answering with retryable errors the budget is
    used up: every remaining retry is made and the send fails. *)
Lemma sends_exhaust_from : forall user_id p kb,
  (forall b, retryable (fst (bot_call b (media_call user_id p kb))) = true) ->
  forall bot retry_count,
  sends Bot (_send_to_user Bot bot_call bot user_id p kb retry_count)
    = S (MAX_RETRIES - retry_count)
  /\ outcome_of Bot (_send_to_user Bot bot_call bot user_id p kb retry_count)
    = false.
Proof.
  intros user_id p kb Hretry bot retry_count.
  funelim (_send_to_user Bot bot_call bot user_id p kb retry_count);
    try clear Heqcall;
    media_inv Ho ipattern:(_);
    pose proof (Hretry bot) as Hb; rewrite <- Ho in Hb; simpl in Hb;
    try discriminate.
  - rewrite sends_after, outcome_after, count_call_then_sleep.
    destruct (H Hretry) as [Hs Hf]. rewrite Hs, Hf.
    split; [unfold MAX_RETRIES in *; lia | reflexivity].
  - rewrite sends_one_call. split; [unfold MAX_RETRIES in *; lia | reflexivity].
  - rewrite sends_after, outcome_after, count_call_then_sleep.
    destruct (H Hretry) as [Hs Hf]. rewrite Hs, Hf.
    split; [unfold MAX_RETRIES in *; lia | reflexivity].
  - rewrite sends_one_call. split; [unfold MAX_RETRIES in *; lia | reflexivity].
Qed.

(** A first answer that is not retryable settles the send after one call. *)
Lemma send_settled_at_once : forall bot user_id p kb retry_count,
  retryable (fst (bot_call bot (media_call user_id p kb))) = false ->
  _send_to_user Bot bot_call bot user_id p kb retry_count =
  (match fst (bot_call bot (media_call user_id p kb)) with
   | Returned => true
   | _ => false
   end,
   snd (bot_call bot (media_call user_id p kb)),
   [ApiCall (media_call user_id p kb)]).
Proof.
  intros bot user_id p kb retry_count Hn.
  funelim (_send_to_user Bot bot_call bot user_id p kb retry_count);
    try clear Heqcall;
    media_inv Ho ipattern:(->);
    rewrite <- Ho in *; simpl in Hn; try discriminate; reflexivity.
Qed.

(** C3, as the code has it: whatever the transport answers, one recipient
    costs at most four calls of the transport, the first attempt and
    [MAX_RETRIES] = 3 retries; when the transport keeps answering with
    retryable errors (rate limit or any other non-permanent error) exactly
    four calls are made and the recipient counts as a failure. *)
Theorem send_to_user_retry_ceiling : forall bot user_id p kb,
  (sends Bot (_send_to_user Bot bot_call bot user_id p kb 0) <= 4)%nat
  /\ ((forall b, retryable (fst (bot_call b (media_call user_id p kb))) = true) ->
      sends Bot (_send_to_user Bot bot_call bot user_id p kb 0) = 4%nat
      /\ outcome_of Bot (_send_to_user Bot bot_call bot user_id p kb 0) = false).
Proof.
  intros bot user_id p kb. split.
  - apply (sends_bounded_from bot user_id p kb 0).
  - intros Hretry. apply (sends_exhaust_from user_id p kb Hretry bot 0).
Qed.

(** C7, as the code has it: the preview send makes exactly one call of the
    transport and never sleeps or retries; it succeeds exactly when that call
    returns; and it gives the result of the per-recipient send of a broadcast
    whenever the first answer is a success or a permanent failure. *)
Theorem send_test_prediction_single_attempt : forall bot chat_id p kb,
  let first := bot_call bot (media_call chat_id p kb) in
  send_test_prediction Bot bot_call bot chat_id p kb =
    (match fst first with Returned => true | _ => false end,
     snd first, [ApiCall (media_call chat_id p kb)])
  /\ (retryable (fst first) = false ->
      send_test_prediction Bot bot_call bot chat_id p kb =
      send_single_spec Bot bot_call bot chat_id p kb).
Proof.
  intros bot chat_id p kb first.
  assert (Hone : send_test_prediction Bot bot_call bot chat_id p kb =
    (match fst first with Returned => true | _ => false end,
     snd first, [ApiCall (media_call chat_id p kb)])).
  { unfold send_test_prediction. rewrite send_media_message_eq.
    fold first. destruct (fst first); reflexivity. }
  split; [exact Hone|].
  intros Hn. rewrite Hone. unfold send_single_spec.
  rewrite (send_settled_at_once bot chat_id p kb 0 Hn). reflexivity.
Qed.

End Transport.

Import Scenarios.

Lemma send_to_user_retry_ceiling_witness :
  (forall b, retryable
     (fst (always OtherException b
             (media_call 7 (sample_prediction 1 ACTIVE) []))) = true)
  /\ sends unit (_send_to_user unit (always OtherException) tt 7
                   (sample_prediction 1 ACTIVE) [] 0) = 4%nat
  /\ outcome_of unit (_send_to_user unit (always OtherException) tt 7
                        (sample_prediction 1 ACTIVE) [] 0) = false.
Proof.
  split; [intros b; reflexivity|].
  apply (proj2 (send_to_user_retry_ceiling unit (always OtherException) tt 7
                  (sample_prediction 1 ACTIVE) [])).
  intros b; reflexivity.
Defined.

(** C3, as stated, fails: a recipient whose every send is answered with a
    retryable error is tried four times, not three. *)
Lemma send_to_user_fourth_attempt :
  (forall b c, retryable (fst (always (TelegramRetryAfter 2) b c)) = true)
  /\ ~ (sends unit (_send_to_user unit (always (TelegramRetryAfter 2)) tt 7
                      (sample_prediction 1 ACTIVE) [] 0) <= 3)%nat.
Proof.
  split; [intros b c; reflexivity|].
  vm_compute. intros H. repeat apply le_S_n in H. inversion H.
Qed.

Lemma send_test_prediction_single_attempt_witness :
  retryable (fst (scripted [TelegramForbiddenError]
                    (media_call 7 (sample_prediction 1 ACTIVE) []))) = false
  /\ send_test_prediction (list ApiOutcome) scripted [TelegramForbiddenError] 7
       (sample_prediction 1 ACTIVE) []
     = send_single_spec (list ApiOutcome) scripted [TelegramForbiddenError] 7
         (sample_prediction 1 ACTIVE) [].
Proof.
  split; [reflexivity|].
  apply (proj2 (send_test_prediction_single_attempt (list ApiOutcome) scripted
                  [TelegramForbiddenError] 7 (sample_prediction 1 ACTIVE) [])).
  reflexivity.
Defined.

(** C7, as stated, fails: rate-limited once and accepted on the retry, the
    send of a broadcast succeeds while the preview send has already
    failed. *)
Lemma send_test_prediction_no_retry :
  outcome_of (list ApiOutcome)
    (send_single_spec (list ApiOutcome) scripted [TelegramRetryAfter 2] 7
       (sample_prediction 1 ACTIVE) []) = true
  /\ outcome_of (list ApiOutcome)
       (send_test_prediction (list ApiOutcome) scripted [TelegramRetryAfter 2] 7
          (sample_prediction 1 ACTIVE) []) = false.
Proof. split; reflexivity. Qed.

End SendProps.

(** ** The broadcast loop *)

Module BroadcastProps.

Import BroadcastService SendProps.

Lemma firstn_add : forall (A : Type) (a b : nat) (l : list A),
  firstn (a + b) l = firstn a l ++ firstn b (skipn a l).
Proof.
  intros A a b. induction a as [|a IH]; intros l.
  - reflexivity.
  - destruct l as [|x l].
    + simpl. rewrite firstn_nil. reflexivity.
    + simpl. rewrite IH. reflexivity.
Qed.

Lemma slice_incl : forall (A : Type) (n i : nat) (l : list A) (x : A),
  In x (firstn n (skipn i l)) -> In x l.
Proof.
  intros A n i l x H. rewrite <- (firstn_skipn i l). apply in_or_app. right.
  rewrite <- (firstn_skipn n (skipn i l)). apply in_or_app. left. exact H.
Qed.

Lemma batches_cover : forall n : nat,
  (n <= ((n - 0 + BATCH_SIZE - 1) / BATCH_SIZE) * BATCH_SIZE)%nat.
Proof.
  intros n. unfold BATCH_SIZE.
  pose proof (Nat.div_mod_eq (n - 0 + 25 - 1) 25) as Hd.
  pose proof (Nat.mod_upper_bound (n - 0 + 25 - 1) 25) as Hm.
  lia.
Qed.

Section Transport.

Variable Bot : Type.
Variable bot_call : Bot -> BotCall -> ApiOutcome * Bot.

Variable p : Prediction.
Variable kb : InlineKeyboardMarkup.

Lemma grows_by_nil : forall fails st, grows_by Bot fails [] st st.
Proof.
  intros. unfold grows_by. simpl. rewrite Nat.add_0_r, app_nil_r. auto.
Qed.

Lemma grows_by_app : forall fails l1 l2 st1 st2 st3,
  grows_by Bot fails l1 st1 st2 -> grows_by Bot fails l2 st2 st3 ->
  grows_by Bot fails (l1 ++ l2) st1 st3.
Proof.
  unfold grows_by. intros fails l1 l2 st1 st2 st3 (A1 & A2 & A3) (B1 & B2 & B3).
  rewrite !filter_app, !length_app, B1, B2, B3, A1, A2, A3, app_assoc.
  repeat split; lia.
Qed.

Lemma grows_by_log : forall fails l st st' tr,
  grows_by Bot fails l st st' -> grows_by Bot fails l st (log Bot tr st').
Proof. unfold grows_by, log. simpl. auto. Qed.

Section Fate.

Variable fails : Z -> bool.
Variable user_ids : list Z.

Hypothesis fate : forall b u, In u user_ids ->
  if fails u
  then permanent (fst (bot_call b (media_call u p kb))) = true
  else fst (bot_call b (media_call u p kb)) = Returned.

Lemma send_one_grows : forall st u, In u user_ids ->
  grows_by Bot fails [u] st (send_one Bot bot_call p kb st u).
Proof.
  intros st u Hin. unfold send_one.
  pose proof (fate (t_bot Bot st) u Hin) as Hf.
  assert (Hn : retryable (fst (bot_call (t_bot Bot st) (media_call u p kb)))
               = false).
  { destruct (fails u).
    - destruct (fst (bot_call (t_bot Bot st) (media_call u p kb)));
        simpl in Hf; try discriminate; reflexivity.
    - rewrite Hf. reflexivity. }
  rewrite (send_settled_at_once Bot bot_call _ u p kb 0 Hn).
  unfold grows_by. simpl.
  destruct (fails u).
  - destruct (fst (bot_call (t_bot Bot st) (media_call u p kb)));
      simpl in Hf; try discriminate; simpl; repeat split; lia.
  - rewrite Hf. simpl. rewrite app_nil_r. repeat split; lia.
Qed.

Lemma send_batch_grows : forall l st, incl l user_ids ->
  grows_by Bot fails l st (fold_left (send_one Bot bot_call p kb) l st).
Proof.
  induction l as [|u l IH]; intros st Hincl.
  - apply grows_by_nil.
  - simpl. change (u :: l) with ([u] ++ l).
    apply grows_by_app with (st2 := send_one Bot bot_call p kb st u).
    + apply send_one_grows. apply Hincl. left. reflexivity.
    + apply IH. intros x Hx. apply Hincl. right. exact Hx.
Qed.

Lemma batch_step_grows : forall on_progress st i,
  grows_by Bot fails (firstn BATCH_SIZE (skipn i user_ids)) st
    (batch_step Bot bot_call p user_ids kb on_progress st i).
Proof.
  intros on_progress st i. unfold batch_step.
  assert (Hb : grows_by Bot fails (firstn BATCH_SIZE (skipn i user_ids)) st
            (fold_left (send_one Bot bot_call p kb)
               (firstn BATCH_SIZE (skipn i user_ids)) st)).
  { apply send_batch_grows. intros x Hx. apply (slice_incl _ _ _ _ _ Hx). }
  destruct (i + BATCH_SIZE <? List.length user_ids)%nat;
    repeat apply grows_by_log; exact Hb.
Qed.

Lemma batches_grow : forall on_progress m st,
  grows_by Bot fails (firstn (m * BATCH_SIZE) user_ids) st
    (fold_left (batch_step Bot bot_call p user_ids kb on_progress)
       (map (fun k => 0 + k * BATCH_SIZE)%nat (seq 0 m)) st).
Proof.
  intros on_progress m. induction m as [|m IH]; intros st.
  - apply grows_by_nil.
  - replace (S m * BATCH_SIZE)%nat with (m * BATCH_SIZE + BATCH_SIZE)%nat by lia.
    rewrite firstn_add, seq_S, map_app, fold_left_app.
    cbn [map fold_left]. rewrite !Nat.add_0_l.
    eapply grows_by_app; [apply IH|].
    apply batch_step_grows.
Qed.

Lemma broadcast_grows : forall bot on_progress,
  let '(result, _, _) :=
    broadcast_prediction Bot bot_call bot p user_ids kb on_progress in
  success_count result
    = List.length (filter (fun u => negb (fails u)) user_ids)
  /\ failure_count result = List.length (filter fails user_ids)
  /\ errors result = filter fails user_ids.
Proof.
  intros bot on_progress. unfold broadcast_prediction, py_range.
  pose proof (batches_grow on_progress
                ((List.length user_ids - 0 + BATCH_SIZE - 1) / BATCH_SIZE)
                (mk_Tally Bot bot 0 0 [] [])) as H.
  rewrite firstn_all2 in H by apply batches_cover.
  destruct H as (H1 & H2 & H3). simpl in *. auto.
Qed.

End Fate.

(** Nobody is skipped, whatever the transport does: every recipient ends in
    one of the two counts. *)
Lemma send_batch_accounts : forall l st,
  let st' := fold_left (send_one Bot bot_call p kb) l st in
  (t_success_count Bot st' + t_failure_count Bot st'
   = t_success_count Bot st + t_failure_count Bot st + List.length l)%nat.
Proof.
  induction l as [|u l IH]; intros st; simpl.
  - lia.
  - rewrite IH. unfold send_one.
    destruct (_send_to_user Bot bot_call (t_bot Bot st) u p kb 0)
      as [[[|] b] tr]; simpl; lia.
Qed.

Lemma batches_account : forall user_ids on_progress m st,
  let st' :=
    fold_left (batch_step Bot bot_call p user_ids kb on_progress)
      (map (fun k => 0 + k * BATCH_SIZE)%nat (seq 0 m)) st in
  (t_success_count Bot st' + t_failure_count Bot st'
   = t_success_count Bot st + t_failure_count Bot st
     + List.length (firstn (m * BATCH_SIZE) user_ids))%nat.
Proof.
  intros user_ids on_progress m. induction m as [|m IH]; intros st.
  - simpl. lia.
  - replace (S m * BATCH_SIZE)%nat with (m * BATCH_SIZE + BATCH_SIZE)%nat by lia.
    rewrite firstn_add, length_app, seq_S, map_app, fold_left_app.
    cbn [map fold_left]. rewrite !Nat.add_0_l.
    specialize (IH st). cbv zeta in IH.
    set (st1 := fold_left _ _ st) in *.
    unfold batch_step.
    pose proof (send_batch_accounts
                  (firstn BATCH_SIZE (skipn (m * BATCH_SIZE) user_ids)) st1)
      as Hb.
    cbv zeta in *.
    destruct (m * BATCH_SIZE + BATCH_SIZE <? List.length user_ids)%nat;
      unfold log; cbn [t_success_count t_failure_count]; lia.
Qed.

Lemma broadcast_accounts_for_everyone : forall bot user_ids on_progress,
  let '(result, _, _) :=
    broadcast_prediction Bot bot_call bot p user_ids kb on_progress in
  (success_count result + failure_count result = List.length user_ids)%nat.
Proof.
  intros bot user_ids on_progress. unfold broadcast_prediction, py_range.
  pose proof (batches_account user_ids on_progress
                ((List.length user_ids - 0 + BATCH_SIZE - 1) / BATCH_SIZE)
                (mk_Tally Bot bot 0 0 [] [])) as H.
  rewrite firstn_all2 in H by apply batches_cover.
  simpl in *. exact H.
Qed.

Lemma filter_split_length : forall (A : Type) (f : A -> bool) (l : list A),
  (List.length (filter (fun x => negb (f x)) l)
   = List.length l - List.length (filter f l))%nat.
Proof.
  intros A f l. pose proof (filter_length f l) as H. lia.
Qed.

(** C2: when [K] of the [N] recipients fail permanently (Forbidden or
    BadRequest) and every other send succeeds, the broadcast returns
    [success_count = N - K] and [failure_count = K], with the failed
    recipients listed; the loop runs to its end for every recipient, and the
    result is a value, never an exception. *)
Theorem broadcast_prediction_tally :
  forall (bot : Bot) (user_ids : list Z)
         (on_progress : option (nat -> nat -> bool)) (fails : Z -> bool),
  (forall b u, In u user_ids ->
     if fails u
     then permanent (fst (bot_call b (media_call u p kb))) = true
     else fst (bot_call b (media_call u p kb)) = Returned) ->
  let N := List.length user_ids in
  let K := List.length (filter fails user_ids) in
  let result :=
    fst (fst (broadcast_prediction Bot bot_call bot p user_ids kb on_progress)) in
  success_count result = (N - K)%nat
  /\ failure_count result = K
  /\ errors result = filter fails user_ids.
Proof.
  intros bot user_ids on_progress fails Hfate N K result.
  pose proof (broadcast_grows fails user_ids Hfate bot on_progress) as H.
  subst result N K.
  destruct (broadcast_prediction Bot bot_call bot p user_ids kb on_progress)
    as [[r b] tr].
  simpl. destruct H as (H1 & H2 & H3).
  rewrite H1, filter_split_length. auto.
Qed.

End Transport.

Import Scenarios.

(** The scenario of the specification: 60 recipients, 3 of them blocked the
    bot. *)
Lemma broadcast_prediction_tally_witness :
  (forall b u, In u sixty_users ->
     if existsb (Z.eqb u) [5; 17; 42]
     then permanent
            (fst (blocking [5; 17; 42] b
                    (media_call u (sample_prediction 1 ACTIVE) []))) = true
     else fst (blocking [5; 17; 42] b
                 (media_call u (sample_prediction 1 ACTIVE) [])) = Returned)
  /\ success_count
       (fst (fst (broadcast_prediction nat (blocking [5; 17; 42]) 0%nat
                    (sample_prediction 1 ACTIVE) sixty_users [] None)))
     = 57%nat
  /\ failure_count
       (fst (fst (broadcast_prediction nat (blocking [5; 17; 42]) 0%nat
                    (sample_prediction 1 ACTIVE) sixty_users [] None)))
     = 3%nat.
Proof.
  assert (Hfate : forall b u, In u sixty_users ->
     if existsb (Z.eqb u) [5; 17; 42]
     then permanent
            (fst (blocking [5; 17; 42] b
                    (media_call u (sample_prediction 1 ACTIVE) []))) = true
     else fst (blocking [5; 17; 42] b
                 (media_call u (sample_prediction 1 ACTIVE) [])) = Returned).
  { intros b u _. unfold blocking. cbn [media_call sample_prediction media_type chat_of].
    destruct (existsb (Z.eqb u) [5; 17; 42]); reflexivity. }
  split; [exact Hfate|].
  pose proof (broadcast_prediction_tally nat (blocking [5; 17; 42])
                (sample_prediction 1 ACTIVE) [] 0%nat sixty_users None
                (fun u => existsb (Z.eqb u) [5; 17; 42]) Hfate) as H.
  cbv zeta in H. destruct H as (H1 & H2 & _).
  split; [exact H1 | exact H2].
Defined.

End BroadcastProps.

(** ** Monthly statistics *)

Module StatisticsProps.

Import StatisticsService.

Lemma py_sum_ones : forall (A : Type) (l : list A),
  py_sum (map (fun _ => 1%nat) l) = List.length l.
Proof.
  intros A l. unfold py_sum.
  assert (H : forall a, fold_left Nat.add (map (fun _ : A => 1%nat) l) a
                        = (a + List.length l)%nat).
  { induction l as [|x l IH]; intros a; simpl.
    - lia.
    - rewrite IH. lia. }
  apply H.
Qed.

Lemma count_button_length : forall b l,
  count_button b l = List.length (filter (fun c => selected_button c =? b) l).
Proof. intros. unfold count_button. apply py_sum_ones. Qed.

Lemma in_month_not_test_spec : forall y m c,
  in_month_not_test y m c
  = (year c =? y) && (month c =? m) && negb (is_test c).
Proof.
  intros. unfold in_month_not_test. destruct (is_test c); reflexivity.
Qed.

Lemma filter_month_without_tests : forall y m l,
  filter (in_month_not_test y m) (filter (fun c => negb (is_test c)) l)
  = filter (in_month_not_test y m) l.
Proof.
  intros y m l. induction l as [|c l IH]; simpl.
  - reflexivity.
  - destruct (is_test c) eqn:E; simpl; rewrite IH.
    + unfold in_month_not_test. rewrite E. simpl.
      rewrite andb_false_r. reflexivity.
    + reflexivity.
Qed.

Lemma buttons_partition : forall l,
  Forall (fun c => valid_button c = true) l ->
  (List.length (filter (fun c => (selected_button c =? 1)%Z) l)
   + List.length (filter (fun c => (selected_button c =? 2)%Z) l)
   + List.length (filter (fun c => (selected_button c =? 3)%Z) l)
   = List.length l)%nat.
Proof.
  intros l H. induction H as [|c l Hc _ IH]; simpl.
  - reflexivity.
  - unfold valid_button in Hc.
    destruct (selected_button c =? 1) eqn:E1;
      destruct (selected_button c =? 2) eqn:E2;
      destruct (selected_button c =? 3) eqn:E3;
      simpl in *; try discriminate; lia.
Qed.

(** C8: the monthly report for the period of [now] counts the stored
    non-test choices of that year and month: [active_users] is their number,
    each per-button count is the number of them with that button, deleting
    every test choice from the store leaves the report unchanged, and, the
    stored buttons being 1, 2 or 3, the three counts add up to
    [active_users]. *)
Theorem monthly_statistics_counts : forall (now : datetime) (db : Database),
  let s := get_current_month_statistics now db in
  let stored :=
    filter (fun c => (year c =? dt_year now) && (month c =? dt_month now)
                     && negb (is_test c)) (choices db) in
  (ms_year s = dt_year now /\ ms_month s = dt_month now
   /\ active_users s = List.length stored
   /\ button_1_count s
      = List.length (filter (fun c => selected_button c =? 1) stored)
   /\ button_2_count s
      = List.length (filter (fun c => selected_button c =? 2) stored)
   /\ button_3_count s
      = List.length (filter (fun c => selected_button c =? 3) stored)
   /\ get_current_month_statistics now (without_test_choices db) = s)
  /\ (Forall (fun c => valid_button c = true) stored ->
      (button_1_count s + button_2_count s + button_3_count s
       = active_users s)%nat).
Proof.
  intros now db s stored.
  assert (Hs : stored
               = filter (in_month_not_test (dt_year now) (dt_month now))
                   (choices db)).
  { subst stored. apply filter_ext. intros c.
    symmetry. apply in_month_not_test_spec. }
  subst s. unfold get_current_month_statistics. simpl.
  rewrite !count_button_length, <- Hs.
  split.
  - repeat split.
    unfold without_test_choices, with_choices. simpl.
    rewrite filter_month_without_tests, <- Hs. reflexivity.
  - intros Hv. apply (buttons_partition stored Hv).
Qed.

Lemma monthly_statistics_counts_witness :
  Forall (fun c => valid_button c = true)
    (filter (fun c => (year c =? 2026) && (month c =? 11)
                      && negb (is_test c))
       (choices Scenarios.ledger_db))
  /\ (button_1_count
        (get_current_month_statistics Scenarios.nov_2026 Scenarios.ledger_db)
      + button_2_count
          (get_current_month_statistics Scenarios.nov_2026 Scenarios.ledger_db)
      + button_3_count
          (get_current_month_statistics Scenarios.nov_2026 Scenarios.ledger_db)
      = active_users
          (get_current_month_statistics Scenarios.nov_2026 Scenarios.ledger_db))%nat.
Proof.
  assert (Hv : Forall (fun c => valid_button c = true)
    (filter (fun c => (year c =? 2026) && (month c =? 11)
                      && negb (is_test c))
       (choices Scenarios.ledger_db))).
  { simpl. repeat constructor. }
  split; [exact Hv|].
  exact (proj2 (monthly_statistics_counts Scenarios.nov_2026
                  Scenarios.ledger_db) Hv).
Defined.

Example monthly_statistics_november :
  get_current_month_statistics Scenarios.nov_2026 Scenarios.ledger_db
  = mk_MonthlyStatistics 2026 11 4 2 1 0 1.
Proof. reflexivity. Qed.

End StatisticsProps.

(** ** The store and its constraints *)

Module StoreProps.

Lemma distinct_NoDup : forall l : list Z, distinct Z.eqb l = true <-> NoDup l.
Proof.
  induction l as [|a l IH]; simpl; split; intros H.
  - constructor.
  - reflexivity.
  - apply andb_true_iff in H as [H1 H2]. constructor.
    + intros Hin. apply negb_true_iff in H1.
      assert (existsb (Z.eqb a) l = true) as E.
      { apply existsb_exists. exists a. split; [exact Hin | apply Z.eqb_refl]. }
      congruence.
    + apply IH. exact H2.
  - inversion H as [|x l' Hn Hd]; subst. apply andb_true_iff. split.
    + apply negb_true_iff. destruct (existsb (Z.eqb a) l) eqn:E; [|reflexivity].
      apply existsb_exists in E as (x & Hx & Heq).
      apply Z.eqb_eq in Heq. subst x. contradiction.
    + apply IH. exact Hd.
Qed.

Lemma constraints_split : forall db,
  constraints_ok db = true <->
  NoDup (map id (predictions db))
  /\ (List.length (select_by_status SCHEDULED db) <= 1)%nat
  /\ (List.length (select_by_status ACTIVE db) <= 1)%nat
  /\ distinct Z.eqb (map choice_id (choices db)) = true
  /\ distinct same_period_key (choices db) = true
  /\ distinct Z.eqb (map user_id (users db)) = true
  /\ distinct Z.eqb (map user_telegram_user_id (users db)) = true
  /\ references_ok db = true
  /\ columns_ok db = true.
Proof.
  intros db. unfold constraints_ok, unique_status.
  rewrite !andb_true_iff, !Nat.leb_le, distinct_NoDup. tauto.
Qed.

Lemma flush_ok : forall db, constraints_ok db = true -> flush db = Ok db.
Proof. intros db H. unfold flush. rewrite H. reflexivity. Qed.

Lemma flush_inv : forall db db', flush db = Ok db' ->
  db' = db /\ constraints_ok db = true.
Proof.
  intros db db' H. unfold flush in H.
  destruct (constraints_ok db); [|destruct (columns_ok db); discriminate].
  inversion H. auto.
Qed.

(** A write that breaks a key, an index or a reference while every value
    fits its column is refused with [IntegrityError]. *)
Lemma flush_integrity : forall db,
  constraints_ok db = false -> columns_ok db = true ->
  flush db = Raise IntegrityError.
Proof.
  intros db H1 H2. unfold flush. rewrite H1, H2. reflexivity.
Qed.

Lemma flush_columns : forall db,
  columns_ok db = false -> flush db = Raise DBAPIError.
Proof.
  intros db H. unfold flush, constraints_ok. rewrite H.
  rewrite andb_false_r. reflexivity.
Qed.

Lemma consistent_columns : forall db p,
  consistent db -> In p (predictions db) -> prediction_row_ok p = true.
Proof.
  intros db p (Hcons & _) Hin. apply constraints_split in Hcons.
  destruct Hcons as (_ & _ & _ & _ & _ & _ & _ & _ & Hcol).
  unfold columns_ok in Hcol. rewrite forallb_forall in Hcol. auto.
Qed.

Lemma consistent_int32 : forall db p,
  consistent db -> In p (predictions db) -> int32 (id p) = true.
Proof.
  intros db p Hc Hin. pose proof (consistent_columns db p Hc Hin) as H.
  unfold prediction_row_ok in H. rewrite !andb_true_iff in H. tauto.
Qed.

Lemma rollback_same : forall db, rollback db db = db.
Proof. intros db. destruct db. reflexivity. Qed.

Lemma scalar_at_most_one : forall (A : Type) (rows : list A),
  (List.length rows <= 1)%nat ->
  (rows = [] /\ scalar_one_or_none rows = Ok None)
  \/ (exists r, rows = [r] /\ scalar_one_or_none rows = Ok (Some r)).
Proof.
  intros A [|r [|r' rows]] H; simpl in *.
  - left. auto.
  - right. exists r. auto.
  - lia.
Qed.

Lemma scalar_some_inv : forall (A : Type) (rows : list A) (r : A),
  scalar_one_or_none rows = Ok (Some r) -> rows = [r].
Proof.
  intros A [|x [|y rows]] r H; simpl in H; inversion H. reflexivity.
Qed.

Lemma scalar_none_inv : forall (A : Type) (rows : list A),
  scalar_one_or_none rows = Ok None -> rows = [].
Proof.
  intros A [|x [|y rows]] H; simpl in H; inversion H. reflexivity.
Qed.

(** *** Updates by key *)

Section Update.

Variable s : PredictionStatus.
Variable i : Z.
Variable f : Prediction -> Prediction.

Lemma update_ids : forall db,
  (forall p, id (f p) = id p) ->
  map id (predictions (update_prediction i f db)) = map id (predictions db).
Proof.
  intros db Hid. unfold update_prediction, with_predictions. simpl.
  rewrite map_map. apply map_ext. intros p.
  destruct (id p =? i); [apply Hid | reflexivity].
Qed.

Lemma select_update_none : forall db,
  (forall r, In r (select_by_status s db) -> id r = i) ->
  (forall r, has_status s (f r) = false) ->
  select_by_status s (update_prediction i f db) = [].
Proof.
  intros db Hkey Hf. unfold select_by_status in *. simpl.
  induction (predictions db) as [|r rows IH]; simpl in *.
  - reflexivity.
  - destruct (id r =? i) eqn:E.
    + rewrite Hf. apply IH. intros x Hx. apply Hkey.
      destruct (has_status s r); [right|]; exact Hx.
    + destruct (has_status s r) eqn:Es.
      * exfalso. apply Z.eqb_neq in E. apply E. apply Hkey. left. reflexivity.
      * apply IH. exact Hkey.
Qed.

Lemma select_update_sub : forall db r',
  (forall r, has_status s (f r) = false) ->
  In r' (select_by_status s (update_prediction i f db)) ->
  In r' (select_by_status s db).
Proof.
  intros db r' Hf. unfold select_by_status. simpl.
  rewrite !filter_In, in_map_iff. intros [(r & Hr & Hin) Hs].
  destruct (id r =? i).
  - subst r'. rewrite Hf in Hs. discriminate.
  - subst r'. auto.
Qed.

Lemma select_update_le : forall db,
  (forall r, has_status s (f r) = true -> has_status s r = true) ->
  (List.length (select_by_status s (update_prediction i f db))
   <= List.length (select_by_status s db))%nat.
Proof.
  intros db Hf. unfold select_by_status. simpl.
  induction (predictions db) as [|r rows IH]; simpl.
  - lia.
  - destruct (id r =? i).
    + destruct (has_status s (f r)) eqn:E.
      * rewrite (Hf r E). simpl. lia.
      * destruct (has_status s r); simpl; lia.
    + destruct (has_status s r); simpl; lia.
Qed.

Lemma update_misses : forall rows : list Prediction,
  ~ In i (map id rows) ->
  map (fun p => if id p =? i then f p else p) rows = rows.
Proof.
  induction rows as [|r rows IH]; simpl; intros H.
  - reflexivity.
  - destruct (id r =? i) eqn:E.
    + apply Z.eqb_eq in E. tauto.
    + rewrite IH by tauto. reflexivity.
Qed.

Lemma select_update_one : forall db,
  select_by_status s db = [] ->
  NoDup (map id (predictions db)) ->
  (List.length (select_by_status s (update_prediction i f db)) <= 1)%nat.
Proof.
  intros db. unfold select_by_status. simpl.
  induction (predictions db) as [|r rows IH]; simpl; intros Hnone Hnd.
  - lia.
  - inversion Hnd as [|x l Hnotin Hnd']; subst.
    destruct (has_status s r) eqn:Es; [discriminate|].
    destruct (id r =? i) eqn:E.
    + apply Z.eqb_eq in E. rewrite E in Hnotin.
      rewrite (update_misses rows Hnotin), Hnone.
      destruct (has_status s (f r)); simpl; lia.
    + rewrite Es. apply IH; assumption.
Qed.

(** An update that leaves the key, the strings and the admin of a row
    alone. *)
Definition keeps_row : Prop :=
  forall p, id (f p) = id p
            /\ prediction_row_ok (f p) = prediction_row_ok p
            /\ created_by_admin_id (f p) = created_by_admin_id p.

Lemma update_admin_references : forall (us : list User) rows,
  keeps_row ->
  forallb (admin_reference_ok us)
    (map (fun p => if id p =? i then f p else p) rows)
  = forallb (admin_reference_ok us) rows.
Proof.
  intros us rows Hk. induction rows as [|r rows IH]; simpl; [reflexivity|].
  rewrite IH. f_equal. unfold admin_reference_ok.
  destruct (id r =? i); [|reflexivity].
  destruct (Hk r) as (_ & _ & Ha). rewrite Ha. reflexivity.
Qed.

Lemma update_prediction_reference : forall rows c,
  keeps_row ->
  prediction_reference_ok
    (map (fun p => if id p =? i then f p else p) rows) c
  = prediction_reference_ok rows c.
Proof.
  intros rows c Hk. unfold prediction_reference_ok.
  induction rows as [|r rows IH]; simpl; [reflexivity|].
  rewrite IH. f_equal.
  destruct (id r =? i); [|reflexivity].
  destruct (Hk r) as (Hi & _). rewrite Hi. reflexivity.
Qed.

Lemma update_references : forall db,
  keeps_row ->
  references_ok (update_prediction i f db) = references_ok db.
Proof.
  intros db Hk. unfold references_ok. simpl.
  rewrite update_admin_references by exact Hk. f_equal.
  induction (choices db) as [|c cs IH]; simpl; [reflexivity|].
  rewrite IH, update_prediction_reference by exact Hk. reflexivity.
Qed.

Lemma update_columns : forall db,
  keeps_row ->
  columns_ok (update_prediction i f db) = columns_ok db.
Proof.
  intros db Hk. unfold columns_ok. simpl.
  induction (predictions db) as [|r rows IH]; simpl; [reflexivity|].
  rewrite IH. f_equal.
  destruct (id r =? i); [|reflexivity].
  destruct (Hk r) as (_ & Hr & _). exact Hr.
Qed.

(** An update that keeps the key and leaves at most one row in each of the
    two guarded statuses is accepted by the store and keeps it consistent. *)
Lemma update_consistent : forall db,
  consistent db ->
  keeps_row ->
  (List.length (select_by_status SCHEDULED (update_prediction i f db)) <= 1)%nat ->
  (List.length (select_by_status ACTIVE (update_prediction i f db)) <= 1)%nat ->
  flush (update_prediction i f db) = Ok (update_prediction i f db)
  /\ consistent (update_prediction i f db).
Proof.
  intros db (Hc & Hp & Hch) Hk Hs Ha.
  assert (Hid : forall p, id (f p) = id p) by (intros p; apply Hk).
  assert (Hc' : constraints_ok (update_prediction i f db) = true).
  { apply constraints_split in Hc.
    destruct Hc as (C1 & _ & _ & C4 & C5 & C6 & C7 & C8 & C9).
    apply constraints_split. rewrite update_ids by exact Hid.
    rewrite update_references, update_columns by exact Hk.
    repeat split; assumption. }
  split; [apply flush_ok; exact Hc'|].
  split; [exact Hc'|]. split; [|exact Hch].
  simpl. rewrite Forall_map.
  eapply Forall_impl; [|exact Hp]. intros p Hlt. simpl in *.
  destruct (id p =? i); [rewrite Hid|]; exact Hlt.
Qed.

End Update.

(** *** Columns *)

Lemma clip_fits : forall s n,
  (char_length s <= n)%nat -> clip n s = (s, EmptyString).
Proof.
  induction s as [|c s IH]; intros n H; simpl in *.
  - reflexivity.
  - destruct (continuation_byte c).
    + rewrite (IH n H). reflexivity.
    + destruct n as [|n']; [lia|]. rewrite (IH n') by lia. reflexivity.
Qed.

(** A value that fits is stored as it is. *)
Lemma varchar_fits : forall n s,
  (char_length s <= n)%nat -> varchar n s = s.
Proof.
  intros n s H. unfold varchar. rewrite clip_fits by exact H. reflexivity.
Qed.

Lemma stored_fits : forall p,
  prediction_row_ok p = true -> stored_prediction p = p.
Proof.
  intros p H. unfold prediction_row_ok in H.
  rewrite !andb_true_iff, !Nat.leb_le in H.
  destruct H as (((((((_ & H1) & H2) & H3) & H4) & H5) & H6) & H7).
  destruct p. unfold stored_prediction. simpl in *.
  rewrite !varchar_fits by assumption. reflexivity.
Qed.

(** *** Rolling back *)

Lemma rollback_constraints : forall db reached,
  constraints_ok (rollback db reached) = constraints_ok db.
Proof. intros db reached. reflexivity. Qed.

Lemma rollback_consistent : forall db reached,
  consistent db ->
  predictions_id_seq db <= predictions_id_seq reached ->
  choices_id_seq db <= choices_id_seq reached ->
  consistent (rollback db reached).
Proof.
  intros db reached (Hc & Hp & Hch) H1 H2.
  split; [rewrite rollback_constraints; exact Hc|]. split; simpl.
  - eapply Forall_impl; [|exact Hp]. intros a Ha. simpl in Ha. lia.
  - eapply Forall_impl; [|exact Hch]. intros a Ha. simpl in Ha. lia.
Qed.

End StoreProps.

(** ** The prediction lifecycle *)

Module LifecycleProps.

Import PredictionService StoreProps.

Lemma select_by_id_update : forall j i f db,
  (forall p, id (f p) = id p) ->
  select_by_id j (update_prediction i f db)
  = map (fun p => if id p =? i then f p else p) (select_by_id j db).
Proof.
  intros j i f db Hid. unfold select_by_id. simpl.
  induction (predictions db) as [|r rows IH]; simpl.
  - reflexivity.
  - assert (E : id (if id r =? i then f r else r) = id r).
    { destruct (id r =? i); [apply Hid | reflexivity]. }
    rewrite E. destruct (id r =? j); simpl; rewrite IH; reflexivity.
Qed.

Lemma select_by_id_unique : forall db p,
  NoDup (map id (predictions db)) -> In p (predictions db) ->
  select_by_id (id p) db = [p].
Proof.
  intros db p. unfold select_by_id.
  induction (predictions db) as [|r rows IH]; simpl; intros Hnd Hin.
  - contradiction.
  - inversion Hnd as [|x l Hnotin Hnd']; subst.
    destruct Hin as [-> | Hin].
    + rewrite Z.eqb_refl. f_equal.
      clear IH Hnd Hnd'. induction rows as [|q rows IH]; simpl in *.
      * reflexivity.
      * destruct (id q =? id p) eqn:E.
        -- apply Z.eqb_eq in E. tauto.
        -- apply IH. tauto.
    + destruct (id r =? id p) eqn:E.
      * apply Z.eqb_eq in E. exfalso. apply Hnotin. rewrite E.
        apply in_map. exact Hin.
      * apply IH; assumption.
Qed.

Lemma get_prediction_by_id_some : forall n db p,
  get_prediction_by_id n db = Ok (Some p) -> select_by_id n db = [p].
Proof.
  intros n db p H. unfold get_prediction_by_id in H.
  destruct (int32 n); [|discriminate]. apply scalar_some_inv. exact H.
Qed.

Lemma get_prediction_by_id_none : forall n db,
  get_prediction_by_id n db = Ok None -> select_by_id n db = [].
Proof.
  intros n db H. unfold get_prediction_by_id in H.
  destruct (int32 n); [|discriminate]. apply scalar_none_inv. exact H.
Qed.

(** A stored prediction is found under its key. *)
Lemma get_prediction_by_id_stored : forall db p,
  consistent db -> In p (predictions db) ->
  get_prediction_by_id (id p) db = Ok (Some p).
Proof.
  intros db p Hc Hin. unfold get_prediction_by_id.
  rewrite (consistent_int32 db p Hc Hin).
  rewrite select_by_id_unique; [reflexivity | | exact Hin].
  destruct Hc as (Hcons & _). apply constraints_split in Hcons. tauto.
Qed.

Lemma selected_row : forall s db p,
  In p (select_by_status s db) ->
  In p (predictions db) /\ status p = s.
Proof.
  intros s db p H. unfold select_by_status in H. apply filter_In in H.
  destruct H as [Hin Hs]. split; [exact Hin|].
  unfold has_status in Hs. destruct (status p), s; simpl in Hs;
    try discriminate; reflexivity.
Qed.

Lemma activated_id : forall now p, id (activated now p) = id p.
Proof. reflexivity. Qed.

Lemma activated_not_scheduled : forall now p,
  has_status SCHEDULED (activated now p) = false.
Proof. reflexivity. Qed.

Lemma empty_of_length_0 : forall (A : Type) (l : list A),
  (List.length l <= 0)%nat -> l = [].
Proof. intros A [|x l] H; simpl in *; [reflexivity | lia]. Qed.

(** Making [p] active in a consistent store that has no active row. *)
Lemma activate_step : forall now p db,
  consistent db -> select_by_status ACTIVE db = [] ->
  flush (update_prediction (id p) (activated now) db)
  = Ok (update_prediction (id p) (activated now) db)
  /\ consistent (update_prediction (id p) (activated now) db).
Proof.
  intros now p db Hc Hnone.
  pose proof Hc as (Hcons & _).
  apply constraints_split in Hcons. destruct Hcons as (Hnd & Hs & _).
  apply update_consistent;
    [exact Hc | intros q; repeat split; reflexivity | |].
  - etransitivity; [apply select_update_le | exact Hs].
    intros r Hr. rewrite activated_not_scheduled in Hr. discriminate.
  - apply select_update_one; assumption.
Qed.

(** Archiving the row the store holds as active. *)
Lemma archive_step : forall a db,
  consistent db -> select_by_status ACTIVE db = [a] ->
  flush (update_prediction (id a) (set_status ARCHIVED) db)
  = Ok (update_prediction (id a) (set_status ARCHIVED) db)
  /\ consistent (update_prediction (id a) (set_status ARCHIVED) db)
  /\ select_by_status ACTIVE
       (update_prediction (id a) (set_status ARCHIVED) db) = [].
Proof.
  intros a db Hc Ha.
  pose proof Hc as (Hcons & _).
  apply constraints_split in Hcons. destruct Hcons as (Hnd & Hs & _).
  assert (Hnone : select_by_status ACTIVE
                    (update_prediction (id a) (set_status ARCHIVED) db) = []).
  { apply select_update_none; [|reflexivity].
    intros r Hr. rewrite Ha in Hr. destruct Hr as [<- | []]. reflexivity. }
  assert (H : flush (update_prediction (id a) (set_status ARCHIVED) db)
              = Ok (update_prediction (id a) (set_status ARCHIVED) db)
              /\ consistent (update_prediction (id a) (set_status ARCHIVED) db)).
  { apply update_consistent;
      [exact Hc | intros q; repeat split; reflexivity | |].
    - etransitivity; [apply select_update_le | exact Hs].
      intros r Hr. discriminate.
    - rewrite Hnone. simpl. lia. }
  destruct H as [H1 H2]. auto.
Qed.

(** [activate_prediction] never fails on a consistent store, whatever the
    status of the prediction it is given. *)
Lemma activate_prediction_ok : forall now p db,
  consistent db ->
  exists db', activate_prediction now p db = Ok db'
    /\ consistent db' /\ users db' = users db /\ choices db' = choices db
    /\ (select_by_status SCHEDULED db = [p] ->
        select_by_status SCHEDULED db' = []
        /\ select_by_id (id p) db' = [activated now p]).
Proof.
  intros now p db Hc.
  pose proof Hc as (Hcons & _).
  apply constraints_split in Hcons. destruct Hcons as (Hnd & Hs & Ha & _).
  unfold activate_prediction, get_active_prediction.
  destruct (scalar_at_most_one _ (select_by_status ACTIVE db) Ha)
    as [[Hnil Hsc] | (a & Hone & Hsc)]; rewrite Hsc; simpl.
  - destruct (activate_step now p db Hc Hnil) as [Hf Hc'].
    exists (update_prediction (id p) (activated now) db).
    split; [exact Hf|]. split; [exact Hc'|].
    split; [reflexivity|]. split; [reflexivity|]. intros H. split.
    + apply select_update_none; [|apply activated_not_scheduled].
      intros r Hr. rewrite H in Hr. destruct Hr as [<- | []]. reflexivity.
    + rewrite select_by_id_update by apply activated_id.
      rewrite select_by_id_unique; [simpl; rewrite Z.eqb_refl; reflexivity
                                   | exact Hnd |].
      apply (selected_row SCHEDULED). rewrite H. left. reflexivity.
  - destruct (archive_step a db Hc Hone) as (Hf1 & Hc1 & Hnone1).
    rewrite Hf1. simpl.
    destruct (activate_step now p _ Hc1 Hnone1) as [Hf Hc'].
    exists (update_prediction (id p) (activated now)
              (update_prediction (id a) (set_status ARCHIVED) db)).
    split; [exact Hf|]. split; [exact Hc'|].
    split; [reflexivity|]. split; [reflexivity|]. intros H. split.
    + apply select_update_none; [|apply activated_not_scheduled].
      intros r Hr. apply select_update_sub in Hr; [|reflexivity].
      rewrite H in Hr. destruct Hr as [<- | []]. reflexivity.
    + assert (Hinp : In p (predictions db) /\ status p = SCHEDULED).
      { apply selected_row. rewrite H. left. reflexivity. }
      assert (Hina : In a (predictions db) /\ status a = ACTIVE).
      { apply selected_row. rewrite Hone. left. reflexivity. }
      destruct Hinp as [Hinp Hsp]. destruct Hina as [Hina Hsa].
      rewrite !select_by_id_update by reflexivity.
      rewrite select_by_id_unique by assumption. simpl.
      destruct (id p =? id a) eqn:E.
      * exfalso. apply Z.eqb_eq in E.
        pose proof (select_by_id_unique db p Hnd Hinp) as Hu.
        assert (In a (select_by_id (id p) db)) as Hin.
        { unfold select_by_id. apply filter_In. split; [exact Hina|].
          apply Z.eqb_eq. symmetry. exact E. }
        rewrite Hu in Hin. destruct Hin as [<- | []]. congruence.
      * rewrite Z.eqb_refl. reflexivity.
Qed.

(** [mark_broadcast_completed] touches one flag of one row. *)
Lemma mark_broadcast_completed_ok : forall p db,
  consistent db ->
  exists db', mark_broadcast_completed p db = Ok db'
    /\ consistent db' /\ users db' = users db /\ choices db' = choices db
    /\ (select_by_status SCHEDULED db = [] ->
        select_by_status SCHEDULED db' = [])
    /\ select_by_id (id p) db'
       = map (set_broadcast_completed true) (select_by_id (id p) db).
Proof.
  intros p db Hc.
  pose proof Hc as (Hcons & _).
  apply constraints_split in Hcons. destruct Hcons as (Hnd & Hs & Ha & _).
  unfold mark_broadcast_completed.
  assert (Hle : forall s,
    (List.length (select_by_status s
        (update_prediction (id p) (set_broadcast_completed true) db))
     <= List.length (select_by_status s db))%nat).
  { intros s. apply select_update_le. intros r Hr. exact Hr. }
  destruct (update_consistent (id p) (set_broadcast_completed true) db Hc)
    as [Hf Hc']; [intros q; repeat split; reflexivity | | |].
  - etransitivity; [apply Hle | exact Hs].
  - etransitivity; [apply Hle | exact Ha].
  - exists (update_prediction (id p) (set_broadcast_completed true) db).
    split; [exact Hf|]. split; [exact Hc'|].
    split; [reflexivity|]. split; [reflexivity|]. split.
    + intros Hnone. apply empty_of_length_0.
      etransitivity; [apply Hle|]. rewrite Hnone. simpl. lia.
    + rewrite select_by_id_update by reflexivity.
      apply map_ext_in. intros r Hr. unfold select_by_id in Hr.
      apply filter_In in Hr. destruct Hr as [_ Hr]. rewrite Hr. reflexivity.
Qed.

(** [cancel_prediction]: the store accepts it for a row of any status; the
    test for SCHEDULED is in the admin handler that calls it. *)
Lemma cancel_prediction_ok : forall p db,
  consistent db ->
  exists db', cancel_prediction p db = Ok db' /\ consistent db'.
Proof.
  intros p db Hc.
  pose proof Hc as (Hcons & _).
  apply constraints_split in Hcons. destruct Hcons as (Hnd & Hs & Ha & _).
  unfold cancel_prediction.
  destruct (update_consistent (id p) (set_status CANCELLED) db Hc)
    as [Hf Hc']; [intros q; repeat split; reflexivity | | |].
  - etransitivity; [apply select_update_le | exact Hs].
    intros r Hr. discriminate.
  - etransitivity; [apply select_update_le | exact Ha].
    intros r Hr. discriminate.
  - eexists. split; [exact Hf | exact Hc'].
Qed.

Lemma empty_consistent : consistent Store.empty.
Proof. split; [reflexivity|]. split; constructor. Qed.

End LifecycleProps.

(** ** Creating predictions *)

Module CreateProps.

Import PredictionService StoreProps LifecycleProps.

Lemma NoDup_snoc : forall (A : Type) (l : list A) (x : A),
  NoDup l -> ~ In x l -> NoDup (l ++ [x]).
Proof.
  intros A l x Hnd Hx. induction Hnd as [|y l Hy Hnd IH]; simpl.
  - constructor; [intros [] | constructor].
  - constructor.
    + rewrite in_app_iff. simpl. intros [H | [H | []]].
      * contradiction.
      * subst. apply Hx. left. reflexivity.
    + apply IH. intros H. apply Hx. right. exact H.
Qed.

Lemma below_seq_fresh : forall (rows : list Prediction) (n : Z),
  Forall (fun p => id p < n) rows -> ~ In n (map id rows).
Proof.
  intros rows n H Hin. apply in_map_iff in Hin as (p & Hp & Hin).
  rewrite Forall_forall in H. specialize (H p Hin). lia.
Qed.

(** The first half of a create leaves no scheduled row. *)
Lemma supersede_ok : forall db,
  consistent db ->
  exists db1, supersede_scheduled db = Ok db1
    /\ consistent db1
    /\ select_by_status SCHEDULED db1 = []
    /\ predictions_id_seq db1 = predictions_id_seq db
    /\ (forall e, select_by_status SCHEDULED db = [e] ->
        select_by_id (id e) db1 = [set_status CANCELLED e])
    /\ users db1 = users db
    /\ choices_id_seq db1 = choices_id_seq db.
Proof.
  intros db Hc.
  pose proof Hc as (Hcons & _).
  apply constraints_split in Hcons. destruct Hcons as (Hnd & Hs & Ha & _).
  unfold supersede_scheduled, get_scheduled_prediction.
  destruct (scalar_at_most_one _ (select_by_status SCHEDULED db) Hs)
    as [[Hnil Hsc] | (e & Hone & Hsc)]; rewrite Hsc; simpl.
  - exists db. split; [reflexivity|]. split; [exact Hc|].
    split; [exact Hnil|]. split; [reflexivity|].
    split; [|split; reflexivity].
    intros e He. rewrite Hnil in He. discriminate.
  - assert (Hnone : select_by_status SCHEDULED
                      (update_prediction (id e) (set_status CANCELLED) db) = []).
    { apply select_update_none; [|reflexivity].
      intros r Hr. rewrite Hone in Hr. destruct Hr as [<- | []]. reflexivity. }
    destruct (update_consistent (id e) (set_status CANCELLED) db Hc)
      as [Hf Hc1];
      [intros q; repeat split; reflexivity | rewrite Hnone; simpl; lia | |].
    { etransitivity; [apply select_update_le | exact Ha].
      intros r Hr. discriminate. }
    exists (update_prediction (id e) (set_status CANCELLED) db).
    split; [exact Hf|]. split; [exact Hc1|].
    split; [exact Hnone|]. split; [reflexivity|].
    split; [|split; reflexivity].
    intros e' He'. rewrite Hone in He'. inversion He'; subst e'.
    rewrite select_by_id_update by reflexivity.
    rewrite select_by_id_unique; [simpl; rewrite Z.eqb_refl; reflexivity
                                 | exact Hnd |].
    apply (selected_row SCHEDULED). rewrite Hone. left. reflexivity.
Qed.

(** An insert that the store has taken leaves it consistent, with the row
    the columns kept as the only scheduled one. *)
Lemma insert_flushed : forall c db1 db2,
  consistent db1 -> select_by_status SCHEDULED db1 = [] ->
  flush (snd (insert_prediction (new_prediction c) db1)) = Ok db2 ->
  let p := new_prediction c (predictions_id_seq db1) in
  db2 = snd (insert_prediction (new_prediction c) db1)
  /\ consistent db2
  /\ select_by_status SCHEDULED db2 = [stored_prediction p]
  /\ predictions db2 = predictions db1 ++ [stored_prediction p].
Proof.
  intros c db1 db2 (Hcons & Hp & Hch) Hnone Hf p.
  apply flush_inv in Hf as [-> Hcons2].
  split; [reflexivity|]. split; [|split; [|reflexivity]].
  - split; [exact Hcons2|]. split; [|exact Hch].
    simpl. apply Forall_app. split.
    + eapply Forall_impl; [|exact Hp]. intros q Hq. simpl in Hq. lia.
    + constructor; [simpl; lia | constructor].
  - unfold select_by_status in *. simpl.
    rewrite filter_app, Hnone. reflexivity.
Qed.

Lemma reference_grows : forall rows extra c,
  prediction_reference_ok rows c = true ->
  prediction_reference_ok (rows ++ extra) c = true.
Proof.
  intros rows extra c H. unfold prediction_reference_ok in *.
  rewrite existsb_app, H. reflexivity.
Qed.

(** Inserting a row that fits into a store without a scheduled one. *)
Lemma insert_scheduled_ok : forall c db1,
  consistent db1 -> select_by_status SCHEDULED db1 = [] ->
  acceptable c db1 = true ->
  let p := new_prediction c (predictions_id_seq db1) in
  let db2 := snd (insert_prediction (new_prediction c) db1) in
  fst (insert_prediction (new_prediction c) db1) = p
  /\ flush db2 = Ok db2
  /\ consistent db2
  /\ select_by_status SCHEDULED db2 = [p]
  /\ predictions db2 = predictions db1 ++ [p].
Proof.
  intros c db1 Hc Hnone Hacc p db2.
  unfold acceptable in Hacc. fold p in Hacc.
  apply andb_true_iff in Hacc as [Hrow Hadmin].
  assert (Hst : stored_prediction p = p) by (apply stored_fits; exact Hrow).
  assert (Hrows : predictions db2 = predictions db1 ++ [p]).
  { unfold db2. simpl. fold p. rewrite Hst. reflexivity. }
  pose proof Hc as (Hcons & Hp & Hch).
  apply constraints_split in Hcons.
  destruct Hcons as (Hnd & Hs & Ha & C4 & C5 & C6 & C7 & C8 & C9).
  assert (Hsel : select_by_status SCHEDULED db2 = [p]).
  { unfold select_by_status in *. rewrite Hrows, filter_app, Hnone.
    reflexivity. }
  assert (Hcons2 : constraints_ok db2 = true).
  { apply constraints_split.
    split; [|split; [|split; [|split; [|split; [|split; [|split; [|split]]]]]]].
    - rewrite Hrows, map_app. apply NoDup_snoc; [exact Hnd|].
      apply below_seq_fresh. exact Hp.
    - rewrite Hsel. simpl. lia.
    - unfold select_by_status in *. rewrite Hrows, filter_app. simpl.
      rewrite app_nil_r. exact Ha.
    - exact C4.
    - exact C5.
    - exact C6.
    - exact C7.
    - unfold references_ok in *. rewrite Hrows.
      apply andb_true_iff in C8 as [R1 R2]. apply andb_true_iff. split.
      + rewrite forallb_app. change (users db2) with (users db1).
        rewrite R1. simpl. rewrite Hadmin. reflexivity.
      + change (choices db2) with (choices db1).
        rewrite forallb_forall in *. intros x Hx.
        apply reference_grows. apply R2. exact Hx.
    - unfold columns_ok in *. rewrite Hrows, forallb_app, C9. simpl.
      rewrite Hrow. reflexivity. }
  split; [reflexivity|]. split; [apply flush_ok; exact Hcons2|].
  split; [|split; [exact Hsel | exact Hrows]].
  split; [exact Hcons2|]. split; [|exact Hch].
  rewrite Hrows. simpl. apply Forall_app. split.
  - eapply Forall_impl; [|exact Hp]. intros q Hq. simpl in Hq. lia.
  - constructor; [simpl; lia | constructor].
Qed.

(** One create of a content that fits, on a consistent store: it succeeds,
    passes through a state without any scheduled row, and leaves the new row
    as the only scheduled one, the superseded row being cancelled. *)
Lemma create_prediction_ok : forall c db,
  consistent db ->
  acceptable c db = true ->
  exists db1 p db2,
    supersede_scheduled db = Ok db1
    /\ create_prediction c db = Ok (p, db2)
    /\ consistent db2
    /\ select_by_status SCHEDULED db1 = []
    /\ select_by_status SCHEDULED db2 = [p]
    /\ status p = SCHEDULED
    /\ (forall e, select_by_status SCHEDULED db = [e] ->
        select_by_id (id e) db2 = [set_status CANCELLED e]).
Proof.
  intros c db Hc Hacc.
  destruct (supersede_ok db Hc)
    as (db1 & Hsup & Hc1 & Hnone & Hseq & Hold & Husers & _).
  assert (Hacc1 : acceptable c db1 = true).
  { unfold acceptable in *. rewrite Hseq, Husers. exact Hacc. }
  destruct (insert_scheduled_ok c db1 Hc1 Hnone Hacc1)
    as (Hp & Hf & Hc2 & Hsel & Hrows).
  exists db1, (new_prediction c (predictions_id_seq db1)),
    (snd (insert_prediction (new_prediction c) db1)).
  split; [exact Hsup|]. split.
  { unfold create_prediction. rewrite Hsup. simpl.
    simpl in Hf. rewrite Hf. reflexivity. }
  split; [exact Hc2|]. split; [exact Hnone|]. split; [exact Hsel|].
  split; [reflexivity|].
  intros e He. specialize (Hold e He).
  unfold select_by_id in *. rewrite Hrows, filter_app, Hold. simpl.
  assert (Hlt : id e < predictions_id_seq db).
  { destruct Hc as (_ & Hb & _). rewrite Forall_forall in Hb. apply Hb.
    apply (selected_row SCHEDULED). rewrite He. left. reflexivity. }
  rewrite Hseq.
  destruct (predictions_id_seq db =? id e) eqn:E; [|reflexivity].
  apply Z.eqb_eq in E. lia.
Qed.

(** One create of any content on a consistent store: the cancellation is
    flushed and leaves no scheduled row; then either the insert is taken,
    or it is refused and the rollback of the session brings back every row
    as it was. *)
Lemma create_prediction_cases : forall c db,
  consistent db ->
  exists db1,
    supersede_scheduled db = Ok db1
    /\ select_by_status SCHEDULED db1 = []
    /\ ((exists p db2,
           create_prediction c db = Ok (p, db2)
           /\ consistent db2
           /\ select_by_status SCHEDULED db2 = [stored_prediction p]
           /\ status p = SCHEDULED)
        \/ (exists e,
              create_prediction c db = Raise e
              /\ e <> MultipleResultsFound
              /\ forall drawn,
                   consistent (rollback db (refused_prediction drawn db1))
                   /\ users (rollback db (refused_prediction drawn db1))
                      = users db
                   /\ predictions (rollback db (refused_prediction drawn db1))
                      = predictions db
                   /\ choices (rollback db (refused_prediction drawn db1))
                      = choices db)).
Proof.
  intros c db Hc.
  destruct (supersede_ok db Hc)
    as (db1 & Hsup & Hc1 & Hnone & Hseq & _ & _ & Hcseq).
  exists db1. split; [exact Hsup|]. split; [exact Hnone|].
  unfold create_prediction. rewrite Hsup. simpl.
  destruct (flush _) as [db2|e] eqn:Hf.
  - left. destruct (insert_flushed c db1 db2 Hc1 Hnone Hf)
      as (_ & Hc2 & Hsel & _).
    exists (new_prediction c (predictions_id_seq db1)), db2.
    split; [reflexivity|]. split; [exact Hc2|].
    split; [exact Hsel | reflexivity].
  - right. exists e. split; [reflexivity|]. split.
    + unfold flush in Hf.
      destruct (constraints_ok _); [discriminate|].
      destruct (columns_ok _); inversion Hf; discriminate.
    + intros drawn. split; [|repeat split].
      apply rollback_consistent;
        [exact Hc | destruct drawn; simpl; lia | simpl; lia].
Qed.

Lemma create_history_bounded : forall cs at_execution db,
  consistent db ->
  Forall (fun d => (List.length (select_by_status SCHEDULED d) <= 1)%nat)
    (create_history at_execution cs db).
Proof.
  induction cs as [|c cs IH]; intros at_execution db Hc.
  - simpl. constructor; [|constructor].
    destruct Hc as (Hcons & _). apply constraints_split in Hcons. tauto.
  - destruct (create_prediction_cases c db Hc)
      as (db1 & Hsup & Hnone
          & [(p & db2 & Hcr & Hc2 & _) | (e & Hcr & _ & Hc2)]);
      simpl; rewrite Hsup, Hcr;
      (constructor;
       [destruct Hc as (Hcons & _); apply constraints_split in Hcons; tauto|]);
      (constructor; [rewrite Hnone; simpl; lia|]);
      apply IH; [exact Hc2 | apply Hc2].
Qed.

(** C6: from a consistent store, along every sequence of creates, whatever
    their contents and wherever the server evaluates their values, every
    state the store passes through - before a call, between the flush that
    cancels the old scheduled prediction and the insert, and after the
    call - has at most one SCHEDULED prediction.  Each create first passes
    through a state with no SCHEDULED prediction at all; then either the
    insert is taken and the new prediction, as the store holds it, is the
    only SCHEDULED one, or it is refused - by the data base, not by a
    lookup - and the rollback of the session undoes the cancellation with
    it: every row is as it was before the call, and the store is
    consistent whether or not the refused insert had drawn a key.  A create
    of a content that fits its columns and names a known admin, or none,
    succeeds and leaves the prediction that was SCHEDULED before as
    CANCELLED. *)
Theorem create_keeps_one_scheduled :
  forall (at_execution : list bool) (cs : list Content) (db : Database),
  consistent db ->
  Forall (fun d => (List.length (select_by_status SCHEDULED d) <= 1)%nat)
    (create_history at_execution cs db)
  /\ (forall c, exists db1,
        supersede_scheduled db = Ok db1
        /\ select_by_status SCHEDULED db1 = []
        /\ ((exists p db2,
               create_prediction c db = Ok (p, db2)
               /\ consistent db2
               /\ select_by_status SCHEDULED db2 = [stored_prediction p]
               /\ status p = SCHEDULED)
            \/ (exists e,
                  create_prediction c db = Raise e
                  /\ e <> MultipleResultsFound
                  /\ forall drawn,
                       consistent
                         (rollback db (refused_prediction drawn db1))
                       /\ users (rollback db (refused_prediction drawn db1))
                          = users db
                       /\ predictions
                            (rollback db (refused_prediction drawn db1))
                          = predictions db
                       /\ choices
                            (rollback db (refused_prediction drawn db1))
                          = choices db)))
  /\ (forall c, acceptable c db = true ->
        exists db1 p db2,
          supersede_scheduled db = Ok db1
          /\ create_prediction c db = Ok (p, db2)
          /\ consistent db2
          /\ select_by_status SCHEDULED db1 = []
          /\ select_by_status SCHEDULED db2 = [p]
          /\ status p = SCHEDULED
          /\ (forall e, select_by_status SCHEDULED db = [e] ->
              select_by_id (id e) db2 = [set_status CANCELLED e])).
Proof.
  intros at_execution cs db Hc. split; [|split].
  - apply create_history_bounded. exact Hc.
  - intros c. apply create_prediction_cases. exact Hc.
  - intros c Hacc. apply create_prediction_ok; assumption.
Qed.

Lemma busy_db_consistent : consistent Scenarios.busy_db.
Proof.
  split; [reflexivity|].
  split; repeat constructor; simpl; lia.
Qed.

Lemma create_keeps_one_scheduled_witness :
  consistent Scenarios.busy_db
  /\ Forall (fun d => (List.length (select_by_status SCHEDULED d) <= 1)%nat)
       (create_history []
          [Scenarios.sample_content "December" 2000;
           Scenarios.sample_content "January" 3000]
          Scenarios.busy_db).
Proof.
  split; [exact busy_db_consistent|].
  apply (proj1 (create_keeps_one_scheduled []
                  [Scenarios.sample_content "December" 2000;
                   Scenarios.sample_content "January" 3000]
                  Scenarios.busy_db busy_db_consistent)).
Defined.

(** Two creates on a store that holds a scheduled prediction: the statuses
    of the rows in each of the five states passed through. *)
Example create_history_statuses :
  map (fun d => map status (predictions d))
    (create_history []
       [Scenarios.sample_content "December" 2000;
        Scenarios.sample_content "January" 3000]
       Scenarios.busy_db)
  = [ [ARCHIVED; ACTIVE; SCHEDULED];
      [ARCHIVED; ACTIVE; CANCELLED];
      [ARCHIVED; ACTIVE; CANCELLED; SCHEDULED];
      [ARCHIVED; ACTIVE; CANCELLED; CANCELLED];
      [ARCHIVED; ACTIVE; CANCELLED; CANCELLED; SCHEDULED] ].
Proof. reflexivity. Qed.

(** What the data base refuses.  An admin id that is not the id of a user
    breaks the foreign key of [created_by_admin_id]; a label of 65
    characters does not fit [String(64)]; a label that is too long by
    spaces only is cut to 64 characters and stored, while the object the
    call returns keeps what it was given. *)
Example create_refused_for_unknown_admin :
  acceptable (Scenarios.sample_content "December" 2000) Scenarios.lifecycle_db
  = false
  /\ create_prediction (Scenarios.sample_content "December" 2000)
       Scenarios.lifecycle_db
     = Raise IntegrityError.
Proof. split; reflexivity. Qed.

Example create_refused_for_long_label :
  acceptable (MoreScenarios.labelled_content MoreScenarios.long_label)
    Scenarios.busy_db = false
  /\ create_prediction (MoreScenarios.labelled_content MoreScenarios.long_label)
       Scenarios.busy_db
     = Raise DBAPIError.
Proof. split; vm_compute; reflexivity. Qed.

Example create_cuts_trailing_spaces :
  exists p db2,
    create_prediction
      (MoreScenarios.labelled_content MoreScenarios.padded_label)
      Scenarios.busy_db = Ok (p, db2)
    /\ button_1_initial p = MoreScenarios.padded_label
    /\ map button_1_initial (select_by_status SCHEDULED db2)
       = [("Sun" ++ MoreScenarios.spaces 61)%string].
Proof. eexists. eexists. vm_compute. repeat split; reflexivity. Qed.

(** Three creates on a store that holds a scheduled prediction, the first
    two refused for a label that is too long, the first while planning and
    the second at execution: the statuses and the next key in each of the
    seven states passed through.  The refused creates leave the scheduled
    prediction scheduled. *)
Example create_history_with_refusals :
  map (fun d => (map status (predictions d), predictions_id_seq d))
    (create_history [false; true]
       [MoreScenarios.labelled_content MoreScenarios.long_label;
        MoreScenarios.labelled_content MoreScenarios.long_label;
        Scenarios.sample_content "January" 3000]
       Scenarios.busy_db)
  = [ ([ARCHIVED; ACTIVE; SCHEDULED], 4);
      ([ARCHIVED; ACTIVE; CANCELLED], 4);
      ([ARCHIVED; ACTIVE; SCHEDULED], 4);
      ([ARCHIVED; ACTIVE; CANCELLED], 4);
      ([ARCHIVED; ACTIVE; SCHEDULED], 5);
      ([ARCHIVED; ACTIVE; CANCELLED], 5);
      ([ARCHIVED; ACTIVE; CANCELLED; SCHEDULED], 6) ].
Proof. vm_compute. reflexivity. Qed.

End CreateProps.

(** ** The ledger of choices *)

Module LedgerProps.

Import PredictionService StoreProps.

Lemma distinct_snoc_clash : forall (A : Type) (eqb : A -> A -> bool)
  (l : list A) (x c : A),
  In x l -> eqb x c = true -> distinct eqb (l ++ [c]) = false.
Proof.
  intros A eqb l x c Hin Heq. induction l as [|y l IH]; simpl.
  - contradiction.
  - destruct Hin as [-> | Hin].
    + assert (E : existsb (eqb x) (l ++ [c]) = true).
      { apply existsb_exists. exists c. split; [|exact Heq].
        apply in_or_app. right. left. reflexivity. }
      rewrite E. reflexivity.
    + rewrite (IH Hin). apply andb_false_r.
Qed.

(** The store refuses a second row for the same recipient, year and month,
    whatever the [is_test] flags of the old and of the new row. *)
Lemma record_user_choice_clash :
  forall now user prediction button flag db c0,
  columns_ok db = true ->
  In c0 (choices db) ->
  telegram_user_id c0 = user ->
  year c0 = dt_year now -> month c0 = dt_month now ->
  record_user_choice now user prediction button flag db = Raise IntegrityError.
Proof.
  intros now user prediction button flag db c0 Hcol Hin Hu Hy Hm.
  unfold record_user_choice, insert_choice. cbv zeta.
  rewrite flush_integrity; [reflexivity | | exact Hcol].
  unfold constraints_ok. simpl.
  rewrite (distinct_snoc_clash _ same_period_key (choices db) c0).
  - rewrite !andb_false_r. reflexivity.
  - exact Hin.
  - unfold same_period_key. simpl. rewrite Hu, Hy, Hm, !Z.eqb_refl.
    reflexivity.
Qed.

(** C5, on the code: a second test choice of the same recipient in the same
    month is refused by the store, and so is a test choice after a real one
    and a real one after a test choice: the unique constraint on
    (telegram_user_id, year, month) does not look at [is_test]. *)
Theorem test_choices_collide :
  (exists c db1,
     record_user_choice Scenarios.nov_2026 10 2 1 true Scenarios.busy_db
       = Ok (c, db1)
     /\ is_test c = true
     /\ record_user_choice Scenarios.nov_2026 10 2 3 true db1
        = Raise IntegrityError
     /\ record_user_choice Scenarios.nov_2026 10 2 3 false db1
        = Raise IntegrityError)
  /\ (exists c db1,
       record_user_choice Scenarios.nov_2026 10 2 1 false Scenarios.busy_db
         = Ok (c, db1)
       /\ is_test c = false
       /\ record_user_choice Scenarios.nov_2026 10 2 3 true db1
          = Raise IntegrityError).
Proof.
  split; eexists; eexists; repeat split; reflexivity.
Qed.

(** The part of C5 the code keeps: after a real choice, a second real
    choice of the same recipient in the same month is refused. *)
Lemma second_choice_refused : forall now user p1 b1 p2 b2 db c db1,
  record_user_choice now user p1 b1 false db = Ok (c, db1) ->
  record_user_choice now user p2 b2 false db1 = Raise IntegrityError.
Proof.
  intros now user p1 b1 p2 b2 db c db1 H.
  unfold record_user_choice in H. simpl in H.
  destruct (flush _) as [d|e] eqn:Hf in H; simpl in H; [|discriminate].
  inversion H; subst c db1. clear H.
  apply flush_inv in Hf. destruct Hf as [-> Hok].
  eapply record_user_choice_clash.
  - apply constraints_split in Hok. tauto.
  - simpl. apply in_or_app. right. left. reflexivity.
  - reflexivity.
  - reflexivity.
  - reflexivity.
Qed.

(** A choice the store accepts leaves it consistent. *)
Lemma record_user_choice_consistent :
  forall now user prediction button flag db c db1,
  consistent db ->
  record_user_choice now user prediction button flag db = Ok (c, db1) ->
  consistent db1.
Proof.
  intros now user prediction button flag db c db1 (Hcons & Hp & Hch) H.
  unfold record_user_choice in H. simpl in H.
  destruct (flush _) as [d|e] eqn:Hf in H; simpl in H; [|discriminate].
  inversion H; subst c db1. clear H.
  apply flush_inv in Hf. destruct Hf as [-> Hok].
  split; [exact Hok|]. split; [exact Hp|].
  simpl. apply Forall_app. split.
  - eapply Forall_impl; [|exact Hch]. intros q Hq. simpl in Hq. lia.
  - constructor; [simpl; lia | constructor].
Qed.

End LedgerProps.

(** ** More on the per-recipient send *)

Module RetryProps.

Import BroadcastService SendProps Observations.

Section Transport.

Variable Bot : Type.
Variable bot_call : Bot -> BotCall -> ApiOutcome * Bot.

(** One unfolding of [_send_to_user], by the answer of the transport. *)
Lemma send_to_user_step : forall bot user_id p kb retry_count,
  _send_to_user Bot bot_call bot user_id p kb retry_count =
  let c := media_call user_id p kb in
  let bot1 := snd (bot_call bot c) in
  match fst (bot_call bot c) with
  | Returned => (true, bot1, [ApiCall c])
  | TelegramRetryAfter retry_after =>
      if (retry_count <? MAX_RETRIES)%nat
      then after Bot ([ApiCall c] ++ [Sleep retry_after])
             (_send_to_user Bot bot_call bot1 user_id p kb (retry_count + 1))
      else (false, bot1, [ApiCall c])
  | TelegramForbiddenError => (false, bot1, [ApiCall c])
  | TelegramBadRequest => (false, bot1, [ApiCall c])
  | OtherException =>
      if (retry_count <? MAX_RETRIES)%nat
      then after Bot
             ([ApiCall c] ++ [Sleep (RETRY_DELAY * 2 ^ Z.of_nat retry_count)])
             (_send_to_user Bot bot_call bot1 user_id p kb (retry_count + 1))
      else (false, bot1, [ApiCall c])
  end.
Proof.
  intros bot user_id p kb retry_count.
  funelim (_send_to_user Bot bot_call bot user_id p kb retry_count);
    try clear Heqcall; media_inv Ho Hb; cbv zeta;
    rewrite <- Ho, <- Hb;
    try reflexivity;
    destruct (Nat.ltb_spec retry_count MAX_RETRIES);
    first [reflexivity | exfalso; lia].
Qed.

(** X1: a recipient that is rate-limited once and accepted on the retry
    counts as a success: the transport is called twice, with one sleep of the
    length the transport asked for in between. *)
Theorem rate_limited_once_then_delivered : forall bot user_id p kb n,
  fst (bot_call bot (media_call user_id p kb)) = TelegramRetryAfter n ->
  fst (bot_call (snd (bot_call bot (media_call user_id p kb)))
         (media_call user_id p kb)) = Returned ->
  _send_to_user Bot bot_call bot user_id p kb 0 =
  (true,
   snd (bot_call (snd (bot_call bot (media_call user_id p kb)))
          (media_call user_id p kb)),
   [ApiCall (media_call user_id p kb); Sleep n;
    ApiCall (media_call user_id p kb)]).
Proof.
  intros bot user_id p kb n H1 H2.
  rewrite send_to_user_step. cbv zeta. rewrite H1.
  change (0 <? MAX_RETRIES)%nat with true. cbv iota.
  rewrite send_to_user_step. cbv zeta. rewrite H2. reflexivity.
Qed.

(** X2: the backoff schedule.  When every send to a recipient fails with an
    error that is neither a rate limit nor permanent, the recipient is tried
    four times, the waits in between are 5, 10 and 20 seconds
    ([RETRY_DELAY * 2 ** retry_count]), and the send fails. *)
Theorem backoff_schedule : forall bot user_id p kb,
  (forall b, fst (bot_call b (media_call user_id p kb)) = OtherException) ->
  outcome_of Bot (_send_to_user Bot bot_call bot user_id p kb 0) = false
  /\ trace_of Bot (_send_to_user Bot bot_call bot user_id p kb 0)
     = [ApiCall (media_call user_id p kb); Sleep 5;
        ApiCall (media_call user_id p kb); Sleep 10;
        ApiCall (media_call user_id p kb); Sleep 20;
        ApiCall (media_call user_id p kb)].
Proof.
  intros bot user_id p kb H.
  do 4 (rewrite send_to_user_step; cbv zeta; rewrite H).
  split; reflexivity.
Qed.

End Transport.

Import Scenarios.

Lemma rate_limited_once_then_delivered_witness :
  fst (scripted [TelegramRetryAfter 2]
         (media_call 7 (sample_prediction 1 ACTIVE) []))
    = TelegramRetryAfter 2
  /\ fst (scripted
            (snd (scripted [TelegramRetryAfter 2]
                    (media_call 7 (sample_prediction 1 ACTIVE) [])))
            (media_call 7 (sample_prediction 1 ACTIVE) [])) = Returned
  /\ _send_to_user (list ApiOutcome) scripted [TelegramRetryAfter 2] 7
       (sample_prediction 1 ACTIVE) [] 0
     = (true, [],
        [ApiCall (media_call 7 (sample_prediction 1 ACTIVE) []); Sleep 2;
         ApiCall (media_call 7 (sample_prediction 1 ACTIVE) [])]).
Proof.
  split; [reflexivity|]. split; [reflexivity|].
  apply (rate_limited_once_then_delivered (list ApiOutcome) scripted
           [TelegramRetryAfter 2] 7 (sample_prediction 1 ACTIVE) [] 2);
    reflexivity.
Defined.

Lemma backoff_schedule_witness :
  (forall b, fst (always OtherException b
                    (media_call 7 (sample_prediction 1 ACTIVE) []))
             = OtherException)
  /\ outcome_of unit
       (_send_to_user unit (always OtherException) tt 7
          (sample_prediction 1 ACTIVE) [] 0) = false.
Proof.
  split; [intros b; reflexivity|].
  apply (backoff_schedule unit (always OtherException) tt 7
           (sample_prediction 1 ACTIVE) []).
  intros b. reflexivity.
Defined.

End RetryProps.

(** ** More on the broadcast loop *)

Module FanOutProps.

Import BroadcastService SendProps BroadcastProps RetryProps Observations.

Lemma sent_chats_app : forall tr1 tr2,
  sent_chats (tr1 ++ tr2) = sent_chats tr1 ++ sent_chats tr2.
Proof. intros. unfold sent_chats. apply flat_map_app. Qed.

Lemma progress_reports_app : forall tr1 tr2,
  progress_reports (tr1 ++ tr2) = progress_reports tr1 ++ progress_reports tr2.
Proof. intros. unfold progress_reports. apply flat_map_app. Qed.

Lemma sleeps_app : forall tr1 tr2,
  sleeps (tr1 ++ tr2) = sleeps tr1 ++ sleeps tr2.
Proof. intros. unfold sleeps. apply flat_map_app. Qed.

Lemma sent_chats_call : forall u p kb,
  sent_chats [ApiCall (media_call u p kb)] = [u].
Proof.
  intros. unfold sent_chats, media_call. destruct (media_type p); reflexivity.
Qed.

Lemma progress_reports_call : forall u p kb,
  progress_reports [ApiCall (media_call u p kb)] = [].
Proof. reflexivity. Qed.

Lemma batch_count_bounds : forall n : nat,
  let m := ((n - 0 + BATCH_SIZE - 1) / BATCH_SIZE)%nat in
  (BATCH_SIZE * m <= n + 24 /\ n <= BATCH_SIZE * m)%nat.
Proof.
  intros n m. subst m. unfold BATCH_SIZE.
  pose proof (Nat.div_mod_eq (n - 0 + 25 - 1) 25) as Hd.
  pose proof (Nat.mod_upper_bound (n - 0 + 25 - 1) 25) as Hm.
  lia.
Qed.

Section Transport.

Variable Bot : Type.
Variable bot_call : Bot -> BotCall -> ApiOutcome * Bot.
Variable p : Prediction.
Variable kb : InlineKeyboardMarkup.

(** *** Who is sent to *)

Lemma trace_of_after : forall pre r,
  trace_of Bot (after Bot pre r) = pre ++ trace_of Bot r.
Proof. intros pre [[ok b] tr]. reflexivity. Qed.

Lemma send_to_user_chats : forall bot u retry_count x,
  In x (sent_chats
          (trace_of Bot (_send_to_user Bot bot_call bot u p kb retry_count)))
  <-> x = u.
Proof.
  intros bot u retry_count x.
  funelim (_send_to_user Bot bot_call bot u p kb retry_count);
    try clear Heqcall; media_inv ipattern:(_) ipattern:(_);
    try (unfold trace_of; cbn [snd]; rewrite sent_chats_call; simpl;
         intuition congruence).
  - rewrite trace_of_after, !sent_chats_app, sent_chats_call. simpl.
    rewrite H. intuition congruence.
  - rewrite trace_of_after, !sent_chats_app, sent_chats_call. simpl.
    rewrite H. intuition congruence.
Qed.

Lemma send_to_user_no_report : forall bot u retry_count,
  progress_reports
    (trace_of Bot (_send_to_user Bot bot_call bot u p kb retry_count)) = [].
Proof.
  intros bot u retry_count.
  funelim (_send_to_user Bot bot_call bot u p kb retry_count);
    try clear Heqcall; media_inv ipattern:(_) ipattern:(_);
    try reflexivity.
  - rewrite trace_of_after, !progress_reports_app, H. reflexivity.
  - rewrite trace_of_after, !progress_reports_app, H. reflexivity.
Qed.

Lemma send_one_trace : forall st u,
  t_trace Bot (send_one Bot bot_call p kb st u)
  = t_trace Bot st
    ++ trace_of Bot (_send_to_user Bot bot_call (t_bot Bot st) u p kb 0).
Proof.
  intros st u. unfold send_one, trace_of.
  destruct (_send_to_user Bot bot_call (t_bot Bot st) u p kb 0)
    as [[[|] b] tr]; reflexivity.
Qed.

Lemma send_batch_chats : forall l st x,
  In x (sent_chats
          (t_trace Bot (fold_left (send_one Bot bot_call p kb) l st)))
  <-> In x (sent_chats (t_trace Bot st)) \/ In x l.
Proof.
  induction l as [|u l IH]; intros st x; simpl.
  - tauto.
  - rewrite IH, send_one_trace, sent_chats_app, in_app_iff,
      send_to_user_chats.
    intuition congruence.
Qed.

Lemma send_batch_reports : forall l st,
  progress_reports
    (t_trace Bot (fold_left (send_one Bot bot_call p kb) l st))
  = progress_reports (t_trace Bot st).
Proof.
  induction l as [|u l IH]; intros st; simpl.
  - reflexivity.
  - rewrite IH, send_one_trace, progress_reports_app,
      send_to_user_no_report, app_nil_r.
    reflexivity.
Qed.

Lemma batch_step_trace : forall user_ids on_progress st i,
  t_trace Bot (batch_step Bot bot_call p user_ids kb on_progress st i)
  = t_trace Bot
      (fold_left (send_one Bot bot_call p kb)
         (firstn BATCH_SIZE (skipn i user_ids)) st)
    ++ report_progress on_progress
         (i + List.length (firstn BATCH_SIZE (skipn i user_ids)))
         (List.length user_ids)
    ++ (if (i + BATCH_SIZE <? List.length user_ids)%nat
        then [Sleep BATCH_DELAY] else []).
Proof.
  intros user_ids on_progress st i. unfold batch_step.
  destruct (i + BATCH_SIZE <? List.length user_ids)%nat;
    unfold log; cbn [t_trace].
  - rewrite <- app_assoc. reflexivity.
  - rewrite app_nil_r. reflexivity.
Qed.

Lemma report_progress_chats : forall on_progress k n,
  sent_chats (report_progress on_progress k n) = [].
Proof.
  intros [cb|] k n; simpl; [destruct (cb k n)|]; reflexivity.
Qed.

Lemma batch_step_chats : forall user_ids on_progress st i x,
  In x (sent_chats
          (t_trace Bot (batch_step Bot bot_call p user_ids kb on_progress st i)))
  <-> In x (sent_chats (t_trace Bot st))
      \/ In x (firstn BATCH_SIZE (skipn i user_ids)).
Proof.
  intros user_ids on_progress st i x.
  rewrite batch_step_trace, !sent_chats_app, report_progress_chats.
  rewrite !in_app_iff, send_batch_chats.
  destruct (i + BATCH_SIZE <? List.length user_ids)%nat; simpl; tauto.
Qed.

Lemma batches_chats : forall user_ids on_progress m st x,
  In x (sent_chats
          (t_trace Bot
             (fold_left (batch_step Bot bot_call p user_ids kb on_progress)
                (map (fun k => 0 + k * BATCH_SIZE)%nat (seq 0 m)) st)))
  <-> In x (sent_chats (t_trace Bot st))
      \/ In x (firstn (m * BATCH_SIZE) user_ids).
Proof.
  intros user_ids on_progress m. induction m as [|m IH]; intros st x.
  - simpl. tauto.
  - replace (S m * BATCH_SIZE)%nat with (m * BATCH_SIZE + BATCH_SIZE)%nat by lia.
    rewrite firstn_add, seq_S, map_app, fold_left_app.
    cbn [map fold_left]. rewrite !Nat.add_0_l.
    rewrite batch_step_chats, IH, in_app_iff. tauto.
Qed.

Lemma broadcast_chats : forall bot user_ids on_progress x,
  In x (sent_chats
          (snd (broadcast_prediction Bot bot_call bot p user_ids kb
                  on_progress)))
  <-> In x user_ids.
Proof.
  intros bot user_ids on_progress x.
  unfold broadcast_prediction, py_range. cbn [snd].
  rewrite batches_chats. cbn [t_trace sent_chats flat_map].
  rewrite firstn_all2 by apply batches_cover.
  simpl. tauto.
Qed.

(** X3: the fan-out is complete and exact, whatever the transport does:
    the chats the transport is asked to deliver to during a broadcast are
    the listed recipients, every one of them and nobody else. *)
Theorem broadcast_reaches_exactly_the_recipients :
  forall (bot : Bot) (user_ids : list Z)
         (on_progress : option (nat -> nat -> bool)) (x : Z),
  In x (sent_chats
          (snd (broadcast_prediction Bot bot_call bot p user_ids kb
                  on_progress)))
  <-> In x user_ids.
Proof.
  intros bot user_ids on_progress x.
  unfold broadcast_prediction, py_range. cbn [snd].
  rewrite batches_chats. cbn [t_trace sent_chats flat_map].
  rewrite firstn_all2 by apply batches_cover.
  simpl. tauto.
Qed.

(** *** The tally *)

Lemma send_batch_errors : forall l st,
  List.length (t_errors Bot st) = t_failure_count Bot st ->
  List.length (t_errors Bot (fold_left (send_one Bot bot_call p kb) l st))
  = t_failure_count Bot (fold_left (send_one Bot bot_call p kb) l st)
  /\ (forall x,
        In x (t_errors Bot (fold_left (send_one Bot bot_call p kb) l st)) ->
        In x (t_errors Bot st) \/ In x l).
Proof.
  induction l as [|u l IH]; intros st Hlen; simpl.
  - auto.
  - assert (H1 : List.length (t_errors Bot (send_one Bot bot_call p kb st u))
                 = t_failure_count Bot (send_one Bot bot_call p kb st u)
                 /\ (forall x,
                       In x (t_errors Bot (send_one Bot bot_call p kb st u)) ->
                       In x (t_errors Bot st) \/ x = u)).
    { unfold send_one.
      destruct (_send_to_user Bot bot_call (t_bot Bot st) u p kb 0)
        as [[[|] b] tr]; cbn [t_errors t_failure_count].
      - auto.
      - rewrite length_app. simpl. split; [lia|].
        intros x Hx. apply in_app_iff in Hx. simpl in Hx. intuition. }
    destruct H1 as [Hl Hin].
    destruct (IH _ Hl) as [Hl' Hin'].
    split; [exact Hl'|].
    intros x Hx. destruct (Hin' x Hx) as [Hx'|Hx']; [|tauto].
    destruct (Hin x Hx'); [tauto | subst; tauto].
Qed.

Lemma batch_step_errors : forall user_ids on_progress st i,
  List.length (t_errors Bot st) = t_failure_count Bot st ->
  List.length
    (t_errors Bot (batch_step Bot bot_call p user_ids kb on_progress st i))
  = t_failure_count Bot
      (batch_step Bot bot_call p user_ids kb on_progress st i)
  /\ (forall x,
        In x (t_errors Bot
                (batch_step Bot bot_call p user_ids kb on_progress st i)) ->
        In x (t_errors Bot st) \/ In x user_ids).
Proof.
  intros user_ids on_progress st i Hlen.
  destruct (send_batch_errors (firstn BATCH_SIZE (skipn i user_ids)) st Hlen)
    as [Hl Hin].
  unfold batch_step.
  destruct (i + BATCH_SIZE <? List.length user_ids)%nat;
    unfold log; cbn [t_errors t_failure_count];
    (split; [exact Hl|]);
    intros x Hx; destruct (Hin x Hx) as [Hx'|Hx']; auto;
    right; apply (slice_incl _ _ _ _ _ Hx').
Qed.

Lemma batches_errors : forall user_ids on_progress l st,
  List.length (t_errors Bot st) = t_failure_count Bot st ->
  List.length
    (t_errors Bot
       (fold_left (batch_step Bot bot_call p user_ids kb on_progress) l st))
  = t_failure_count Bot
      (fold_left (batch_step Bot bot_call p user_ids kb on_progress) l st)
  /\ (forall x,
        In x (t_errors Bot
                (fold_left (batch_step Bot bot_call p user_ids kb on_progress)
                   l st)) ->
        In x (t_errors Bot st) \/ In x user_ids).
Proof.
  intros user_ids on_progress. induction l as [|i l IH]; intros st Hlen; simpl.
  - auto.
  - destruct (batch_step_errors user_ids on_progress st i Hlen) as [Hl Hin].
    destruct (IH _ Hl) as [Hl' Hin'].
    split; [exact Hl'|].
    intros x Hx. destruct (Hin' x Hx) as [Hx'|Hx']; [|tauto].
    apply Hin. exact Hx'.
Qed.

(** X4: nobody is skipped and nobody is counted twice, whatever the
    transport does: the two counts of a broadcast add up to the number of
    recipients, the list of errors has one entry for each failure, and
    every entry is one of the recipients. *)
Theorem broadcast_counts_everyone :
  forall (bot : Bot) (user_ids : list Z)
         (on_progress : option (nat -> nat -> bool)),
  let result :=
    fst (fst (broadcast_prediction Bot bot_call bot p user_ids kb
                on_progress)) in
  (success_count result + failure_count result = List.length user_ids)%nat
  /\ List.length (errors result) = failure_count result
  /\ incl (errors result) user_ids.
Proof.
  intros bot user_ids on_progress result.
  pose proof (broadcast_accounts_for_everyone Bot bot_call p kb bot user_ids
                on_progress) as Hsum.
  subst result. unfold broadcast_prediction in *. cbn [fst] in *.
  split; [exact Hsum|].
  destruct (batches_errors user_ids on_progress
              (py_range 0 (List.length user_ids) BATCH_SIZE)
              (mk_Tally Bot bot 0 0 [] []) eq_refl) as [Hl Hin].
  cbn [errors failure_count]. split; [exact Hl|].
  intros x Hx. destruct (Hin x Hx) as [[]|Hx']. exact Hx'.
Qed.

(** *** Progress reports and pauses *)

Lemma report_progress_reports : forall on_progress k n,
  progress_reports (report_progress on_progress k n)
  = match on_progress with Some _ => [(k, n)] | None => [] end.
Proof.
  intros [cb|] k n; simpl; [destruct (cb k n)|]; reflexivity.
Qed.

Lemma batches_reports : forall user_ids on_progress l st,
  progress_reports
    (t_trace Bot
       (fold_left (batch_step Bot bot_call p user_ids kb on_progress) l st))
  = progress_reports (t_trace Bot st)
    ++ flat_map
         (fun i =>
            match on_progress with
            | Some _ =>
                [((i + List.length (firstn BATCH_SIZE (skipn i user_ids)))%nat,
                  List.length user_ids)]
            | None => []
            end) l.
Proof.
  intros user_ids on_progress. induction l as [|i l IH]; intros st; simpl.
  - rewrite app_nil_r. reflexivity.
  - rewrite IH, batch_step_trace, !progress_reports_app,
      send_batch_reports, report_progress_reports.
    destruct (i + BATCH_SIZE <? List.length user_ids)%nat; simpl;
      rewrite ?app_nil_r, <- app_assoc; reflexivity.
Qed.

Lemma py_range_below : forall n i,
  In i (py_range 0 n BATCH_SIZE) -> (i < n)%nat.
Proof.
  intros n i H. unfold py_range in H. apply in_map_iff in H.
  destruct H as (k & <- & Hk). apply in_seq in Hk.
  pose proof (batch_count_bounds n) as Hb. cbv zeta in Hb.
  unfold BATCH_SIZE in *. lia.
Qed.

(** X5: the progress callback is called once after each batch, with the
    number of recipients handled so far and the total: 25, 50, ... and
    finally the total itself.  Whether the callback returns or raises makes
    no difference, and without a callback nothing is reported. *)
Theorem progress_is_reported_per_batch :
  forall (bot : Bot) (user_ids : list Z)
         (on_progress : option (nat -> nat -> bool)),
  progress_reports
    (snd (broadcast_prediction Bot bot_call bot p user_ids kb on_progress))
  = match on_progress with
    | Some _ =>
        map (fun i => (Nat.min (i + BATCH_SIZE) (List.length user_ids),
                       List.length user_ids))
          (py_range 0 (List.length user_ids) BATCH_SIZE)
    | None => []
    end.
Proof.
  intros bot user_ids on_progress.
  unfold broadcast_prediction. cbn [snd].
  rewrite batches_reports. cbn [t_trace progress_reports flat_map app].
  destruct on_progress as [cb|].
  - rewrite flat_map_concat_map, <- (map_map _ (fun x => [x])).
    rewrite <- flat_map_concat_map.
    assert (Hsingle : forall (A : Type) (l : list A),
              flat_map (fun x => [x]) l = l).
    { intros A l. induction l as [|a l IH]; simpl; [|rewrite IH];
        reflexivity. }
    rewrite Hsingle. apply map_ext_in. intros i Hi.
    apply py_range_below in Hi.
    rewrite length_firstn, length_skipn. f_equal. lia.
  - induction (py_range 0 (List.length user_ids) BATCH_SIZE); simpl; auto.
Qed.

Lemma report_progress_sleeps : forall on_progress k n,
  sleeps (report_progress on_progress k n) = [].
Proof.
  intros [cb|] k n; simpl; [destruct (cb k n)|]; reflexivity.
Qed.

Section Settled.

Variable user_ids : list Z.

Hypothesis settled : forall b u, In u user_ids ->
  retryable (fst (bot_call b (media_call u p kb))) = false.

Lemma send_batch_sleeps : forall l st, incl l user_ids ->
  sleeps (t_trace Bot (fold_left (send_one Bot bot_call p kb) l st))
  = sleeps (t_trace Bot st).
Proof.
  induction l as [|u l IH]; intros st Hincl; simpl.
  - reflexivity.
  - rewrite IH by (intros x Hx; apply Hincl; right; exact Hx).
    rewrite send_one_trace, sleeps_app.
    rewrite (send_settled_at_once Bot bot_call (t_bot Bot st) u p kb 0)
      by (apply settled; apply Hincl; left; reflexivity).
    unfold trace_of. cbn [snd sleeps flat_map app]. apply app_nil_r.
Qed.

Lemma batches_sleeps : forall on_progress l st,
  sleeps
    (t_trace Bot
       (fold_left (batch_step Bot bot_call p user_ids kb on_progress) l st))
  = sleeps (t_trace Bot st)
    ++ flat_map
         (fun i => if (i + BATCH_SIZE <? List.length user_ids)%nat
                   then [BATCH_DELAY] else []) l.
Proof.
  intros on_progress. induction l as [|i l IH]; intros st; simpl.
  - rewrite app_nil_r. reflexivity.
  - rewrite IH, batch_step_trace, !sleeps_app, report_progress_sleeps,
      send_batch_sleeps
      by (intros x Hx; apply (slice_incl _ _ _ _ _ Hx)).
    destruct (i + BATCH_SIZE <? List.length user_ids)%nat; simpl;
      rewrite ?app_nil_r, <- ?app_assoc; reflexivity.
Qed.

Lemma pauses_between_batches : forall (n j : nat),
  let m := ((n - 0 + BATCH_SIZE - 1) / BATCH_SIZE)%nat in
  (j <= m)%nat ->
  flat_map (fun i => if (i + BATCH_SIZE <? n)%nat then [BATCH_DELAY] else [])
    (map (fun k => 0 + k * BATCH_SIZE)%nat (seq 0 j))
  = repeat BATCH_DELAY (Nat.min j (m - 1)).
Proof.
  intros n j m. pose proof (batch_count_bounds n) as Hb. cbv zeta in Hb.
  fold m in Hb. induction j as [|j IH]; intros Hj.
  - reflexivity.
  - rewrite seq_S, map_app, flat_map_app, IH by lia.
    cbn [map flat_map]. rewrite app_nil_r, !Nat.add_0_l.
    destruct (j * BATCH_SIZE + BATCH_SIZE <? n)%nat eqn:E.
    + apply Nat.ltb_lt in E.
      replace (Nat.min (S j) (m - 1)) with (S (Nat.min j (m - 1)))
        by (unfold BATCH_SIZE in *; lia).
      rewrite <- repeat_cons. reflexivity.
    + apply Nat.ltb_ge in E. rewrite app_nil_r.
      f_equal. unfold BATCH_SIZE in *. lia.
Qed.

(** X6: when no send has to be retried, the only sleeps of a broadcast are
    the pauses between batches: one second after every batch but the last,
    so one fewer than there are batches. *)
Theorem one_pause_between_batches :
  forall (bot : Bot) (on_progress : option (nat -> nat -> bool)),
  sleeps
    (snd (broadcast_prediction Bot bot_call bot p user_ids kb on_progress))
  = repeat 1
      (List.length (py_range 0 (List.length user_ids) BATCH_SIZE) - 1).
Proof.
  intros bot on_progress.
  unfold broadcast_prediction. cbn [snd].
  rewrite batches_sleeps. cbn [t_trace sleeps flat_map app].
  unfold py_range at 1.
  rewrite pauses_between_batches by lia.
  unfold py_range. rewrite length_map, length_seq.
  f_equal. lia.
Qed.

End Settled.

End Transport.

Import Scenarios.

Lemma one_pause_between_batches_witness :
  (forall b u, In u sixty_users ->
     retryable
       (fst (blocking [5; 17; 42] b
               (media_call u (sample_prediction 1 ACTIVE) []))) = false)
  /\ sleeps
       (snd (broadcast_prediction nat (blocking [5; 17; 42]) 0%nat
               (sample_prediction 1 ACTIVE) sixty_users [] None))
     = [1; 1].
Proof.
  assert (H : forall b u, In u sixty_users ->
     retryable
       (fst (blocking [5; 17; 42] b
               (media_call u (sample_prediction 1 ACTIVE) []))) = false).
  { intros b u _. unfold blocking.
    cbn [media_call sample_prediction media_type chat_of].
    destruct (existsb (Z.eqb u) [5; 17; 42]); reflexivity. }
  split; [exact H|].
  exact (one_pause_between_batches nat (blocking [5; 17; 42])
           (sample_prediction 1 ACTIVE) [] sixty_users H 0%nat None).
Defined.

End FanOutProps.

(** ** The schedule monitor *)

Module JobProps.

Import UserService PredictionService BroadcastService Jobs.
Import StoreProps LifecycleProps SendProps.

Lemma transport_only_counts : forall tr,
  Forall (fun a => transport_only a = true) tr ->
  count_actions is_activate tr = 0%nat
  /\ count_actions is_broadcast tr = 0%nat.
Proof.
  intros tr H. unfold count_actions.
  induction H as [|a tr Ha _ [IH1 IH2]]; simpl.
  - auto.
  - destruct a; simpl in *; try discriminate; auto.
Qed.

Section Transport.

Variable Bot : Type.
Variable bot_call : Bot -> BotCall -> ApiOutcome * Bot.

Lemma after_transport_only : forall pre r,
  Forall (fun a => transport_only a = true) pre ->
  Forall (fun a => transport_only a = true) (trace_of Bot r) ->
  Forall (fun a => transport_only a = true)
    (trace_of Bot (after Bot pre r)).
Proof.
  intros pre [[ok b] tr] Hpre Hr. unfold after, trace_of in *. simpl in *.
  apply Forall_app. auto.
Qed.

Lemma send_to_user_transport_only : forall bot user_id p kb retry_count,
  Forall (fun a => transport_only a = true)
    (trace_of Bot (_send_to_user Bot bot_call bot user_id p kb retry_count)).
Proof.
  intros bot user_id p kb retry_count.
  funelim (_send_to_user Bot bot_call bot user_id p kb retry_count);
    try clear Heqcall;
    media_inv ipattern:(_) ipattern:(_);
    try (repeat constructor).
  - apply after_transport_only; [repeat constructor | assumption].
  - apply after_transport_only; [repeat constructor | assumption].
Qed.

Lemma send_one_transport_only : forall p kb st u,
  Forall (fun a => transport_only a = true) (t_trace Bot st) ->
  Forall (fun a => transport_only a = true)
    (t_trace Bot (send_one Bot bot_call p kb st u)).
Proof.
  intros p kb st u Hst. unfold send_one.
  pose proof (send_to_user_transport_only (t_bot Bot st) u p kb 0) as H.
  destruct (_send_to_user Bot bot_call (t_bot Bot st) u p kb 0)
    as [[[|] b] tr]; unfold trace_of in H; simpl in *;
    apply Forall_app; auto.
Qed.

Lemma send_batch_transport_only : forall p kb l st,
  Forall (fun a => transport_only a = true) (t_trace Bot st) ->
  Forall (fun a => transport_only a = true)
    (t_trace Bot (fold_left (send_one Bot bot_call p kb) l st)).
Proof.
  intros p kb l. induction l as [|u l IH]; intros st Hst; simpl.
  - exact Hst.
  - apply IH. apply send_one_transport_only. exact Hst.
Qed.

Lemma batch_step_transport_only : forall p user_ids kb on_progress st i,
  Forall (fun a => transport_only a = true) (t_trace Bot st) ->
  Forall (fun a => transport_only a = true)
    (t_trace Bot (batch_step Bot bot_call p user_ids kb on_progress st i)).
Proof.
  intros p user_ids kb on_progress st i Hst. unfold batch_step.
  assert (H1 : Forall (fun a => transport_only a = true)
    (t_trace Bot
       (log Bot
          (report_progress on_progress
             (i + List.length (firstn BATCH_SIZE (skipn i user_ids)))
             (List.length user_ids))
          (fold_left (send_one Bot bot_call p kb)
             (firstn BATCH_SIZE (skipn i user_ids)) st)))).
  { unfold log. cbn [t_trace]. apply Forall_app. split.
    - apply send_batch_transport_only. exact Hst.
    - unfold report_progress. destruct on_progress as [cb|];
        [destruct (cb _ _)|]; repeat constructor. }
  destruct (i + BATCH_SIZE <? List.length user_ids)%nat; [|exact H1].
  unfold log at 1. cbn [t_trace]. apply Forall_app. split; [exact H1|].
  repeat constructor.
Qed.

Lemma broadcast_transport_only : forall bot p user_ids kb on_progress,
  Forall (fun a => transport_only a = true)
    (snd (broadcast_prediction Bot bot_call bot p user_ids kb on_progress)).
Proof.
  intros bot p user_ids kb on_progress. unfold broadcast_prediction.
  cbn [snd].
  assert (H : forall l st,
    Forall (fun a => transport_only a = true) (t_trace Bot st) ->
    Forall (fun a => transport_only a = true)
      (t_trace Bot
         (fold_left (batch_step Bot bot_call p user_ids kb on_progress) l st))).
  { induction l as [|i l IH]; intros st Hst; simpl.
    - exact Hst.
    - apply IH. apply batch_step_transport_only. exact Hst. }
  apply H. constructor.
Qed.

(** C4, as the code has it: the guard on the status is in the job that
    calls [activate_prediction].  For a prediction whose status is not
    SCHEDULED the job returns at once: it performs no action - no
    activation, no send - and leaves the whole store, every prediction
    record with it, as it was. *)
Theorem job_skips_unscheduled :
  forall (now : datetime) (w : World Bot) (prediction_id : Z) (p : Prediction),
  get_prediction_by_id prediction_id (w_db Bot w) = Ok (Some p) ->
  status p <> SCHEDULED ->
  broadcast_prediction_job Bot bot_call now w prediction_id = (w, []).
Proof.
  intros now w prediction_id p Hget Hst.
  unfold broadcast_prediction_job. rewrite Hget.
  destruct (status p); try reflexivity. contradiction.
Qed.

(** A broadcast to nobody does nothing. *)
Lemma broadcast_to_nobody : forall bot p kb on_progress,
  broadcast_prediction Bot bot_call bot p [] kb on_progress
  = (mk_BroadcastResult 0 0 [], bot, []).
Proof. intros. reflexivity. Qed.

(** The job on the scheduled prediction of a consistent store whose
    broadcast has not started: what it does is the activation, one call of
    [broadcast_prediction] for the activated prediction and the whole
    directory when there is a recipient, and the completion. *)
Lemma job_runs_exactly : forall now w p,
  consistent (w_db Bot w) ->
  select_by_status SCHEDULED (w_db Bot w) = [p] ->
  broadcast_started p = false ->
  exists db2,
    broadcast_prediction_job Bot bot_call now w (id p)
    = (mk_World Bot db2
         (snd (fst (broadcast_prediction Bot bot_call (w_bot Bot w)
                      (activated now p)
                      (get_all_user_telegram_ids (w_db Bot w))
                      (get_prediction_keyboard (activated now p) false)
                      None)))
         (w_scheduler Bot w),
       [Activate (id p); Commit]
       ++ match get_all_user_telegram_ids (w_db Bot w) with
          | [] => []
          | _ :: _ =>
              Broadcast (id p) (get_all_user_telegram_ids (w_db Bot w))
              :: snd (broadcast_prediction Bot bot_call (w_bot Bot w)
                        (activated now p)
                        (get_all_user_telegram_ids (w_db Bot w))
                        (get_prediction_keyboard (activated now p) false)
                        None)
          end
       ++ [MarkCompleted (id p); Commit])
    /\ consistent db2
    /\ select_by_status SCHEDULED db2 = []
    /\ select_by_id (id p) db2
       = [set_broadcast_completed true (activated now p)].
Proof.
  intros now w p Hc Hsel Hstart.
  assert (Hrow : In p (predictions (w_db Bot w)) /\ status p = SCHEDULED).
  { apply selected_row. rewrite Hsel. left. reflexivity. }
  destruct Hrow as [Hin Hstat].
  assert (Hnd : NoDup (map id (predictions (w_db Bot w)))).
  { destruct Hc as (Hcons & _). apply constraints_split in Hcons. tauto. }
  unfold broadcast_prediction_job, get_prediction_by_id.
  rewrite (consistent_int32 _ p Hc Hin).
  rewrite (select_by_id_unique _ p Hnd Hin). cbn [scalar_one_or_none].
  rewrite Hstat, Hstart. cbn [status_eqb negb andb].
  destruct (activate_prediction_ok now p _ Hc)
    as (db1 & Hact & Hc1 & Hu1 & _ & Hsched).
  destruct (Hsched Hsel) as [Hnone1 Hrow1].
  rewrite Hact.
  destruct (mark_broadcast_completed_ok (activated now p) db1 Hc1)
    as (db2 & Hmark & Hc2 & _ & _ & Hnone2 & Hrow2).
  rewrite Hmark. unfold DbSession.expire_on_commit.
  unfold get_all_user_telegram_ids. rewrite Hu1.
  rewrite activated_id in Hrow2. rewrite Hrow1 in Hrow2. simpl in Hrow2.
  exists db2. split; [|auto].
  destruct (map user_telegram_user_id (users (w_db Bot w)))
    as [|u us] eqn:Hus.
  - reflexivity.
  - destruct (broadcast_prediction Bot bot_call (w_bot Bot w) (activated now p)
                (u :: us) (get_prediction_keyboard (activated now p) false)
                None) as [[res bot1] tr].
    simpl. rewrite <- !app_assoc. reflexivity.
Qed.

Lemma job_runs : forall now w p,
  consistent (w_db Bot w) ->
  select_by_status SCHEDULED (w_db Bot w) = [p] ->
  broadcast_started p = false ->
  exists db2 bot2 tr_b,
    broadcast_prediction_job Bot bot_call now w (id p)
    = (mk_World Bot db2 bot2 (w_scheduler Bot w),
       [Activate (id p); Commit]
       ++ match get_all_user_telegram_ids (w_db Bot w) with
          | [] => []
          | user_ids => Broadcast (id p) user_ids :: tr_b
          end
       ++ [MarkCompleted (id p); Commit])
    /\ Forall (fun a => transport_only a = true) tr_b
    /\ consistent db2
    /\ select_by_status SCHEDULED db2 = []
    /\ select_by_id (id p) db2
       = [set_broadcast_completed true (activated now p)].
Proof.
  intros now w p Hc Hsel Hstart.
  destruct (job_runs_exactly now w p Hc Hsel Hstart)
    as (db2 & Hjob & Hc2 & Hnone & Hrow).
  exists db2,
    (snd (fst (broadcast_prediction Bot bot_call (w_bot Bot w)
                 (activated now p)
                 (get_all_user_telegram_ids (w_db Bot w))
                 (get_prediction_keyboard (activated now p) false) None))),
    (snd (broadcast_prediction Bot bot_call (w_bot Bot w)
            (activated now p)
            (get_all_user_telegram_ids (w_db Bot w))
            (get_prediction_keyboard (activated now p) false) None)).
  split; [|split; [apply broadcast_transport_only|auto]].
  rewrite Hjob.
  destruct (get_all_user_telegram_ids (w_db Bot w)); reflexivity.
Qed.

(** C1, as the code has it: two runs of the due-check in a row, on a
    consistent store whose scheduled prediction is due and not yet started.
    The first run activates the prediction, makes one call of
    [broadcast_prediction] for the activated prediction and the whole
    directory of recipients when the directory is not empty - the calls of
    the transport in that run are exactly the ones of that call - and marks
    the broadcast completed; with an empty directory it only activates and
    marks.  Over the two runs the chats the transport is asked to deliver
    to are the recipients of the directory, every one of them and nobody
    else.  In total there is exactly one activation and at most one
    broadcast; the prediction is then ACTIVE with [broadcast_started] set;
    the second run performs no action at all and leaves the world, the
    transport included, as the first run left it. *)
Theorem due_check_twice :
  forall (now1 later1 now2 later2 : datetime) (w : World Bot) (p : Prediction),
  consistent (w_db Bot w) ->
  get_scheduled_prediction (w_db Bot w) = Ok (Some p) ->
  scheduled_at p <= timestamp now1 ->
  broadcast_started p = false ->
  let run1 := check_scheduled_predictions Bot bot_call now1 later1 w in
  let run2 :=
    check_scheduled_predictions Bot bot_call now2 later2 (fst run1) in
  let user_ids := get_all_user_telegram_ids (w_db Bot w) in
  let sent :=
    broadcast_prediction Bot bot_call (w_bot Bot w) (activated later1 p)
      user_ids (get_prediction_keyboard (activated later1 p) false) None in
  (snd run1
   = [Activate (id p); Commit]
     ++ match user_ids with
        | [] => []
        | _ :: _ => Broadcast (id p) user_ids :: snd sent
        end
     ++ [MarkCompleted (id p); Commit]
   /\ w_bot Bot (fst run1) = snd (fst sent))
  /\ (forall chat,
        In chat (Observations.sent_chats (snd run1 ++ snd run2))
        <-> In chat user_ids)
  /\ count_actions is_activate (snd run1 ++ snd run2) = 1%nat
  /\ count_actions is_broadcast (snd run1 ++ snd run2)
     = match users (w_db Bot w) with [] => 0%nat | _ :: _ => 1%nat end
  /\ snd run2 = []
  /\ fst run2 = fst run1
  /\ get_prediction_by_id (id p) (w_db Bot (fst run1))
     = Ok (Some (set_broadcast_completed true (activated later1 p)))
  /\ broadcast_started (set_broadcast_completed true (activated later1 p))
     = true.
Proof.
  intros now1 later1 now2 later2 w p Hc Hget Hdue Hstart run1 run2
    user_ids sent.
  assert (Hsel : select_by_status SCHEDULED (w_db Bot w) = [p]).
  { apply scalar_some_inv. exact Hget. }
  assert (Hin : In p (predictions (w_db Bot w))).
  { apply (selected_row SCHEDULED). rewrite Hsel. left. reflexivity. }
  destruct (job_runs_exactly later1 w p Hc Hsel Hstart)
    as (db2 & Hjob & Hc2 & Hnone & Hrow).
  fold user_ids in Hjob. fold sent in Hjob.
  assert (H1 : run1 = broadcast_prediction_job Bot bot_call later1 w (id p)).
  { subst run1. unfold check_scheduled_predictions. rewrite Hget.
    apply Z.leb_le in Hdue. rewrite Hdue, Hstart. reflexivity. }
  rewrite Hjob in H1.
  assert (H2 : run2 = (fst run1, [])).
  { subst run2. unfold check_scheduled_predictions at 1.
    rewrite H1. cbn [fst w_db]. unfold get_scheduled_prediction.
    rewrite Hnone. reflexivity. }
  rewrite H2. cbn [fst snd]. rewrite app_nil_r.
  pose proof (broadcast_transport_only (w_bot Bot w) (activated later1 p)
                user_ids (get_prediction_keyboard (activated later1 p) false)
                None) as Htr.
  fold sent in Htr.
  destruct (transport_only_counts (snd sent) Htr) as [Ha Hb].
  rewrite H1. cbn [fst snd w_db w_bot].
  split; [split; reflexivity|].
  split.
  { assert (Hchats : forall (l : list Z) (tr : list Action),
      (forall x, In x (Observations.sent_chats tr) <-> In x l) ->
      forall x,
        In x (Observations.sent_chats
                ([Activate (id p); Commit]
                 ++ match l with
                    | [] => []
                    | _ :: _ => Broadcast (id p) l :: tr
                    end
                 ++ [MarkCompleted (id p); Commit]))
        <-> In x l).
    { intros l tr H x. destruct l as [|u0 l0]; [simpl; tauto|].
      rewrite !FanOutProps.sent_chats_app. cbn [app].
      change (Observations.sent_chats (Broadcast (id p) (u0 :: l0) :: tr))
        with (Observations.sent_chats tr).
      simpl Observations.sent_chats at 1 3. rewrite app_nil_r. apply H. }
    apply Hchats. intros x. apply FanOutProps.broadcast_chats. }
  unfold get_prediction_by_id.
  rewrite (consistent_int32 _ p Hc Hin), Hrow. cbn [scalar_one_or_none].
  unfold count_actions in *.
  assert (Hu : user_ids = map user_telegram_user_id (users (w_db Bot w)))
    by reflexivity.
  clearbody sent user_ids.
  destruct (users (w_db Bot w)) as [|u us]; simpl in Hu; rewrite Hu; simpl.
  - repeat split; reflexivity.
  - rewrite !filter_app, !length_app, Ha, Hb. simpl.
    repeat split; reflexivity.
Qed.

End Transport.

Import Scenarios.

Lemma lifecycle_db_consistent : consistent lifecycle_db.
Proof.
  split; [reflexivity|].
  split; repeat constructor; simpl; lia.
Qed.

(** C4, as stated, fails: [activate_prediction] on a CANCELLED prediction
    raises nothing; it archives the active prediction and makes the
    cancelled one ACTIVE. *)
Lemma activate_prediction_unguarded :
  In (sample_prediction 1 CANCELLED) (predictions lifecycle_db)
  /\ status (sample_prediction 1 CANCELLED) <> SCHEDULED
  /\ activate_prediction nov_2026 (sample_prediction 1 CANCELLED) lifecycle_db
     = Ok (mk_Database []
             [activated nov_2026 (sample_prediction 1 CANCELLED);
              sample_prediction 2 ARCHIVED] [] 3 1)
  /\ map status
       [activated nov_2026 (sample_prediction 1 CANCELLED);
        sample_prediction 2 ARCHIVED]
     <> map status (predictions lifecycle_db).
Proof.
  split; [left; reflexivity|].
  split; [discriminate|].
  split; [reflexivity | discriminate].
Qed.

Lemma job_skips_unscheduled_witness :
  get_prediction_by_id 1 (w_db unit lifecycle_world)
    = Ok (Some (sample_prediction 1 CANCELLED))
  /\ status (sample_prediction 1 CANCELLED) <> SCHEDULED
  /\ broadcast_prediction_job unit (always Returned) nov_2026
       lifecycle_world 1
     = (lifecycle_world, []).
Proof.
  split; [reflexivity|]. split; [discriminate|].
  apply (job_skips_unscheduled unit (always Returned) nov_2026
           lifecycle_world 1 (sample_prediction 1 CANCELLED)).
  - reflexivity.
  - discriminate.
Defined.

Lemma due_db_consistent : consistent due_db.
Proof.
  split; [reflexivity|].
  split; repeat constructor; simpl; lia.
Qed.

Lemma due_check_twice_witness :
  consistent (w_db nat due_world)
  /\ get_scheduled_prediction (w_db nat due_world)
     = Ok (Some (sample_prediction 3 SCHEDULED))
  /\ scheduled_at (sample_prediction 3 SCHEDULED) <= timestamp nov_2026
  /\ broadcast_started (sample_prediction 3 SCHEDULED) = false
  /\ count_actions is_activate
       (snd (check_scheduled_predictions nat (blocking [11]) nov_2026 nov_2026
               due_world)
        ++ snd (check_scheduled_predictions nat (blocking [11]) nov_2026
                  nov_2026
                  (fst (check_scheduled_predictions nat (blocking [11])
                          nov_2026 nov_2026 due_world))))
     = 1%nat.
Proof.
  split; [exact due_db_consistent|].
  split; [reflexivity|]. split; [simpl; lia|]. split; [reflexivity|].
  apply (due_check_twice nat (blocking [11]) nov_2026 nov_2026 nov_2026
           nov_2026 due_world (sample_prediction 3 SCHEDULED)).
  - exact due_db_consistent.
  - reflexivity.
  - simpl. lia.
  - reflexivity.
Defined.

(** C1, as stated, fails when the directory of recipients is empty: the due
    prediction is activated once, and no broadcast is made at all. *)
Lemma due_check_without_recipients :
  consistent (w_db unit lonely_world)
  /\ get_scheduled_prediction (w_db unit lonely_world)
    = Ok (Some (sample_prediction 1 SCHEDULED))
  /\ scheduled_at (sample_prediction 1 SCHEDULED) <= timestamp nov_2026
  /\ broadcast_started (sample_prediction 1 SCHEDULED) = false
  /\ count_actions is_activate
       (snd (check_scheduled_predictions unit (always Returned) nov_2026
               nov_2026 lonely_world)
        ++ snd (check_scheduled_predictions unit (always Returned) nov_2026
                  nov_2026
                  (fst (check_scheduled_predictions unit (always Returned)
                          nov_2026 nov_2026 lonely_world))))
     = 1%nat
  /\ count_actions is_broadcast
       (snd (check_scheduled_predictions unit (always Returned) nov_2026
               nov_2026 lonely_world)
        ++ snd (check_scheduled_predictions unit (always Returned) nov_2026
                  nov_2026
                  (fst (check_scheduled_predictions unit (always Returned)
                          nov_2026 nov_2026 lonely_world))))
     = 0%nat.
Proof.
  split; [split; [reflexivity | split; repeat constructor; simpl; lia]|].
  split; [reflexivity|]. split; [simpl; lia|].
  split; [reflexivity|]. split; reflexivity.
Qed.

(** The two runs on a store with two recipients, one of whom blocked the
    bot: what the first run does, and that the second does nothing. *)
Example due_check_trace :
  map (fun a => match a with ApiCall (send_photo chat _ _ _) => Some chat
                           | _ => None end)
    (filter is_api_send
       (snd (check_scheduled_predictions nat (blocking [11]) nov_2026 nov_2026
               due_world)))
  = [Some 10; Some 11]
  /\ map status
       (predictions
          (w_db nat (fst (check_scheduled_predictions nat (blocking [11])
                            nov_2026 nov_2026 due_world))))
     = [ARCHIVED; ARCHIVED; ACTIVE]
  /\ snd (check_scheduled_predictions nat (blocking [11]) nov_2026 nov_2026
            (fst (check_scheduled_predictions nat (blocking [11])
                    nov_2026 nov_2026 due_world)))
     = [].
Proof. repeat split; reflexivity. Qed.

End JobProps.

(** ** The selection handlers *)

Module HandlerProps.

Import Handlers PredictionService.

Section Transport.

Variable Bot : Type.
Variable bot_call : Bot -> BotCall -> ApiOutcome * Bot.
Variable py_int : string -> option Z.

Lemma reply_db : forall notice alert db bot tr,
  h_db Bot (reply Bot bot_call notice alert db bot tr) = db.
Proof.
  intros. unfold reply. destruct (bot_call bot (answer notice alert)).
  reflexivity.
Qed.

Lemma reply_trace : forall notice alert db bot tr,
  h_trace Bot (reply Bot bot_call notice alert db bot tr)
  = tr ++ [ApiCall (answer notice alert)].
Proof.
  intros. unfold reply. destruct (bot_call bot (answer notice alert)).
  reflexivity.
Qed.

Lemma edit_then_answer_db : forall kb first second db bot tr,
  h_db Bot (edit_then_answer Bot bot_call kb first second db bot tr) = db.
Proof.
  intros. unfold edit_then_answer.
  destruct (bot_call bot (edit_reply_markup kb)) as [o bot1].
  destruct o; try apply reply_db.
  destruct (bot_call bot1 (answer (Some first) false)) as [o2 bot2].
  destruct o2; try apply reply_db. reflexivity.
Qed.

Lemma count_records_app : forall tr1 tr2,
  count_actions is_record_choice (tr1 ++ tr2)
  = (count_actions is_record_choice tr1
     + count_actions is_record_choice tr2)%nat.
Proof.
  intros. unfold count_actions. rewrite filter_app, length_app. reflexivity.
Qed.

Lemma reply_records : forall notice alert db bot tr,
  count_actions is_record_choice
    (h_trace Bot (reply Bot bot_call notice alert db bot tr))
  = count_actions is_record_choice tr.
Proof.
  intros. rewrite reply_trace, count_records_app.
  unfold count_actions at 2. simpl. lia.
Qed.

Lemma edit_then_answer_records : forall kb first second db bot tr,
  count_actions is_record_choice
    (h_trace Bot (edit_then_answer Bot bot_call kb first second db bot tr))
  = count_actions is_record_choice tr.
Proof.
  intros. unfold edit_then_answer.
  destruct (bot_call bot (edit_reply_markup kb)) as [o bot1].
  destruct o;
    try (rewrite reply_records, count_records_app;
         unfold count_actions at 2; simpl; lia).
  destruct (bot_call bot1 (answer (Some first) false)) as [o2 bot2].
  destruct o2;
    try (rewrite reply_records, count_records_app;
         unfold count_actions at 2; simpl; lia).
  simpl. rewrite count_records_app. unfold count_actions at 2. simpl. lia.
Qed.

(** The test handler only reads the store and never records anything. *)
Lemma test_selection_reads_only : forall callback db bot,
  h_db Bot (handle_test_button_selection Bot bot_call py_int callback db bot)
  = db
  /\ count_actions is_record_choice
       (h_trace Bot
          (handle_test_button_selection Bot bot_call py_int callback db bot))
     = 0%nat.
Proof.
  intros callback db bot. unfold handle_test_button_selection.
  repeat match goal with
         | |- context [match ?x with _ => _ end] => destruct x
         end;
    rewrite ?reply_db, ?edit_then_answer_db, ?reply_records,
      ?edit_then_answer_records;
    split; reflexivity.
Qed.

(** C9: a tap on a test button never creates a choice: whatever the callback
    carries and however the transport answers, the handler makes no call of
    [record_user_choice], and the data base - the table of choices with it -
    is the same after the handler and after the commit or rollback of the
    session around it. *)
Theorem test_selection_leaves_choices :
  forall (callback : CallbackQuery) (db : Database) (bot : Bot),
  let r := with_session Bot
             (handle_test_button_selection Bot bot_call py_int callback)
             db bot in
  h_db Bot r = db
  /\ choices (h_db Bot r) = choices db
  /\ count_actions is_record_choice (h_trace Bot r) = 0%nat.
Proof.
  intros callback db bot r.
  destruct (test_selection_reads_only callback db bot) as [Hdb Hrec].
  assert (Hr : h_db Bot r = db).
  { subst r. unfold with_session.
    destruct (returned Bot _); simpl;
      [exact Hdb | rewrite Hdb; apply StoreProps.rollback_same]. }
  split; [exact Hr|]. split; [rewrite Hr; reflexivity|].
  subst r. unfold with_session.
  destruct (returned Bot _); simpl;
    rewrite count_records_app, Hrec; reflexivity.
Qed.

Lemma record_user_choice_inv :
  forall now user prediction button flag db c db1,
  record_user_choice now user prediction button flag db = Ok (c, db1) ->
  c = mk_Choice (choices_id_seq db) user prediction button
        (dt_year now) (dt_month now) flag
  /\ choices db1 = choices db ++ [c].
Proof.
  intros now user prediction button flag db c db1 H.
  unfold record_user_choice in H. simpl in H.
  destruct (flush _) as [d|e] eqn:Hf in H; simpl in H; [|discriminate].
  inversion H; subst c db1. clear H.
  apply StoreProps.flush_inv in Hf. destruct Hf as [-> _]. auto.
Qed.

(** The selection handler only ever stores the buttons 1, 2 and 3, and only
    as real choices: the range the monthly report relies on is kept. *)
Lemma button_selection_records_valid : forall now callback db bot,
  Forall (fun c => valid_button c = true) (choices db) ->
  Forall (fun c => valid_button c = true)
    (choices (h_db Bot
       (handle_button_selection Bot bot_call py_int now callback db bot))).
Proof.
  intros now callback db bot Hv. unfold handle_button_selection.
  repeat match goal with
         | |- context [match ?x with _ => _ end] => destruct x eqn:?
         end;
    rewrite ?reply_db, ?edit_then_answer_db; try exact Hv.
  match goal with
  | H : record_user_choice _ _ _ _ _ _ = Ok _ |- _ =>
      apply record_user_choice_inv in H; destruct H as [Hc Hrows]
  end.
  rewrite Hrows. apply Forall_app. split; [exact Hv|].
  constructor; [|constructor]. subst. unfold valid_button. simpl.
  match goal with
  | H : negb _ = false |- _ => apply negb_false_iff in H; exact H
  end.
Qed.

End Transport.

End HandlerProps.

(** ** More on the prediction lifecycle *)

Module LifecycleMore.

Import UserService PredictionService BroadcastService Jobs.
Import StoreProps LifecycleProps CreateProps.

Lemma rows_same_id : forall (rows : list Prediction) r q,
  NoDup (map id rows) -> In r rows -> In q rows -> id r = id q -> r = q.
Proof.
  induction rows as [|x rows IH]; intros r q Hnd Hr Hq Hid.
  - contradiction.
  - inversion Hnd as [|y l Hnotin Hnd']; subst.
    destruct Hr as [-> | Hr]; destruct Hq as [-> | Hq].
    + reflexivity.
    + exfalso. apply Hnotin. rewrite Hid. apply in_map. exact Hq.
    + exfalso. apply Hnotin. rewrite <- Hid. apply in_map. exact Hr.
    + apply IH; assumption.
Qed.

Lemma update_keeps_row : forall i f db r,
  In r (predictions db) -> id r <> i ->
  In r (predictions (update_prediction i f db)).
Proof.
  intros i f db r Hin Hne. unfold update_prediction. simpl.
  apply in_map_iff. exists r. split; [|exact Hin].
  apply Z.eqb_neq in Hne. rewrite Hne. reflexivity.
Qed.

Lemma select_update_hit : forall s f db p,
  select_by_status s db = [] ->
  NoDup (map id (predictions db)) ->
  In p (predictions db) ->
  has_status s (f p) = true ->
  select_by_status s (update_prediction (id p) f db) = [f p].
Proof.
  intros s f db p. unfold select_by_status. simpl.
  induction (predictions db) as [|r rows IH]; simpl; intros Hnone Hnd Hin Hs.
  - contradiction.
  - inversion Hnd as [|x l Hnotin Hnd']; subst.
    destruct (has_status s r) eqn:Er; [discriminate|].
    destruct Hin as [-> | Hin].
    + rewrite Z.eqb_refl, Hs.
      rewrite (update_misses (id p) f rows Hnotin), Hnone. reflexivity.
    + destruct (id r =? id p) eqn:E.
      * apply Z.eqb_eq in E. exfalso. apply Hnotin. rewrite E.
        apply in_map. exact Hin.
      * rewrite Er. apply IH; assumption.
Qed.

Lemma only_selected : forall s db p,
  consistent db -> In p (predictions db) -> status p = s ->
  (s = SCHEDULED \/ s = ACTIVE) ->
  select_by_status s db = [p].
Proof.
  intros s db p Hc Hin Hs Hguard.
  destruct Hc as (Hcons & _). apply constraints_split in Hcons.
  destruct Hcons as (_ & Hsch & Hact & _).
  assert (Hp : In p (select_by_status s db)).
  { unfold select_by_status. apply filter_In. split; [exact Hin|].
    unfold has_status. rewrite Hs. destruct s; reflexivity. }
  assert (Hle : (List.length (select_by_status s db) <= 1)%nat).
  { destruct Hguard; subst s; rewrite H; assumption. }
  destruct (select_by_status s db) as [|x [|y l]]; simpl in *.
  - contradiction.
  - destruct Hp as [-> | []]. reflexivity.
  - lia.
Qed.

Lemma flush_update_inv : forall i f db db',
  flush (update_prediction i f db) = Ok db' ->
  db' = update_prediction i f db.
Proof. intros i f db db' H. apply flush_inv in H. tauto. Qed.

(** What activating the scheduled prediction of a consistent store does. *)
Lemma activate_scheduled_effect :
  forall (now : datetime) (p : Prediction) (db : Database),
  consistent db ->
  select_by_status SCHEDULED db = [p] ->
  exists db',
    activate_prediction now p db = Ok db'
    /\ consistent db'
    /\ select_by_status ACTIVE db' = [activated now p]
    /\ select_by_status SCHEDULED db' = []
    /\ (forall a, select_by_status ACTIVE db = [a] ->
        select_by_id (id a) db' = [set_status ARCHIVED a])
    /\ (forall r, In r (predictions db) ->
        status r = CANCELLED \/ status r = ARCHIVED ->
        In r (predictions db')).
Proof.
  intros now p db Hc Hsel.
  pose proof Hc as (Hcons & _).
  apply constraints_split in Hcons. destruct Hcons as (Hnd & Hs & Ha & _).
  assert (Hinp : In p (predictions db) /\ status p = SCHEDULED).
  { apply selected_row. rewrite Hsel. left. reflexivity. }
  destruct Hinp as [Hinp Hsp].
  assert (Hne : forall r, In r (predictions db) ->
                status r = CANCELLED \/ status r = ARCHIVED -> id r <> id p).
  { intros r Hr Hst E. pose proof (rows_same_id _ r p Hnd Hr Hinp E).
    subst r. destruct Hst; congruence. }
  unfold activate_prediction, get_active_prediction.
  destruct (scalar_at_most_one _ (select_by_status ACTIVE db) Ha)
    as [[Hnil Hsc] | (a & Hone & Hsc)]; rewrite Hsc; simpl.
  - destruct (activate_step now p db Hc Hnil) as [Hf Hc'].
    exists (update_prediction (id p) (activated now) db).
    split; [exact Hf|]. split; [exact Hc'|]. split.
    { apply select_update_hit; auto. }
    split.
    { apply select_update_none; [|apply activated_not_scheduled].
      intros r Hr. rewrite Hsel in Hr. destruct Hr as [<- | []]. reflexivity. }
    split.
    { intros a Hact. rewrite Hnil in Hact. discriminate. }
    intros r Hr Hst. apply update_keeps_row; auto.
  - destruct (archive_step a db Hc Hone) as (Hf1 & Hc1 & Hnone1).
    rewrite Hf1. simpl.
    destruct (activate_step now p _ Hc1 Hnone1) as [Hf Hc'].
    assert (Hina : In a (predictions db) /\ status a = ACTIVE).
    { apply selected_row. rewrite Hone. left. reflexivity. }
    destruct Hina as [Hina Hsa].
    assert (Hpa : id p <> id a).
    { intros E. pose proof (rows_same_id _ p a Hnd Hinp Hina E). congruence. }
    exists (update_prediction (id p) (activated now)
              (update_prediction (id a) (set_status ARCHIVED) db)).
    split; [exact Hf|]. split; [exact Hc'|]. split.
    { replace (activated now p)
        with (activated now (if id p =? id a then set_status ARCHIVED p else p)).
      2:{ apply Z.eqb_neq in Hpa. rewrite Hpa. reflexivity. }
      assert (Hin1 : In p (predictions
                (update_prediction (id a) (set_status ARCHIVED) db))).
      { apply update_keeps_row; auto. }
      apply Z.eqb_neq in Hpa. rewrite Hpa.
      apply select_update_hit; auto.
      rewrite update_ids by reflexivity. exact Hnd. }
    split.
    { apply select_update_none; [|apply activated_not_scheduled].
      intros r Hr. apply select_update_sub in Hr; [|reflexivity].
      rewrite Hsel in Hr. destruct Hr as [<- | []]. reflexivity. }
    split.
    { intros a' Hact. rewrite Hone in Hact. inversion Hact; subst a'.
      rewrite !select_by_id_update by reflexivity.
      rewrite select_by_id_unique by assumption. simpl.
      rewrite Z.eqb_refl. simpl.
      assert (E : (id a =? id p) = false) by (apply Z.eqb_neq; congruence).
      rewrite E. reflexivity. }
    intros r Hr Hst. apply update_keeps_row; [|auto].
    apply update_keeps_row; [exact Hr|].
    intros E. pose proof (rows_same_id _ r a Hnd Hr Hina E).
    subst r. destruct Hst; congruence.
Qed.

(** X7: activating the scheduled prediction of a consistent store
    succeeds; afterwards it is the one ACTIVE prediction, with
    [activated_at] and [broadcast_started] set, no prediction is SCHEDULED,
    the prediction that was ACTIVE before is ARCHIVED, and every CANCELLED
    or ARCHIVED row is still there as it was. *)
Theorem activation_replaces_the_active_prediction :
  forall (now : datetime) (p : Prediction) (db : Database),
  consistent db ->
  select_by_status SCHEDULED db = [p] ->
  exists db',
    activate_prediction now p db = Ok db'
    /\ consistent db'
    /\ select_by_status ACTIVE db' = [activated now p]
    /\ select_by_status SCHEDULED db' = []
    /\ (forall a, select_by_status ACTIVE db = [a] ->
        select_by_id (id a) db' = [set_status ARCHIVED a])
    /\ (forall r, In r (predictions db) ->
        status r = CANCELLED \/ status r = ARCHIVED ->
        In r (predictions db')).
Proof. exact activate_scheduled_effect. Qed.

Lemma activation_replaces_the_active_prediction_witness :
  consistent Scenarios.busy_db
  /\ select_by_status SCHEDULED Scenarios.busy_db
     = [Scenarios.sample_prediction 3 SCHEDULED]
  /\ exists db',
       activate_prediction Scenarios.nov_2026
         (Scenarios.sample_prediction 3 SCHEDULED) Scenarios.busy_db = Ok db'
       /\ map status (predictions db') = [ARCHIVED; ARCHIVED; ACTIVE].
Proof.
  split; [exact busy_db_consistent|]. split; [reflexivity|].
  destruct (activation_replaces_the_active_prediction Scenarios.nov_2026
              (Scenarios.sample_prediction 3 SCHEDULED) Scenarios.busy_db
              busy_db_consistent eq_refl) as (db' & Hact & _).
  exists db'. split; [exact Hact|].
  vm_compute in Hact. inversion Hact. reflexivity.
Defined.

(** *** Creating and reading back *)




(** *** Marking the broadcast completed *)

Lemma update_twice : forall i f db,
  (forall r, id (f r) = id r) -> (forall r, f (f r) = f r) ->
  update_prediction i f (update_prediction i f db) = update_prediction i f db.
Proof.
  intros i f db Hid Hff. unfold update_prediction, with_predictions. simpl.
  f_equal. rewrite map_map. apply map_ext. intros r.
  destruct (id r =? i) eqn:E.
  - rewrite Hid, E. apply Hff.
  - rewrite E. reflexivity.
Qed.

(** X9: [mark_broadcast_completed] sets the flag of one row and touches
    nothing else, and it is idempotent.  On a consistent store it succeeds;
    the stored row with the key of the prediction then reads back with
    [broadcast_completed] set and every other column as it was; every other
    prediction is in the table as it was, and so are the users and the
    choices; a second call succeeds and leaves the store as the first one
    left it. *)
Theorem mark_broadcast_completed_idempotent :
  forall (p : Prediction) (db : Database),
  consistent db ->
  exists db1,
    mark_broadcast_completed p db = Ok db1
    /\ mark_broadcast_completed p db1 = Ok db1
    /\ (forall r, In r (predictions db) -> id r = id p ->
        exists r1,
          get_prediction_by_id (id p) db1 = Ok (Some r1)
          /\ broadcast_completed r1 = true
          /\ id r1 = id r /\ status r1 = status r
          /\ media_type r1 = media_type r
          /\ media_file_id r1 = media_file_id r
          /\ post_text r1 = post_text r
          /\ button_1_initial r1 = button_1_initial r
          /\ button_2_initial r1 = button_2_initial r
          /\ button_3_initial r1 = button_3_initial r
          /\ button_1_final r1 = button_1_final r
          /\ button_2_final r1 = button_2_final r
          /\ button_3_final r1 = button_3_final r
          /\ scheduled_at r1 = scheduled_at r
          /\ activated_at r1 = activated_at r
          /\ broadcast_started r1 = broadcast_started r
          /\ created_by_admin_id r1 = created_by_admin_id r)
    /\ (forall r, In r (predictions db) -> id r <> id p ->
        In r (predictions db1))
    /\ List.length (predictions db1) = List.length (predictions db)
    /\ map status (predictions db1) = map status (predictions db)
    /\ map broadcast_started (predictions db1)
       = map broadcast_started (predictions db)
    /\ users db1 = users db /\ choices db1 = choices db.
Proof.
  intros p db Hc.
  destruct (mark_broadcast_completed_ok p db Hc)
    as (db1 & Hm & Hc1 & Hu & Hch & _ & Hrow).
  exists db1. split; [exact Hm|].
  pose proof Hm as Hshape. unfold mark_broadcast_completed in Hshape.
  apply flush_update_inv in Hshape.
  split.
  { unfold mark_broadcast_completed. rewrite Hshape.
    rewrite update_twice; [| reflexivity | intros r; destruct r; reflexivity].
    rewrite <- Hshape. apply flush_ok. destruct Hc1 as [H _]. exact H. }
  split.
  { intros r Hin Hid. exists (set_broadcast_completed true r).
    split; [|repeat split].
    unfold get_prediction_by_id. rewrite <- Hid.
    rewrite (consistent_int32 db r Hc Hin).
    rewrite Hid, Hrow, <- Hid.
    rewrite select_by_id_unique; [reflexivity | | exact Hin].
    destruct Hc as (Hcons & _). apply constraints_split in Hcons. tauto. }
  split.
  { intros r Hin Hne. rewrite Hshape. apply update_keeps_row; assumption. }
  rewrite Hshape. unfold update_prediction, with_predictions. simpl.
  split; [apply length_map|].
  rewrite !map_map.
  repeat split; apply map_ext; intros r; destruct (id r =? id p); reflexivity.
Qed.

Lemma mark_broadcast_completed_idempotent_witness :
  consistent Scenarios.busy_db
  /\ exists db1,
       mark_broadcast_completed (Scenarios.sample_prediction 2 ACTIVE)
         Scenarios.busy_db = Ok db1
       /\ mark_broadcast_completed (Scenarios.sample_prediction 2 ACTIVE) db1
          = Ok db1.
Proof.
  split; [exact busy_db_consistent|].
  destruct (mark_broadcast_completed_idempotent
              (Scenarios.sample_prediction 2 ACTIVE) Scenarios.busy_db
              busy_db_consistent) as (db1 & H1 & H2 & _).
  exists db1. split; assumption.
Defined.

End LifecycleMore.

(** ** More on the schedule monitor *)

Module MonitorMore.

Import UserService PredictionService BroadcastService Jobs.
Import StoreProps LifecycleProps CreateProps LifecycleMore JobProps.

Section Transport.

Variable Bot : Type.
Variable bot_call : Bot -> BotCall -> ApiOutcome * Bot.

(** The store a run of the job leaves: the one it found, or the one after
    the activation, or that one with the broadcast marked completed. *)
Lemma job_store_cases : forall now w prediction_id,
  w_scheduler Bot (fst (broadcast_prediction_job Bot bot_call now w
                          prediction_id))
  = w_scheduler Bot w
  /\ (w_db Bot (fst (broadcast_prediction_job Bot bot_call now w
                       prediction_id)) = w_db Bot w
      \/ exists p db1,
           In p (predictions (w_db Bot w))
           /\ status p = SCHEDULED
           /\ activate_prediction now p (w_db Bot w) = Ok db1
           /\ (w_db Bot (fst (broadcast_prediction_job Bot bot_call now w
                                prediction_id)) = db1
               \/ w_db Bot (fst (broadcast_prediction_job Bot bot_call now w
                                   prediction_id))
                  = update_prediction (id p) (set_broadcast_completed true)
                      db1)).
Proof.
  intros now w prediction_id. unfold broadcast_prediction_job.
  unfold DbSession.expire_on_commit.
  destruct (get_prediction_by_id prediction_id (w_db Bot w))
    as [[pr|]|e] eqn:Hget; try (split; [reflexivity | left; reflexivity]).
  destruct (status_eqb (status pr) SCHEDULED) eqn:Est; cbn [negb];
    [|split; [reflexivity | left; reflexivity]].
  destruct (broadcast_started pr && negb (broadcast_completed pr));
    [split; [reflexivity | left; reflexivity]|].
  assert (Hin : In pr (predictions (w_db Bot w))).
  { apply get_prediction_by_id_some in Hget.
    assert (H : In pr (select_by_id prediction_id (w_db Bot w)))
      by (rewrite Hget; left; reflexivity).
    unfold select_by_id in H. apply filter_In in H. tauto. }
  assert (Hst : status pr = SCHEDULED).
  { destruct (status pr); simpl in Est; try discriminate; reflexivity. }
  destruct (activate_prediction now pr (w_db Bot w)) as [db1|e] eqn:Hact;
    [|split; [reflexivity | left; reflexivity]].
  assert (Hmark : forall db2,
            mark_broadcast_completed (activated now pr) db1 = Ok db2 ->
            db2 = update_prediction (id pr) (set_broadcast_completed true) db1).
  { intros db2 H. unfold mark_broadcast_completed in H.
    apply flush_update_inv in H. exact H. }
  destruct (get_all_user_telegram_ids db1) as [|u us].
  - destruct (mark_broadcast_completed (activated now pr) db1)
      as [db2|e] eqn:Hm; (split; [reflexivity|]); right;
      exists pr, db1; repeat split; auto.
  - destruct (broadcast_prediction Bot bot_call (w_bot Bot w)
                (activated now pr) (u :: us)
                (get_prediction_keyboard (activated now pr) false) None)
      as [[res bot1] tr].
    destruct (mark_broadcast_completed (activated now pr) db1)
      as [db2|e] eqn:Hm; (split; [reflexivity|]); right;
      exists pr, db1; repeat split; auto.
Qed.

Lemma check_store_cases : forall now later w,
  w_db Bot (fst (check_scheduled_predictions Bot bot_call now later w))
  = w_db Bot w
  \/ exists prediction_id,
       fst (check_scheduled_predictions Bot bot_call now later w)
       = fst (broadcast_prediction_job Bot bot_call later w prediction_id).
Proof.
  intros now later w. unfold check_scheduled_predictions.
  destruct (get_scheduled_prediction (w_db Bot w)) as [[sch|]|e];
    try (left; reflexivity).
  destruct (scheduled_at sch <=? timestamp now).
  - destruct (negb (broadcast_started sch)); [|left; reflexivity].
    right. exists (id sch). reflexivity.
  - destruct (w_scheduler Bot w) as [jobs|]; [|left; reflexivity].
    destruct (get_job (id sch) jobs); left; reflexivity.
Qed.

Lemma job_keeps_store_sound : forall now w prediction_id,
  consistent (w_db Bot w) ->
  consistent
    (w_db Bot (fst (broadcast_prediction_job Bot bot_call now w
                      prediction_id)))
  /\ (forall r, In r (predictions (w_db Bot w)) ->
      status r = CANCELLED \/ status r = ARCHIVED ->
      In r (predictions
              (w_db Bot (fst (broadcast_prediction_job Bot bot_call now w
                                prediction_id))))).
Proof.
  intros now w prediction_id Hc.
  destruct (job_store_cases now w prediction_id)
    as [_ [Hsame | (p & db1 & Hin & Hst & Hact & Hcases)]].
  - rewrite Hsame. auto.
  - pose proof (only_selected SCHEDULED _ p Hc Hin Hst (or_introl eq_refl))
      as Hsel.
    destruct (activate_scheduled_effect now p _ Hc Hsel)
      as (db' & Hact' & Hc1 & _ & _ & _ & Hkeep).
    rewrite Hact in Hact'. inversion Hact'; subst db'. clear Hact'.
    destruct Hcases as [-> | ->]; [auto|].
    destruct (mark_broadcast_completed_ok p db1 Hc1)
      as (db2 & Hm & Hc2 & _).
    unfold mark_broadcast_completed in Hm. apply flush_update_inv in Hm.
    rewrite <- Hm. split; [exact Hc2|].
    intros r Hr Hterm. rewrite Hm. apply update_keeps_row; [auto|].
    intros E.
    assert (Hnd : NoDup (map id (predictions (w_db Bot w)))).
    { destruct Hc as (Hcons & _). apply constraints_split in Hcons. tauto. }
    pose proof (rows_same_id _ r p Hnd Hr Hin E). subst r.
    destruct Hterm; congruence.
Qed.

(** X10: the monitor keeps the store sound.  Whatever a tick of
    [check_scheduled_predictions] finds and whatever the transport answers,
    a consistent store is consistent afterwards - at most one SCHEDULED and
    at most one ACTIVE prediction - and every CANCELLED or ARCHIVED
    prediction is still there, field for field. *)
Theorem monitor_keeps_the_store_sound :
  forall (now later : datetime) (w : World Bot),
  consistent (w_db Bot w) ->
  consistent
    (w_db Bot (fst (check_scheduled_predictions Bot bot_call now later w)))
  /\ (forall r, In r (predictions (w_db Bot w)) ->
      status r = CANCELLED \/ status r = ARCHIVED ->
      In r (predictions
              (w_db Bot
                 (fst (check_scheduled_predictions Bot bot_call now later
                         w))))).
Proof.
  intros now later w Hc.
  destruct (check_store_cases now later w) as [Hsame | (pid & Hjob)].
  - rewrite Hsame. auto.
  - rewrite Hjob. apply job_keeps_store_sound. exact Hc.
Qed.

(** X11: a cancelled prediction is out of the schedule.  Cancelling the
    scheduled prediction of a consistent store succeeds and leaves it
    CANCELLED; after that neither a tick of the monitor nor the timer job
    registered for that prediction does anything: no activation, no send,
    no change of the world. *)
Theorem cancelled_prediction_is_never_activated :
  forall (now later : datetime) (w : World Bot) (p : Prediction),
  consistent (w_db Bot w) ->
  select_by_status SCHEDULED (w_db Bot w) = [p] ->
  exists db',
    cancel_prediction p (w_db Bot w) = Ok db'
    /\ get_prediction_by_id (id p) db' = Ok (Some (set_status CANCELLED p))
    /\ check_scheduled_predictions Bot bot_call now later (with_db Bot db' w)
       = (with_db Bot db' w, [])
    /\ broadcast_prediction_job Bot bot_call later (with_db Bot db' w) (id p)
       = (with_db Bot db' w, []).
Proof.
  intros now later w p Hc Hsel.
  assert (Hnd : NoDup (map id (predictions (w_db Bot w)))).
  { destruct Hc as (Hcons & _). apply constraints_split in Hcons. tauto. }
  assert (Hin : In p (predictions (w_db Bot w))).
  { apply (selected_row SCHEDULED). rewrite Hsel. left. reflexivity. }
  destruct (cancel_prediction_ok p _ Hc) as (db' & Hcancel & Hc').
  exists db'. split; [exact Hcancel|].
  unfold cancel_prediction in Hcancel. apply flush_update_inv in Hcancel.
  assert (Hrow : select_by_id (id p) db' = [set_status CANCELLED p]).
  { rewrite Hcancel, select_by_id_update by reflexivity.
    rewrite select_by_id_unique by assumption.
    simpl. rewrite Z.eqb_refl. reflexivity. }
  assert (Hnone : select_by_status SCHEDULED db' = []).
  { rewrite Hcancel. apply select_update_none; [|reflexivity].
    intros r Hr. rewrite Hsel in Hr. destruct Hr as [<- | []]. reflexivity. }
  pose proof (consistent_int32 _ p Hc Hin) as Hkey.
  split.
  { unfold get_prediction_by_id. rewrite Hkey, Hrow. reflexivity. }
  split.
  - unfold check_scheduled_predictions, get_scheduled_prediction.
    cbn [with_db w_db]. rewrite Hnone. reflexivity.
  - unfold broadcast_prediction_job, get_prediction_by_id.
    cbn [with_db w_db]. rewrite Hkey, Hrow. reflexivity.
Qed.

Lemma find_after_add_job : forall (j : DateJob) (jobs : list DateJob),
  get_job (job_prediction_id j) (add_job j jobs) = Some j.
Proof.
  intros j jobs. unfold get_job, add_job.
  induction jobs as [|x jobs IH]; simpl.
  - rewrite Z.eqb_refl. reflexivity.
  - destruct (job_prediction_id x =? job_prediction_id j) eqn:E; simpl.
    + exact IH.
    + rewrite E. exact IH.
Qed.

(** X12: registering the timer is idempotent.  While the scheduled
    prediction is not yet due and the scheduler runs, the first tick of the
    monitor registers one job for it, to run at [scheduled_at]; the next
    tick finds that job and registers nothing.  Neither tick touches the
    store or the transport. *)
Theorem future_prediction_is_scheduled_once :
  forall (now1 later1 now2 later2 : datetime) (w : World Bot) (p : Prediction)
         (jobs : list DateJob),
  get_scheduled_prediction (w_db Bot w) = Ok (Some p) ->
  timestamp now1 < scheduled_at p ->
  timestamp now2 < scheduled_at p ->
  w_scheduler Bot w = Some jobs ->
  get_job (id p) jobs = None ->
  let run1 := check_scheduled_predictions Bot bot_call now1 later1 w in
  let run2 :=
    check_scheduled_predictions Bot bot_call now2 later2 (fst run1) in
  run1 = (mk_World Bot (w_db Bot w) (w_bot Bot w)
            (Some (add_job (mk_DateJob (id p) (scheduled_at p)) jobs)),
          [AddJob (mk_DateJob (id p) (scheduled_at p))])
  /\ run2 = (fst run1, [])
  /\ get_job (id p) (add_job (mk_DateJob (id p) (scheduled_at p)) jobs)
     = Some (mk_DateJob (id p) (scheduled_at p)).
Proof.
  intros now1 later1 now2 later2 w p jobs Hget H1 H2 Hsch Hnone run1 run2.
  assert (E1 : (scheduled_at p <=? timestamp now1) = false)
    by (apply Z.leb_gt; exact H1).
  assert (E2 : (scheduled_at p <=? timestamp now2) = false)
    by (apply Z.leb_gt; exact H2).
  pose proof (find_after_add_job (mk_DateJob (id p) (scheduled_at p)) jobs)
    as Hfound. cbn [job_prediction_id] in Hfound.
  assert (Hr1 : run1 = (mk_World Bot (w_db Bot w) (w_bot Bot w)
            (Some (add_job (mk_DateJob (id p) (scheduled_at p)) jobs)),
          [AddJob (mk_DateJob (id p) (scheduled_at p))])).
  { subst run1. unfold check_scheduled_predictions.
    rewrite Hget, E1, Hsch, Hnone. reflexivity. }
  split; [exact Hr1|]. split; [|exact Hfound].
  subst run2. rewrite Hr1. unfold check_scheduled_predictions.
  cbn [fst w_db w_scheduler]. rewrite Hget, E2, Hfound. reflexivity.
Qed.

(** X13: whichever fires first, the prediction goes out once.  Once the
    job has run for the scheduled prediction - from the timer or from the
    monitor - a second firing of the timer job and a later tick of the
    monitor both do nothing. *)
Theorem timer_and_monitor_fire_once :
  forall (now now2 later2 : datetime) (w : World Bot) (p : Prediction),
  consistent (w_db Bot w) ->
  select_by_status SCHEDULED (w_db Bot w) = [p] ->
  broadcast_started p = false ->
  let w1 := fst (broadcast_prediction_job Bot bot_call now w (id p)) in
  count_actions is_activate
    (snd (broadcast_prediction_job Bot bot_call now w (id p))) = 1%nat
  /\ broadcast_prediction_job Bot bot_call later2 w1 (id p) = (w1, [])
  /\ check_scheduled_predictions Bot bot_call now2 later2 w1 = (w1, []).
Proof.
  intros now now2 later2 w p Hc Hsel Hstart w1.
  assert (Hkey : int32 (id p) = true).
  { apply (consistent_int32 _ p Hc).
    apply (selected_row SCHEDULED). rewrite Hsel. left. reflexivity. }
  destruct (job_runs Bot bot_call now w p Hc Hsel Hstart)
    as (db2 & bot2 & tr_b & Hjob & Htr & Hc2 & Hnone & Hrow).
  subst w1. rewrite Hjob. cbn [fst snd].
  destruct (transport_only_counts tr_b Htr) as [Ha _].
  split.
  { unfold count_actions in *.
    destruct (get_all_user_telegram_ids (w_db Bot w)); simpl.
    - reflexivity.
    - rewrite filter_app, length_app, Ha. reflexivity. }
  split.
  - unfold broadcast_prediction_job, get_prediction_by_id.
    cbn [w_db]. rewrite Hkey, Hrow. reflexivity.
  - unfold check_scheduled_predictions, get_scheduled_prediction.
    cbn [w_db]. rewrite Hnone. reflexivity.
Qed.

(** X14: from creation to delivery.  A prediction created on a consistent
    store, from a content the store takes as it is and with a time that has
    come, is picked up by the next tick of the monitor.  The tick is the
    activation, one call of [broadcast_prediction] for the activated
    prediction and the whole directory when there is a recipient - the
    calls of the transport are exactly the ones of that call - and the
    completion; read back afterwards the prediction is ACTIVE with its
    broadcast started and completed, and nothing is left SCHEDULED. *)
Theorem created_prediction_goes_out_when_due :
  forall (c : Content) (now later : datetime) (w : World Bot),
  consistent (w_db Bot w) ->
  acceptable c (w_db Bot w) = true ->
  c_scheduled_at c <= timestamp now ->
  exists p db2,
    create_prediction c (w_db Bot w) = Ok (p, db2)
    /\ let tick :=
         check_scheduled_predictions Bot bot_call now later
           (with_db Bot db2 w) in
       let user_ids := get_all_user_telegram_ids db2 in
       let sent :=
         broadcast_prediction Bot bot_call (w_bot Bot w) (activated later p)
           user_ids (get_prediction_keyboard (activated later p) false)
           None in
       snd tick
       = [Activate (id p); Commit]
         ++ match user_ids with
            | [] => []
            | _ :: _ => Broadcast (id p) user_ids :: snd sent
            end
         ++ [MarkCompleted (id p); Commit]
       /\ w_bot Bot (fst tick) = snd (fst sent)
       /\ get_prediction_by_id (id p) (w_db Bot (fst tick))
          = Ok (Some (set_broadcast_completed true (activated later p)))
       /\ status (set_broadcast_completed true (activated later p)) = ACTIVE
       /\ broadcast_started
            (set_broadcast_completed true (activated later p)) = true
       /\ broadcast_completed
            (set_broadcast_completed true (activated later p)) = true
       /\ get_scheduled_prediction (w_db Bot (fst tick)) = Ok None.
Proof.
  intros c now later w Hc Hacc Hdue.
  destruct (create_prediction_ok c _ Hc Hacc)
    as (db1 & p & db2 & Hsup & Hcr & Hc2 & _ & Hsel & _).
  assert (Hp : p = new_prediction c (predictions_id_seq db1)).
  { unfold create_prediction in Hcr. rewrite Hsup in Hcr. simpl in Hcr.
    destruct (flush _) in Hcr; simpl in Hcr; inversion Hcr. reflexivity. }
  assert (Hstart : broadcast_started p = false) by (rewrite Hp; reflexivity).
  assert (Hat : scheduled_at p = c_scheduled_at c) by (rewrite Hp; reflexivity).
  assert (Hkey : int32 (id p) = true).
  { apply (consistent_int32 db2 p Hc2).
    apply (selected_row SCHEDULED). rewrite Hsel. left. reflexivity. }
  exists p, db2. split; [exact Hcr|].
  destruct (job_runs_exactly Bot bot_call later (with_db Bot db2 w) p
              Hc2 Hsel Hstart)
    as (db3 & Hjob & Hc3 & Hnone & Hrow).
  assert (Hcheck : check_scheduled_predictions Bot bot_call now later
                     (with_db Bot db2 w)
                   = broadcast_prediction_job Bot bot_call later
                       (with_db Bot db2 w) (id p)).
  { unfold check_scheduled_predictions, get_scheduled_prediction.
    cbn [with_db w_db]. rewrite Hsel. cbn [scalar_one_or_none].
    rewrite Hat. apply Z.leb_le in Hdue. rewrite Hdue, Hstart. reflexivity. }
  cbv zeta. rewrite Hcheck, Hjob. cbn [fst snd w_db w_bot with_db].
  split; [reflexivity|]. split; [reflexivity|].
  split.
  { unfold get_prediction_by_id. rewrite Hkey, Hrow. reflexivity. }
  split; [reflexivity|]. split; [reflexivity|]. split; [reflexivity|].
  unfold get_scheduled_prediction. rewrite Hnone. reflexivity.
Qed.

End Transport.

Import Scenarios MoreScenarios.

Lemma monitor_keeps_the_store_sound_witness :
  consistent (w_db nat due_world)
  /\ consistent
       (w_db nat (fst (check_scheduled_predictions nat (blocking [11])
                         nov_2026 nov_2026 due_world))).
Proof.
  split; [exact due_db_consistent|].
  apply (proj1 (monitor_keeps_the_store_sound nat (blocking [11]) nov_2026
                  nov_2026 due_world due_db_consistent)).
Defined.

Lemma cancelled_prediction_is_never_activated_witness :
  consistent (w_db nat due_world)
  /\ select_by_status SCHEDULED (w_db nat due_world)
     = [sample_prediction 3 SCHEDULED]
  /\ exists db',
       cancel_prediction (sample_prediction 3 SCHEDULED) (w_db nat due_world)
         = Ok db'
       /\ check_scheduled_predictions nat (blocking [11]) nov_2026 nov_2026
            (with_db nat db' due_world)
          = (with_db nat db' due_world, []).
Proof.
  split; [exact due_db_consistent|]. split; [reflexivity|].
  destruct (cancelled_prediction_is_never_activated nat (blocking [11])
              nov_2026 nov_2026 due_world (sample_prediction 3 SCHEDULED)
              due_db_consistent eq_refl) as (db' & H1 & _ & H3 & _).
  exists db'. split; assumption.
Defined.

Lemma future_prediction_is_scheduled_once_witness :
  get_scheduled_prediction (w_db nat due_world)
    = Ok (Some (sample_prediction 3 SCHEDULED))
  /\ timestamp early < scheduled_at (sample_prediction 3 SCHEDULED)
  /\ w_scheduler nat due_world = Some []
  /\ get_job 3 [] = None
  /\ check_scheduled_predictions nat (blocking [11]) early early
       (fst (check_scheduled_predictions nat (blocking [11]) early early
               due_world))
     = (fst (check_scheduled_predictions nat (blocking [11]) early early
               due_world), []).
Proof.
  split; [reflexivity|]. split; [simpl; lia|].
  split; [reflexivity|]. split; [reflexivity|].
  apply (future_prediction_is_scheduled_once nat (blocking [11]) early early
           early early due_world (sample_prediction 3 SCHEDULED) []).
  - reflexivity.
  - simpl. lia.
  - simpl. lia.
  - reflexivity.
  - reflexivity.
Defined.

Lemma timer_and_monitor_fire_once_witness :
  consistent (w_db nat due_world)
  /\ select_by_status SCHEDULED (w_db nat due_world)
     = [sample_prediction 3 SCHEDULED]
  /\ broadcast_started (sample_prediction 3 SCHEDULED) = false
  /\ broadcast_prediction_job nat (blocking [11]) nov_2026
       (fst (broadcast_prediction_job nat (blocking [11]) nov_2026 due_world 3))
       3
     = (fst (broadcast_prediction_job nat (blocking [11]) nov_2026 due_world 3),
        []).
Proof.
  split; [exact due_db_consistent|]. split; [reflexivity|].
  split; [reflexivity|].
  apply (timer_and_monitor_fire_once nat (blocking [11]) nov_2026 nov_2026
           nov_2026 due_world (sample_prediction 3 SCHEDULED)
           due_db_consistent eq_refl eq_refl).
Defined.

Lemma created_prediction_goes_out_when_due_witness :
  consistent (w_db nat due_world)
  /\ acceptable (sample_content "December" 2000) (w_db nat due_world) = true
  /\ c_scheduled_at (sample_content "December" 2000) <= timestamp nov_2026
  /\ exists p db2,
       create_prediction (sample_content "December" 2000)
         (w_db nat due_world) = Ok (p, db2)
       /\ get_scheduled_prediction
            (w_db nat
               (fst (check_scheduled_predictions nat (blocking [11])
                       nov_2026 nov_2026 (with_db nat db2 due_world))))
          = Ok None.
Proof.
  split; [exact due_db_consistent|]. split; [reflexivity|].
  split; [simpl; lia|].
  destruct (created_prediction_goes_out_when_due nat (blocking [11])
              (sample_content "December" 2000) nov_2026 nov_2026
              due_world due_db_consistent eq_refl)
    as (p & db2 & H1 & H2); [simpl; lia|].
  exists p, db2. split; [exact H1|]. apply H2.
Defined.

End MonitorMore.

(** ** Lookups *)

Module LookupProps.

Import PredictionService StoreProps LifecycleProps LifecycleMore.

Lemma filter_key_at_most_one :
  forall (A : Type) (key : A -> Z) (k : Z) (rows : list A),
  NoDup (map key rows) ->
  (List.length (filter (fun r => (key r =? k)%Z) rows) <= 1)%nat.
Proof.
  intros A key k rows. induction rows as [|r rows IH]; simpl; intros Hnd.
  - lia.
  - inversion Hnd as [|x l Hnotin Hnd']; subst.
    destruct (key r =? k) eqn:E; [|apply IH; exact Hnd'].
    apply Z.eqb_eq in E. simpl.
    assert (Hnone : filter (fun r0 => key r0 =? k) rows = []).
    { clear IH Hnd Hnd'. induction rows as [|q rows IH]; simpl in *.
      - reflexivity.
      - destruct (key q =? k) eqn:Eq.
        + apply Z.eqb_eq in Eq. exfalso. apply Hnotin. left. congruence.
        + apply IH. tauto. }
    rewrite Hnone. simpl. lia.
Qed.

Lemma scalar_of_at_most_one : forall (A : Type) (rows : list A),
  (List.length rows <= 1)%nat ->
  exists r, scalar_one_or_none rows = Ok r
            /\ (forall x, r = Some x <-> In x rows).
Proof.
  intros A [|a [|b rows]] H; simpl in *.
  - exists None. split; [reflexivity|]. intros x. split; [discriminate | tauto].
  - exists (Some a). split; [reflexivity|]. intros x. split.
    + intros E. inversion E. tauto.
    + intros [-> | []]. reflexivity.
  - lia.
Qed.

Lemma in_select_by_status : forall s db p,
  In p (select_by_status s db) <-> In p (predictions db) /\ status p = s.
Proof.
  intros s db p. split.
  - apply selected_row.
  - intros [Hin Hs]. unfold select_by_status. apply filter_In.
    split; [exact Hin|]. unfold has_status. rewrite Hs.
    destruct s; reflexivity.
Qed.

(** X15: the lookups of predictions on a consistent store.  The lookup of
    the active and of the scheduled prediction never raise and return the
    row with that status, or nothing when there is none; the lookup by id
    returns the row with that key, or nothing, for every key that is a
    32-bit integer, and raises DBAPIError for any other key, which no
    stored prediction has; and the lookup for the admin view never raises
    and answers with the active prediction when there is one and with the
    scheduled one otherwise. *)
Theorem prediction_lookups_on_a_consistent_store : forall db : Database,
  consistent db ->
  (exists r, get_active_prediction db = Ok r
     /\ forall p, r = Some p <-> In p (predictions db) /\ status p = ACTIVE)
  /\ (exists r, get_scheduled_prediction db = Ok r
     /\ forall p, r = Some p <-> In p (predictions db) /\ status p = SCHEDULED)
  /\ (forall i, int32 i = true ->
      exists r, get_prediction_by_id i db = Ok r
        /\ forall p, r = Some p <-> In p (predictions db) /\ id p = i)
  /\ (forall i, int32 i = false ->
      get_prediction_by_id i db = Raise DBAPIError
      /\ forall p, In p (predictions db) -> id p <> i)
  /\ (exists r, get_current_or_scheduled_prediction db = Ok r
     /\ forall p, r = Some p <->
          In p (predictions db)
          /\ (status p = ACTIVE
              \/ (status p = SCHEDULED
                  /\ forall a, In a (predictions db) -> status a <> ACTIVE))).
Proof.
  intros db Hc. pose proof Hc as (Hcons & _).
  apply constraints_split in Hcons. destruct Hcons as (Hnd & Hs & Ha & _).
  destruct (scalar_of_at_most_one _ _ Ha) as (ra & Hra & Hina).
  destruct (scalar_of_at_most_one _ _ Hs) as (rs & Hrs & Hins).
  assert (Hact : forall p, ra = Some p <->
                 In p (predictions db) /\ status p = ACTIVE).
  { intros p. rewrite Hina. apply in_select_by_status. }
  assert (Hsch : forall p, rs = Some p <->
                 In p (predictions db) /\ status p = SCHEDULED).
  { intros p. rewrite Hins. apply in_select_by_status. }
  split; [exists ra; split; [exact Hra | exact Hact]|].
  split; [exists rs; split; [exact Hrs | exact Hsch]|].
  split.
  { intros i Hi.
    destruct (scalar_of_at_most_one _ (select_by_id i db)
                (filter_key_at_most_one _ id i _ Hnd)) as (r & Hr & Hin).
    exists r. split; [unfold get_prediction_by_id; rewrite Hi; exact Hr|].
    intros p. rewrite Hin.
    unfold select_by_id. rewrite filter_In, Z.eqb_eq. tauto. }
  split.
  { intros i Hi. split; [unfold get_prediction_by_id; rewrite Hi; reflexivity|].
    intros p Hin E. rewrite <- E, (consistent_int32 db p Hc Hin) in Hi.
    discriminate. }
  - unfold get_current_or_scheduled_prediction.
    unfold get_active_prediction in Hra. unfold get_active_prediction.
    rewrite Hra. simpl. destruct ra as [a|].
    + exists (Some a). split; [reflexivity|]. intros p.
      pose proof (proj1 (Hact a) eq_refl) as [Hia Hsa].
      split.
      * intros E. inversion E; subst p. tauto.
      * intros [Hip [Hp | [Hp Hno]]].
        -- apply Hact. tauto.
        -- exfalso. apply (Hno a Hia Hsa).
    + exists rs. split; [exact Hrs|]. intros p. rewrite Hsch.
      split.
      * intros [Hip Hp]. split; [exact Hip|]. right. split; [exact Hp|].
        intros a Hia Hsa.
        assert (None = Some a) by (apply Hact; tauto). discriminate.
      * intros [Hip [Hp | [Hp _]]]; [|tauto].
        assert (None = Some p) by (apply Hact; tauto). discriminate.
Qed.

Lemma prediction_lookups_on_a_consistent_store_witness :
  consistent Scenarios.busy_db
  /\ exists r, get_current_or_scheduled_prediction Scenarios.busy_db = Ok r.
Proof.
  split; [exact CreateProps.busy_db_consistent|].
  destruct (prediction_lookups_on_a_consistent_store Scenarios.busy_db
              CreateProps.busy_db_consistent)
    as (_ & _ & _ & _ & r & Hr & _).
  exists r. exact Hr.
Defined.

(** A key beyond the 32-bit column is refused by the data base; the
    largest key of the column is looked up and not found. *)
Example lookup_beyond_the_column :
  get_prediction_by_id 2147483648 Scenarios.busy_db = Raise DBAPIError
  /\ get_prediction_by_id 2147483647 Scenarios.busy_db = Ok None
  /\ get_prediction_by_id 3 Scenarios.busy_db
     = Ok (Some (Scenarios.sample_prediction 3 SCHEDULED)).
Proof. repeat split; reflexivity. Qed.

End LookupProps.

(** ** More on the ledger of choices *)

Module LedgerMore.

Import PredictionService StatisticsService.
Import StoreProps LedgerProps StatisticsProps.

Lemma distinct_filter_at_most_one :
  forall (A : Type) (eqb : A -> A -> bool) (P : A -> bool) (l : list A),
  distinct eqb l = true ->
  (forall x y, P x = true -> P y = true -> eqb x y = true) ->
  (List.length (filter P l) <= 1)%nat.
Proof.
  intros A eqb P l Hd Hsame. induction l as [|x l IH]; simpl in *.
  - lia.
  - apply andb_true_iff in Hd as [Hx Hd].
    destruct (P x) eqn:Px; [|apply IH; exact Hd].
    assert (Hnone : filter P l = []).
    { destruct (filter P l) as [|y rest] eqn:E; [reflexivity|].
      assert (Hy : In y (filter P l)) by (rewrite E; left; reflexivity).
      apply filter_In in Hy. destruct Hy as [Hin Py].
      apply negb_true_iff in Hx.
      assert (existsb (eqb x) l = true) as Hex.
      { apply existsb_exists. exists y. split; [exact Hin|].
        apply Hsame; assumption. }
      congruence. }
    rewrite Hnone. simpl. lia.
Qed.

Lemma existsb_of_filter : forall (A : Type) (P : A -> bool) (l : list A),
  existsb P l = match filter P l with [] => false | _ :: _ => true end.
Proof.
  intros A P l. induction l as [|x l IH]; simpl.
  - reflexivity.
  - destruct (P x); simpl; [reflexivity | exact IH].
Qed.

Lemma distinct_snoc_fresh : forall (A : Type) (eqb : A -> A -> bool)
  (l : list A) (c x : A),
  distinct eqb (l ++ [c]) = true -> In x l -> eqb x c = false.
Proof.
  intros A eqb l c x Hd Hin. destruct (eqb x c) eqn:E; [|reflexivity].
  rewrite (distinct_snoc_clash A eqb l x c Hin E) in Hd. discriminate.
Qed.

(** The test [has_user_chosen_this_month] makes of a row. *)
Lemma chosen_filter_ext : forall u y m l,
  filter (fun c => (telegram_user_id c =? u) && (year c =? y)
                   && (month c =? m) && Bool.eqb (is_test c) false) l
  = filter (fun c => (telegram_user_id c =? u) && (year c =? y)
                     && (month c =? m) && negb (is_test c)) l.
Proof.
  intros. apply filter_ext. intros c. destruct (is_test c); reflexivity.
Qed.

Lemma has_user_chosen_value : forall u y m db,
  consistent db ->
  has_user_chosen_this_month u y m db
  = Ok (existsb (fun c => (telegram_user_id c =? u) && (year c =? y)
                          && (month c =? m) && negb (is_test c))
          (choices db)).
Proof.
  intros u y m db (Hcons & _). apply constraints_split in Hcons.
  destruct Hcons as (_ & _ & _ & _ & Hkey & _).
  unfold has_user_chosen_this_month.
  rewrite chosen_filter_ext, existsb_of_filter.
  pose proof (distinct_filter_at_most_one _ same_period_key
                (fun c => (telegram_user_id c =? u) && (year c =? y)
                          && (month c =? m) && negb (is_test c))
                (choices db) Hkey) as Hle.
  assert (Hsame : forall a b,
    (telegram_user_id a =? u) && (year a =? y) && (month a =? m)
      && negb (is_test a) = true ->
    (telegram_user_id b =? u) && (year b =? y) && (month b =? m)
      && negb (is_test b) = true ->
    same_period_key a b = true).
  { intros a b Ha Hb. unfold same_period_key.
    rewrite !andb_true_iff, !Z.eqb_eq in *.
    intuition congruence. }
  specialize (Hle Hsame).
  destruct (filter _ (choices db)) as [|a [|b rest]]; simpl in *;
    [reflexivity | reflexivity | lia].
Qed.

(** X16: on a consistent store [has_user_chosen_this_month] never raises,
    and it answers True exactly when the ledger holds a choice of that
    recipient for that year and month that is not a test choice. *)
Theorem has_user_chosen_counts_real_choices :
  forall (u y m : Z) (db : Database),
  consistent db ->
  has_user_chosen_this_month u y m db
  = Ok (existsb (fun c => (telegram_user_id c =? u) && (year c =? y)
                          && (month c =? m) && negb (is_test c))
          (choices db)).
Proof. exact has_user_chosen_value. Qed.

Lemma has_user_chosen_counts_real_choices_witness :
  consistent Scenarios.ledger_db
  /\ has_user_chosen_this_month 10 2026 11 Scenarios.ledger_db = Ok true
  /\ has_user_chosen_this_month 12 2026 11 Scenarios.ledger_db = Ok false.
Proof.
  assert (Hc : consistent Scenarios.ledger_db).
  { split; [reflexivity|]. split; repeat constructor; simpl; lia. }
  split; [exact Hc|]. split.
  - exact (has_user_chosen_counts_real_choices 10 2026 11
             Scenarios.ledger_db Hc).
  - exact (has_user_chosen_counts_real_choices 12 2026 11
             Scenarios.ledger_db Hc).
Defined.

Lemma record_user_choice_shape :
  forall now user prediction button flag db c db1,
  record_user_choice now user prediction button flag db = Ok (c, db1) ->
  c = mk_Choice (choices_id_seq db) user prediction button
        (dt_year now) (dt_month now) flag
  /\ choices db1 = choices db ++ [c]
  /\ users db1 = users db /\ predictions db1 = predictions db
  /\ constraints_ok db1 = true.
Proof.
  intros now user prediction button flag db c db1 H.
  unfold record_user_choice in H. simpl in H.
  destruct (flush _) as [d|e] eqn:Hf in H; simpl in H; [|discriminate].
  inversion H; subst c db1. clear H.
  apply flush_inv in Hf. destruct Hf as [-> Hok]. auto.
Qed.

Lemma recorded_choice_lookup :
  forall now user prediction button flag db c db1,
  consistent db ->
  record_user_choice now user prediction button flag db = Ok (c, db1) ->
  consistent db1
  /\ has_user_chosen_this_month user (dt_year now) (dt_month now) db1
     = Ok (negb flag).
Proof.
  intros now user prediction button flag db c db1 Hc H.
  pose proof (record_user_choice_consistent _ _ _ _ _ _ _ _ Hc H) as Hc1.
  split; [exact Hc1|].
  rewrite (has_user_chosen_value _ _ _ _ Hc1).
  destruct (record_user_choice_shape _ _ _ _ _ _ _ _ H)
    as (Hcv & Hrows & _ & _ & Hok).
  apply constraints_split in Hok. destruct Hok as (_ & _ & _ & _ & Hkey & _).
  rewrite Hrows in *. rewrite existsb_app. simpl.
  assert (Hold : existsb
            (fun c0 => (telegram_user_id c0 =? user)
                       && (year c0 =? dt_year now)
                       && (month c0 =? dt_month now) && negb (is_test c0))
            (choices db) = false).
  { destruct (existsb _ (choices db)) eqn:E; [|reflexivity].
    apply existsb_exists in E. destruct E as (x & Hx & Px).
    pose proof (distinct_snoc_fresh _ _ _ _ x Hkey Hx) as Hfresh.
    unfold same_period_key in Hfresh. subst c. simpl in Hfresh.
    rewrite !andb_true_iff in Px. destruct Px as [[[P1 P2] P3] _].
    rewrite P1, P2, P3 in Hfresh. discriminate. }
  rewrite Hold. subst c. simpl. rewrite !Z.eqb_refl. simpl.
  rewrite orb_false_r. reflexivity.
Qed.

(** X17: what is recorded is what is looked up.  After a choice has been
    recorded on a consistent store, the store is still consistent and
    [has_user_chosen_this_month] for that recipient and the current month
    answers True when the choice is a real one and False when it is a test
    choice: test choices do not count as having chosen. *)
Theorem recorded_choice_is_seen :
  forall (now : datetime) (user prediction button : Z) (flag : bool)
         (db : Database) (c : UserPredictionChoice) (db1 : Database),
  consistent db ->
  record_user_choice now user prediction button flag db = Ok (c, db1) ->
  consistent db1
  /\ has_user_chosen_this_month user (dt_year now) (dt_month now) db1
     = Ok (negb flag).
Proof. exact recorded_choice_lookup. Qed.

Lemma recorded_choice_is_seen_witness :
  consistent Scenarios.busy_db
  /\ exists c db1,
       record_user_choice Scenarios.nov_2026 10 2 1 false Scenarios.busy_db
         = Ok (c, db1)
       /\ has_user_chosen_this_month 10 2026 11 db1 = Ok true.
Proof.
  split; [exact CreateProps.busy_db_consistent|].
  eexists. eexists. split; [reflexivity|].
  apply (proj2 (recorded_choice_is_seen Scenarios.nov_2026 10 2 1 false
                  Scenarios.busy_db _ _ CreateProps.busy_db_consistent
                  eq_refl)).
Defined.

Lemma count_button_app : forall b l1 l2,
  count_button b (l1 ++ l2)
  = (count_button b l1 + count_button b l2)%nat.
Proof.
  intros. rewrite !count_button_length, filter_app, length_app. reflexivity.
Qed.

(** X18: a recorded choice and the monthly report.  A real choice that
    the store accepts raises the number of respondents of the current month
    by one and the count of its own button by one, and leaves the other
    counts and the number of users alone; a test choice that the store
    accepts leaves the whole report as it was. *)
Theorem recorded_choice_is_counted :
  forall (now : datetime) (user prediction button : Z) (flag : bool)
         (db : Database) (c : UserPredictionChoice) (db1 : Database),
  record_user_choice now user prediction button flag db = Ok (c, db1) ->
  let before := get_current_month_statistics now db in
  let after := get_current_month_statistics now db1 in
  let one (b : Z) : nat :=
    if flag then 0%nat else if button =? b then 1%nat else 0%nat in
  total_users after = total_users before
  /\ active_users after
     = (active_users before + (if flag then 0 else 1))%nat
  /\ button_1_count after = (button_1_count before + one 1%Z)%nat
  /\ button_2_count after = (button_2_count before + one 2%Z)%nat
  /\ button_3_count after = (button_3_count before + one 3%Z)%nat.
Proof.
  intros now user prediction button flag db c db1 H before after one.
  destruct (record_user_choice_shape _ _ _ _ _ _ _ _ H)
    as (Hcv & Hrows & Hu & _).
  assert (Hsingle :
    filter (in_month_not_test (dt_year now) (dt_month now)) [c]
    = if flag then [] else [c]).
  { subst c. cbn [filter]. unfold in_month_not_test. cbn [year month is_test].
    rewrite !Z.eqb_refl. destruct flag; reflexivity. }
  assert (Hcount : forall b,
    count_button b (if flag then [] else [c])
    = if flag then 0%nat else if button =? b then 1%nat else 0%nat).
  { intros b. destruct flag; [reflexivity|]. subst c.
    unfold count_button. cbn [filter selected_button].
    destruct (button =? b); reflexivity. }
  subst before after one. unfold get_current_month_statistics.
  cbn [total_users active_users button_1_count button_2_count
       button_3_count].
  rewrite Hrows, Hu, filter_app, Hsingle, length_app, !count_button_app,
    !Hcount.
  destruct flag; repeat split; reflexivity.
Qed.

Lemma recorded_choice_is_counted_witness :
  exists c db1,
    record_user_choice Scenarios.nov_2026 14 1 3 false Scenarios.ledger_db
      = Ok (c, db1)
    /\ button_3_count (get_current_month_statistics Scenarios.nov_2026 db1)
       = 2%nat.
Proof.
  eexists. eexists. split; [reflexivity|].
  apply (recorded_choice_is_counted Scenarios.nov_2026 14 1 3 false
           Scenarios.ledger_db _ _ eq_refl).
Defined.

End LedgerMore.

(** ** More on the selection handlers *)

Module HandlerMore.

Import Handlers PredictionService Dispatch.
Import StoreProps LedgerProps LedgerMore HandlerProps.

Lemma no_colon_in_digits : forall d : Decimal.uint,
  contains ":"%char (NilEmpty.string_of_uint d) = false.
Proof. induction d; simpl; auto. Qed.

Lemma no_colon_in_str_of_int : forall n : Z,
  contains ":"%char (str_of_int n) = false.
Proof.
  intros n. unfold str_of_int, NilZero.string_of_int, NilZero.string_of_uint.
  destruct (Z.to_int n) as [d|d]; destruct d; simpl;
    try reflexivity; apply no_colon_in_digits.
Qed.

Lemma split_no_sep : forall sep s,
  contains sep s = false -> split sep s = [s].
Proof.
  intros sep s. induction s as [|a s IH]; simpl; intros H.
  - reflexivity.
  - apply orb_false_iff in H as [Ha Hs]. rewrite Ha, (IH Hs). reflexivity.
Qed.

Lemma split_at_sep : forall sep s rest,
  contains sep s = false ->
  split sep (s ++ String sep rest) = s :: split sep rest.
Proof.
  intros sep s rest. induction s as [|a s IH]; simpl; intros H.
  - rewrite Ascii.eqb_refl. reflexivity.
  - apply orb_false_iff in H as [Ha Hs]. rewrite Ha, (IH Hs). reflexivity.
Qed.

Lemma string_app_assoc : forall a b c : string,
  ((a ++ b) ++ c = a ++ (b ++ c))%string.
Proof.
  intros a b c. induction a as [|x a IH]; simpl; [|rewrite IH]; reflexivity.
Qed.

(** The callback data of a prediction button splits into the three parts
    the handlers expect. *)
Lemma split_button_data : forall (prefix : string) (n : Z) (k : string),
  contains ":"%char prefix = false ->
  contains ":"%char k = false ->
  split ":"%char (prefix ++ "select:" ++ str_of_int n ++ ":" ++ k)
  = [(prefix ++ "select")%string; str_of_int n; k].
Proof.
  intros prefix n k Hp Hk.
  replace (prefix ++ "select:" ++ str_of_int n ++ ":" ++ k)%string
    with ((prefix ++ "select") ++ String ":"%char
            (str_of_int n ++ String ":"%char k))%string.
  2:{ rewrite string_app_assoc. reflexivity. }
  rewrite split_at_sep.
  - rewrite split_at_sep by apply no_colon_in_str_of_int.
    rewrite split_no_sep by exact Hk. reflexivity.
  - clear Hk. induction prefix as [|a prefix IH]; simpl in *.
    + reflexivity.
    + apply orb_false_iff in Hp as [Ha Hp]. rewrite Ha. apply IH. exact Hp.
Qed.

Lemma prefix_append : forall a b : string,
  String.prefix a (a ++ b) = true.
Proof.
  intros a b. induction a as [|x a IH]; simpl.
  - destruct b; reflexivity.
  - destruct (ascii_dec x x) as [_|Hne]; [exact IH | contradiction].
Qed.

Lemma route_select : forall rest : string,
  route (Some ("select:" ++ rest)%string) = to_handle_button_selection.
Proof.
  intros rest. unfold route, startswith. rewrite prefix_append. reflexivity.
Qed.

Lemma route_selected : forall rest : string,
  route (Some ("selected:" ++ rest)%string) = to_handle_already_selected.
Proof.
  intros rest. unfold route, startswith.
  replace (String.prefix "select:" ("selected:" ++ rest)) with false
    by reflexivity.
  rewrite prefix_append. reflexivity.
Qed.

Lemma route_test_select : forall rest : string,
  route (Some ("test_select:" ++ rest)%string)
  = to_handle_test_button_selection.
Proof.
  intros rest. unfold route, startswith.
  replace (String.prefix "select:" ("test_select:" ++ rest)) with false
    by reflexivity.
  replace (String.prefix "selected:" ("test_select:" ++ rest)) with false
    by reflexivity.
  rewrite prefix_append. reflexivity.
Qed.

(** X19: the callback data of the three keyboards never get mixed up.
    Every button of the keyboard sent with a broadcast is routed to
    [handle_button_selection], every button of the admin's test keyboard to
    [handle_test_button_selection], and the button of the keyboard shown
    after a selection to [handle_already_selected], whatever the id of the
    prediction and the number of the button. *)
Theorem keyboards_reach_their_handlers :
  forall (p : Prediction) (k : Z),
  Forall (fun d => route (Some d) = to_handle_button_selection)
    (button_data (get_prediction_keyboard p false))
  /\ Forall (fun d => route (Some d) = to_handle_test_button_selection)
       (button_data (get_prediction_keyboard p true))
  /\ Forall (fun d => route (Some d) = to_handle_already_selected)
       (button_data (get_selected_keyboard p k)).
Proof.
  intros p k. unfold button_data, get_prediction_keyboard,
    get_selected_keyboard.
  repeat split; repeat constructor; cbn [callback_data].
  - apply (route_select (str_of_int (id p) ++ ":" ++ "1")).
  - apply (route_select (str_of_int (id p) ++ ":" ++ "2")).
  - apply (route_select (str_of_int (id p) ++ ":" ++ "3")).
  - apply (route_test_select (str_of_int (id p) ++ ":" ++ "1")).
  - apply (route_test_select (str_of_int (id p) ++ ":" ++ "2")).
  - apply (route_test_select (str_of_int (id p) ++ ":" ++ "3")).
  - apply (route_selected (str_of_int (id p) ++ ":" ++ str_of_int k)).
Qed.

Section Transport.

Variable Bot : Type.
Variable bot_call : Bot -> BotCall -> ApiOutcome * Bot.
Variable py_int : string -> option Z.

Lemma reply_returned_db : forall notice alert db bot tr,
  h_db Bot (reply Bot bot_call notice alert db bot tr) = db
  /\ count_actions is_record_choice
       (h_trace Bot (reply Bot bot_call notice alert db bot tr))
     = count_actions is_record_choice tr.
Proof. intros. split; [apply reply_db | apply reply_records]. Qed.

(** The three ways [handle_button_selection] can end. *)
Lemma button_selection_cases : forall now callback db bot,
  (h_db Bot (handle_button_selection Bot bot_call py_int now callback db bot)
   = db
   /\ count_actions is_record_choice
        (h_trace Bot
           (handle_button_selection Bot bot_call py_int now callback db bot))
      = 0%nat)
  \/ (exists u pid b c db1,
        from_user callback = Some u
        /\ (b = 1 \/ b = 2 \/ b = 3)
        /\ has_user_chosen_this_month u (dt_year now) (dt_month now) db
           = Ok false
        /\ (exists p, get_prediction_by_id pid db = Ok (Some p))
        /\ record_user_choice now u pid b false db = Ok (c, db1)
        /\ h_db Bot
             (handle_button_selection Bot bot_call py_int now callback db bot)
           = db1
        /\ count_actions is_record_choice
             (h_trace Bot
                (handle_button_selection Bot bot_call py_int now callback db
                   bot))
           = 1%nat)
  \/ (returned Bot
        (handle_button_selection Bot bot_call py_int now callback db bot)
      = false
      /\ h_db Bot
           (handle_button_selection Bot bot_call py_int now callback db bot)
         = refused_choice db).
Proof.
  intros now callback db bot. unfold handle_button_selection.
  destruct (from_user callback) as [u|];
    [|left; apply reply_returned_db].
  destruct (truthy (data callback));
    [|left; apply reply_returned_db].
  destruct (data callback) as [d|];
    [|left; apply reply_returned_db].
  destruct (negb (List.length (split ":"%char d) =? 3)%nat);
    [left; apply reply_returned_db|].
  destruct (py_int (nth 1 (split ":"%char d) EmptyString)) as [pid|];
    [|left; apply reply_returned_db].
  destruct (py_int (nth 2 (split ":"%char d) EmptyString)) as [b|];
    [|left; apply reply_returned_db].
  destruct (negb ((b =? 1) || (b =? 2) || (b =? 3))) eqn:Eb;
    [left; apply reply_returned_db|].
  destruct (has_user_chosen_this_month u (dt_year now) (dt_month now) db)
    as [[|]|e] eqn:Hh.
  - left. apply reply_returned_db.
  - destruct (get_prediction_by_id pid db) as [[p|]|e] eqn:Hg.
    + destruct (record_user_choice now u pid b false db)
        as [[c db1]|e] eqn:Hr.
      * right. left. exists u, pid, b, c, db1.
        split; [reflexivity|]. split.
        { apply negb_false_iff in Eb. rewrite !orb_true_iff, !Z.eqb_eq in Eb.
          tauto. }
        split; [exact Hh|]. split; [exists p; exact Hg|].
        split; [exact Hr|].
        split; [apply edit_then_answer_db|].
        rewrite edit_then_answer_records. reflexivity.
      * right. right. split; reflexivity.
    + left. apply reply_returned_db.
    + left. split; reflexivity.
  - left. split; reflexivity.
Qed.

(** What the session has after a handler that inserted at most one
    choice: the rows it reached, or the rows it started from with the key
    of the insert spent. *)
Lemma rollback_rows : forall db reached,
  users (rollback db reached) = users db
  /\ predictions (rollback db reached) = predictions db
  /\ choices (rollback db reached) = choices db.
Proof. intros. repeat split. Qed.

(** X20: a tap is all or nothing.  Behind the session middleware
    [handle_button_selection] either leaves every row of the store as it
    was - at most the key of an insert that was refused or rolled back is
    spent, which happens only when the handler did not return - or it has
    returned normally and the store is the old one with a single new
    choice: a real choice, of button 1, 2 or 3, by the sender, who had not
    chosen this month, for a prediction that exists.  It never records more
    than one choice. *)
Theorem button_selection_is_all_or_nothing :
  forall (now : datetime) (callback : CallbackQuery) (db : Database)
         (bot : Bot),
  let r := with_session Bot
             (handle_button_selection Bot bot_call py_int now callback)
             db bot in
  ((users (h_db Bot r) = users db
    /\ predictions (h_db Bot r) = predictions db
    /\ choices (h_db Bot r) = choices db
    /\ predictions_id_seq (h_db Bot r) = predictions_id_seq db
    /\ (choices_id_seq (h_db Bot r) = choices_id_seq db
        \/ (returned Bot r = false
            /\ choices_id_seq (h_db Bot r) = choices_id_seq db + 1)))
   \/ (returned Bot r = true
       /\ exists u pid b c,
            from_user callback = Some u
            /\ (b = 1 \/ b = 2 \/ b = 3)
            /\ has_user_chosen_this_month u (dt_year now) (dt_month now) db
               = Ok false
            /\ (exists p, get_prediction_by_id pid db = Ok (Some p))
            /\ record_user_choice now u pid b false db = Ok (c, h_db Bot r)
            /\ choices (h_db Bot r) = choices db ++ [c]))
  /\ (count_actions is_record_choice (h_trace Bot r) <= 1)%nat.
Proof.
  intros now callback db bot r. subst r. unfold with_session.
  destruct (button_selection_cases now callback db bot)
    as [[Hdb Hn] | [(u & pid & b & c & db1 & Hu & Hb & Hh & Hp & Hr & Hdb & Hn)
                   | [Hret Hdb]]].
  - split.
    + left. destruct (returned Bot _); cbn [h_db returned]; rewrite Hdb;
        repeat split; left; reflexivity.
    + destruct (returned Bot _); simpl; rewrite count_records_app, Hn;
        unfold count_actions; simpl; lia.
  - destruct (record_user_choice_shape _ _ _ _ _ _ _ _ Hr)
      as (_ & Hrows & _).
    assert (Hseq : predictions_id_seq db1 = predictions_id_seq db
                   /\ choices_id_seq db1 = choices_id_seq db + 1).
    { unfold record_user_choice in Hr. simpl in Hr.
      destruct (flush _) as [d|e] eqn:Hf in Hr; simpl in Hr; [|discriminate].
      inversion Hr; subst c d. apply StoreProps.flush_inv in Hf as [-> _].
      split; reflexivity. }
    split.
    + destruct (returned Bot _) eqn:Eret; cbn [h_db returned]; rewrite Hdb.
      * right. split; [reflexivity|]. exists u, pid, b, c. auto 10.
      * left. repeat split; try apply Hseq.
        right. split; [reflexivity | apply Hseq].
    + destruct (returned Bot _); simpl; rewrite count_records_app, Hn;
        unfold count_actions; simpl; lia.
  - rewrite Hret. cbn [h_db returned]. rewrite Hdb. split.
    { left. repeat split. right. split; reflexivity. }
    cbn [h_trace]. rewrite count_records_app.
    destruct (button_selection_cases now callback db bot)
      as [[_ Hn] | [(u & pid & b & c & db1 & _ & _ & _ & _ & _ & _ & Hn)
                   | _]]; try (rewrite Hn; unfold count_actions; simpl; lia).
    clear Hdb Hret. unfold handle_button_selection.
    repeat match goal with
           | |- context [match ?x with _ => _ end] => destruct x
           end;
      rewrite ?reply_records, ?edit_then_answer_records;
      unfold count_actions; simpl; lia.
Qed.

Lemma chosen_tap_changes_nothing : forall now callback db bot u,
  from_user callback = Some u ->
  has_user_chosen_this_month u (dt_year now) (dt_month now) db = Ok true ->
  h_db Bot (handle_button_selection Bot bot_call py_int now callback db bot)
  = db
  /\ count_actions is_record_choice
       (h_trace Bot
          (handle_button_selection Bot bot_call py_int now callback db bot))
     = 0%nat.
Proof.
  intros now callback db bot u Hu Hh. unfold handle_button_selection.
  rewrite Hu.
  destruct (truthy (data callback)); [|apply reply_returned_db].
  destruct (data callback) as [d|]; [|apply reply_returned_db].
  destruct (negb (List.length (split ":"%char d) =? 3)%nat);
    [apply reply_returned_db|].
  destruct (py_int (nth 1 (split ":"%char d) EmptyString)) as [pid|];
    [|apply reply_returned_db].
  destruct (py_int (nth 2 (split ":"%char d) EmptyString)) as [b|];
    [|apply reply_returned_db].
  destruct (negb ((b =? 1) || (b =? 2) || (b =? 3)));
    [apply reply_returned_db|].
  rewrite Hh. apply reply_returned_db.
Qed.

(** X21: one choice a month through the handler.  Once a tap of a
    recipient has been recorded and committed - the ledger is not what it
    was - any further tap of the same recipient in the same year and
    month - on any button, of any prediction - records nothing and leaves
    the store as it is, the sequences included. *)
Theorem second_tap_is_refused :
  forall (now now2 : datetime) (callback1 callback2 : CallbackQuery)
         (db : Database) (bot bot2 : Bot),
  consistent db ->
  choices (h_db Bot (with_session Bot
                       (handle_button_selection Bot bot_call py_int now
                          callback1)
                       db bot)) <> choices db ->
  from_user callback2 = from_user callback1 ->
  dt_year now2 = dt_year now -> dt_month now2 = dt_month now ->
  let db1 :=
    h_db Bot (with_session Bot
                (handle_button_selection Bot bot_call py_int now callback1)
                db bot) in
  let r2 :=
    with_session Bot
      (handle_button_selection Bot bot_call py_int now2 callback2) db1 bot2 in
  h_db Bot r2 = db1
  /\ count_actions is_record_choice (h_trace Bot r2) = 0%nat.
Proof.
  intros now now2 callback1 callback2 db bot bot2 Hc Hchanged Hfrom Hy Hm
    db1 r2.
  assert (Hseen : exists u, from_user callback1 = Some u
            /\ has_user_chosen_this_month u (dt_year now) (dt_month now) db1
               = Ok true).
  { subst db1. unfold with_session in *.
    destruct (button_selection_cases now callback1 db bot)
      as [[Hdb _] | [(u & pid & b & c & d1 & Hu & _ & _ & _ & Hr & Hdb & _)
                    | [Hret Hdb]]].
    - exfalso. apply Hchanged.
      destruct (returned Bot _); cbn [h_db]; [rewrite Hdb|]; reflexivity.
    - destruct (returned Bot _); cbn [h_db] in *;
        [|exfalso; apply Hchanged; reflexivity].
      exists u. split; [exact Hu|]. rewrite Hdb.
      apply (recorded_choice_lookup _ _ _ _ _ _ _ _ Hc Hr).
    - exfalso. apply Hchanged. rewrite Hret. reflexivity. }
  destruct Hseen as (u & Hu & Hseen).
  rewrite <- Hy, <- Hm in Hseen. rewrite <- Hfrom in Hu.
  destruct (chosen_tap_changes_nothing now2 callback2 db1 bot2 u Hu Hseen)
    as [Hdb Hn].
  subst r2. unfold with_session.
  destruct (returned Bot _); cbn [h_db h_trace];
    rewrite count_records_app, Hn, Hdb;
    (split; [try apply StoreProps.rollback_same; reflexivity
            | reflexivity]).
Qed.

Lemma distinct_snoc_ok : forall (A : Type) (eqb : A -> A -> bool)
  (l : list A) (c : A),
  distinct eqb l = true ->
  (forall x, In x l -> eqb x c = false) ->
  distinct eqb (l ++ [c]) = true.
Proof.
  intros A eqb l c. induction l as [|x l IH]; simpl; intros Hd Hfresh.
  - reflexivity.
  - apply andb_true_iff in Hd as [Hx Hd].
    rewrite existsb_app. simpl.
    apply negb_true_iff in Hx. rewrite Hx, (Hfresh x (or_introl eq_refl)).
    simpl. apply IH; auto.
Qed.

(** On a consistent store a choice is accepted when the ledger has no row
    at all - test or not - for that recipient, year and month. *)
Lemma record_user_choice_ok : forall now user prediction button flag db,
  consistent db ->
  (exists p, In p (predictions db) /\ id p = prediction) ->
  (forall c, In c (choices db) -> telegram_user_id c = user ->
             year c = dt_year now -> month c = dt_month now -> False) ->
  exists c db1,
    record_user_choice now user prediction button flag db = Ok (c, db1).
Proof.
  intros now user prediction button flag db (Hcons & Hp & Hch)
    (p & Hpin & Hpid) Hfree.
  apply constraints_split in Hcons.
  destruct Hcons as (C1 & C2 & C3 & C4 & C5 & C6 & C7 & C8 & C9).
  unfold record_user_choice, insert_choice. cbn [bind].
  rewrite flush_ok; [eexists; eexists; reflexivity|].
  apply constraints_split. cbn [predictions choices users].
  split; [exact C1|]. split; [exact C2|]. split; [exact C3|].
  split.
  { rewrite map_app. apply distinct_NoDup. apply CreateProps.NoDup_snoc.
    - apply distinct_NoDup. exact C4.
    - simpl. intros Hin. apply in_map_iff in Hin as (x & Hx & Hin).
      rewrite Forall_forall in Hch. specialize (Hch x Hin). lia. }
  split.
  { apply distinct_snoc_ok; [exact C5|].
    intros x Hx. unfold same_period_key. simpl.
    destruct (telegram_user_id x =? user) eqn:E1; [|reflexivity].
    destruct (year x =? dt_year now) eqn:E2; [|reflexivity].
    destruct (month x =? dt_month now) eqn:E3; [|reflexivity].
    exfalso. apply Z.eqb_eq in E1, E2, E3. apply (Hfree x Hx E1 E2 E3). }
  split; [exact C6|]. split; [exact C7|]. split; [|exact C9].
  unfold references_ok in *. cbn [predictions choices users].
  apply andb_true_iff in C8 as [R1 R2]. rewrite R1, forallb_app, R2.
  cbn [forallb andb]. rewrite andb_true_r.
  unfold prediction_reference_ok. cbn [prediction_id].
  apply existsb_exists. exists p. split; [exact Hpin|].
  apply Z.eqb_eq. exact Hpid.
Qed.

(** X22: from the keyboard to the ledger.  When a recipient with no row in
    the ledger for the current month taps button [k] of the keyboard that
    was broadcast for a stored prediction, and [int] reads the two numbers
    of the callback data back, the handler records a real choice of that
    button for that prediction and replaces the keyboard by the one that
    shows the final label of button [k]. *)
Theorem tapped_button_is_recorded :
  forall (now : datetime) (u : Z) (p : Prediction) (k : Z) (db : Database)
         (bot : Bot),
  consistent db ->
  In p (predictions db) ->
  k = 1 \/ k = 2 \/ k = 3 ->
  (forall c, In c (choices db) -> telegram_user_id c = u ->
             year c = dt_year now -> month c = dt_month now -> False) ->
  py_int (str_of_int (id p)) = Some (id p) ->
  py_int (str_of_int k) = Some k ->
  exists c db1,
    record_user_choice now u (id p) k false db = Ok (c, db1)
    /\ prediction_id c = id p /\ selected_button c = k /\ is_test c = false
    /\ handle_button_selection Bot bot_call py_int now
         (mk_CallbackQuery (Some u)
            (Some (nth (Z.to_nat (k - 1))
                     (button_data (get_prediction_keyboard p false))
                     EmptyString)))
         db bot
       = edit_then_answer Bot bot_call (get_selected_keyboard p k)
           ChoiceSaved ChoiceSaved db1 bot [RecordChoice u false]
    /\ map text (List.concat (get_selected_keyboard p k))
       = [get_final_button p k].
Proof.
  intros now u p k db bot Hc Hin Hk Hfree Hid Hbtn.
  destruct (record_user_choice_ok now u (id p) k false db Hc
              (ex_intro _ p (conj Hin eq_refl)) Hfree)
    as (c & db1 & Hr).
  exists c, db1. split; [exact Hr|].
  destruct (record_user_choice_inv _ _ _ _ _ _ _ _ Hr) as [Hcv _].
  split; [subst c; reflexivity|]. split; [subst c; reflexivity|].
  split; [subst c; reflexivity|]. split; [|reflexivity].
  assert (Hdata : nth (Z.to_nat (k - 1))
                    (button_data (get_prediction_keyboard p false))
                    EmptyString
                  = ("" ++ "select:" ++ str_of_int (id p) ++ ":"
                        ++ str_of_int k)%string).
  { destruct Hk as [-> | [-> | ->]]; reflexivity. }
  rewrite Hdata.
  pose proof (split_button_data "" (id p) (str_of_int k) eq_refl
                (no_colon_in_str_of_int k)) as Hs.
  assert (Ht : truthy (Some ("" ++ "select:" ++ str_of_int (id p) ++ ":"
                               ++ str_of_int k)%string) = true)
    by reflexivity.
  remember ("" ++ "select:" ++ str_of_int (id p) ++ ":"
               ++ str_of_int k)%string as d eqn:Hd.
  unfold handle_button_selection. cbn [from_user data].
  rewrite Ht, Hs.
  cbn [List.length Nat.eqb negb nth]. rewrite Hid, Hbtn.
  assert (Hvalid : negb ((k =? 1) || (k =? 2) || (k =? 3)) = false).
  { destruct Hk as [-> | [-> | ->]]; reflexivity. }
  rewrite Hvalid.
  rewrite (has_user_chosen_value _ _ _ _ Hc).
  assert (Hnone : existsb
            (fun c0 => (telegram_user_id c0 =? u) && (year c0 =? dt_year now)
                       && (month c0 =? dt_month now) && negb (is_test c0))
            (choices db) = false).
  { destruct (existsb _ (choices db)) eqn:E; [|reflexivity].
    apply existsb_exists in E. destruct E as (x & Hx & Px).
    rewrite !andb_true_iff, !Z.eqb_eq in Px.
    exfalso. apply (Hfree x Hx); tauto. }
  rewrite Hnone.
  rewrite (LifecycleProps.get_prediction_by_id_stored db p Hc Hin).
  rewrite Hr. reflexivity.
Qed.

End Transport.

Import Scenarios MoreScenarios.

(** A change of the store alone does not tell that a tap was recorded.  A
    tap of a sender who holds a test row of the month is refused by the
    unique key and rolled back, and one whose replies all fail is rolled
    back after the insert: either way the ledger is as it was and a key is
    spent. *)
Example rolled_back_tap_spends_a_key :
  let tap := mk_CallbackQuery (Some 12) (Some "select:1:1"%string) in
  let r := with_session unit
             (handle_button_selection unit (always Returned) decimal_int
                nov_2026 tap)
             ledger_db tt in
  let tap2 := mk_CallbackQuery (Some 13) (Some "select:1:1"%string) in
  let r2 := with_session (list ApiOutcome)
              (handle_button_selection (list ApiOutcome) scripted decimal_int
                 nov_2026 tap2)
              ledger_db [Returned; OtherException; OtherException] in
  (returned unit r = false
   /\ h_trace unit r = [RecordChoice 12 false; Rollback]
   /\ choices (h_db unit r) = choices ledger_db
   /\ choices_id_seq ledger_db = 5
   /\ choices_id_seq (h_db unit r) = 6)
  /\ (returned (list ApiOutcome) r2 = false
      /\ count_actions is_record_choice (h_trace (list ApiOutcome) r2) = 1%nat
      /\ choices (h_db (list ApiOutcome) r2) = choices ledger_db
      /\ choices_id_seq (h_db (list ApiOutcome) r2) = 6).
Proof. vm_compute. repeat split; reflexivity. Qed.

(** With the ledger replaced by the whole store in the premise of
    [second_tap_is_refused] the conclusion fails: after the refused tap of
    the sender with the test row the store has changed, by the spent key,
    the sender still counts as not having chosen, and the same tap again
    changes the store again. *)
Example changed_store_without_a_recorded_tap :
  let tap := mk_CallbackQuery (Some 12) (Some "select:1:1"%string) in
  let db1 :=
    h_db unit
      (with_session unit
         (handle_button_selection unit (always Returned) decimal_int
            nov_2026 tap)
         ledger_db tt) in
  let r2 := with_session unit
              (handle_button_selection unit (always Returned) decimal_int
                 nov_2026 tap)
              db1 tt in
  constraints_ok ledger_db = true
  /\ db1 <> ledger_db
  /\ has_user_chosen_this_month 12 (dt_year nov_2026) (dt_month nov_2026) db1
     = Ok false
  /\ h_db unit r2 <> db1.
Proof.
  vm_compute. repeat split; try reflexivity; discriminate.
Qed.

Lemma second_tap_is_refused_witness :
  consistent busy_db
  /\ choices
       (h_db unit
          (with_session unit
             (handle_button_selection unit (always Returned) decimal_int
                nov_2026
                (mk_CallbackQuery (Some 10) (Some "select:2:1"%string)))
             busy_db tt)) <> choices busy_db
  /\ h_db unit
       (with_session unit
          (handle_button_selection unit (always Returned) decimal_int nov_2026
             (mk_CallbackQuery (Some 10) (Some "select:2:3"%string)))
          (h_db unit
             (with_session unit
                (handle_button_selection unit (always Returned) decimal_int
                   nov_2026
                   (mk_CallbackQuery (Some 10) (Some "select:2:1"%string)))
                busy_db tt)) tt)
     = h_db unit
         (with_session unit
            (handle_button_selection unit (always Returned) decimal_int
               nov_2026
               (mk_CallbackQuery (Some 10) (Some "select:2:1"%string)))
            busy_db tt).
Proof.
  assert (Hne : choices
       (h_db unit
          (with_session unit
             (handle_button_selection unit (always Returned) decimal_int
                nov_2026
                (mk_CallbackQuery (Some 10) (Some "select:2:1"%string)))
             busy_db tt)) <> choices busy_db).
  { vm_compute. discriminate. }
  split; [exact CreateProps.busy_db_consistent|]. split; [exact Hne|].
  apply (second_tap_is_refused unit (always Returned) decimal_int nov_2026
           nov_2026
           (mk_CallbackQuery (Some 10) (Some "select:2:1"%string))
           (mk_CallbackQuery (Some 10) (Some "select:2:3"%string))
           busy_db tt tt CreateProps.busy_db_consistent Hne eq_refl eq_refl
           eq_refl).
Defined.

Lemma tapped_button_is_recorded_witness :
  consistent busy_db
  /\ In (sample_prediction 2 ACTIVE) (predictions busy_db)
  /\ decimal_int (str_of_int (id (sample_prediction 2 ACTIVE))) = Some 2
  /\ decimal_int (str_of_int 3) = Some 3
  /\ exists c db1,
       record_user_choice nov_2026 10 2 3 false busy_db = Ok (c, db1)
       /\ selected_button c = 3.
Proof.
  split; [exact CreateProps.busy_db_consistent|].
  split; [right; left; reflexivity|].
  split; [reflexivity|]. split; [reflexivity|].
  destruct (tapped_button_is_recorded unit (always Returned) decimal_int
              nov_2026 10 (sample_prediction 2 ACTIVE) 3 busy_db tt
              CreateProps.busy_db_consistent)
    as (c & db1 & Hr & _ & Hb & _).
  - right. left. reflexivity.
  - right. right. reflexivity.
  - intros c [].
  - reflexivity.
  - reflexivity.
  - exists c, db1. split; assumption.
Defined.

End HandlerMore.

(** ** The directory of recipients *)

Module DirectoryProps.

Import UserService UserDirectory StoreProps LookupProps.

Lemma filter_none_not_in : forall (A : Type) (key : A -> Z) (k : Z)
  (rows : list A),
  filter (fun r => key r =? k) rows = [] -> ~ In k (map key rows).
Proof.
  intros A key k rows H Hin. apply in_map_iff in Hin as (r & Hr & Hin).
  assert (In r (filter (fun r0 => key r0 =? k) rows)) as Hf.
  { apply filter_In. split; [exact Hin | apply Z.eqb_eq; exact Hr]. }
  rewrite H in Hf. contradiction.
Qed.

Lemma below_user_seq_fresh : forall (rows : list User) (n : Z),
  Forall (fun u => user_id u < n) rows -> ~ In n (map user_id rows).
Proof.
  intros rows n H Hin. apply in_map_iff in Hin as (u & Hu & Hin).
  rewrite Forall_forall in H. specialize (H u Hin). lia.
Qed.

Lemma admin_reference_grows : forall rows extra p,
  admin_reference_ok rows p = true ->
  admin_reference_ok (rows ++ extra) p = true.
Proof.
  intros rows extra p H. unfold admin_reference_ok in *.
  destruct (created_by_admin_id p); [|reflexivity].
  rewrite existsb_app, H. reflexivity.
Qed.

Lemma get_or_create_user_effect : forall admin admin2 t d,
  directory_consistent d ->
  exists u d1,
    get_or_create_user admin t d = Ok (u, d1)
    /\ directory_consistent d1
    /\ user_telegram_user_id u = t
    /\ get_or_create_user admin2 t d1 = Ok (u, d1)
    /\ get_user_by_telegram_id t (d_db d1) = Ok (Some u)
    /\ In t (get_all_user_telegram_ids (d_db d1))
    /\ NoDup (get_all_user_telegram_ids (d_db d1))
    /\ incl (get_all_user_telegram_ids (d_db d))
         (get_all_user_telegram_ids (d_db d1))
    /\ (get_user_by_telegram_id t (d_db d) = Ok None ->
        Models.is_admin u = is_admin admin t)
    /\ predictions (d_db d1) = predictions (d_db d)
    /\ choices (d_db d1) = choices (d_db d).
Proof.
  intros admin admin2 t [db seq] ((Hcons & Hp & Hch) & Hu).
  cbn [d_db UserDirectory.users_id_seq] in *.
  pose proof Hcons as Hsplit. apply constraints_split in Hsplit.
  destruct Hsplit as (C1 & C2 & C3 & C4 & C5 & C6 & C7 & C8 & C9).
  apply distinct_NoDup in C6, C7.
  pose proof (filter_key_at_most_one _ user_telegram_user_id t (users db) C7)
    as Hle.
  unfold get_or_create_user, get_user_by_telegram_id. cbn [d_db].
  destruct (filter (fun u => user_telegram_user_id u =? t) (users db))
    as [|u [|u' rest]] eqn:Hf; simpl in Hle; [| |lia].
  - (* a new recipient *)
    cbn [scalar_one_or_none bind UserDirectory.users_id_seq].
    set (u := mk_User seq t (in_admin_ids_list admin t)).
    assert (Hok : constraints_ok (with_users (users db ++ [u]) db) = true).
    { apply constraints_split. cbn [with_users predictions choices users].
      split; [exact C1|]. split; [exact C2|]. split; [exact C3|].
      split; [exact C4|]. split; [exact C5|].
      rewrite !map_app.
      split; [apply distinct_NoDup, CreateProps.NoDup_snoc; auto;
              apply below_user_seq_fresh; exact Hu|].
      split; [apply distinct_NoDup, CreateProps.NoDup_snoc; auto;
              apply (filter_none_not_in _ _ _ _ Hf)|].
      split; [|exact C9].
      unfold references_ok in *. cbn [with_users predictions choices users].
      apply andb_true_iff in C8 as [R1 R2]. rewrite R2, andb_true_r.
      rewrite forallb_forall in *. intros x Hx.
      apply admin_reference_grows, R1, Hx. }
    rewrite (flush_ok _ Hok). cbn [bind].
    exists u, (mk_Directory (with_users (users db ++ [u]) db) (seq + 1)).
    split; [reflexivity|].
    assert (Hlook : filter (fun u0 => user_telegram_user_id u0 =? t)
                      (users db ++ [u]) = [u]).
    { rewrite filter_app, Hf. simpl. rewrite Z.eqb_refl. reflexivity. }
    split.
    { split; [split; [exact Hok | split; [exact Hp | exact Hch]]|].
      cbn [d_db with_users users UserDirectory.users_id_seq].
      apply Forall_app. split.
      - eapply Forall_impl; [|exact Hu]. intros x Hx. simpl in Hx. lia.
      - constructor; [simpl; lia | constructor]. }
    split; [reflexivity|].
    cbn [d_db with_users users]. rewrite Hlook. cbn [scalar_one_or_none bind].
    split; [reflexivity|]. split; [reflexivity|].
    unfold get_all_user_telegram_ids. cbn [with_users users].
    rewrite map_app. split; [apply in_or_app; right; left; reflexivity|].
    split.
    { apply CreateProps.NoDup_snoc; [exact C7|].
      apply (filter_none_not_in _ _ _ _ Hf). }
    split; [intros x Hx; apply in_or_app; left; exact Hx|].
    split; [reflexivity|]. split; reflexivity.
  - (* a known recipient *)
    cbn [scalar_one_or_none bind].
    assert (Hin : In u (users db) /\ user_telegram_user_id u = t).
    { assert (H : In u (filter (fun u0 => user_telegram_user_id u0 =? t)
                          (users db))) by (rewrite Hf; left; reflexivity).
      apply filter_In in H. rewrite Z.eqb_eq in H. exact H. }
    destruct Hin as [Hin Ht].
    exists u, (mk_Directory db seq).
    split; [reflexivity|].
    split; [split; [split; [exact Hcons | split; assumption] | exact Hu]|].
    split; [exact Ht|]. cbn [d_db]. rewrite Hf. cbn [scalar_one_or_none bind].
    split; [reflexivity|]. split; [reflexivity|].
    unfold get_all_user_telegram_ids.
    split; [rewrite <- Ht; apply in_map; exact Hin|].
    split; [exact C7|]. split; [intros x Hx; exact Hx|].
    split; [discriminate|]. split; reflexivity.
Qed.

(** X23: a recipient is registered once.  On a consistent directory
    [get_or_create_user] never fails; it returns a user with the given
    Telegram id; a second call - whatever the admin list says by then -
    returns the same user and changes nothing; afterwards the id is among
    the broadcast recipients, the recipients known before are still there,
    and the list of recipients has no duplicate.  For a new recipient the
    stored admin flag is what the admin list said at that moment. *)
Theorem recipient_is_registered_once :
  forall (admin_ids_list later_admin_ids_list : list Z) (t : Z)
         (d : Directory),
  directory_consistent d ->
  exists u d1,
    get_or_create_user admin_ids_list t d = Ok (u, d1)
    /\ directory_consistent d1
    /\ user_telegram_user_id u = t
    /\ get_or_create_user later_admin_ids_list t d1 = Ok (u, d1)
    /\ get_user_by_telegram_id t (d_db d1) = Ok (Some u)
    /\ In t (get_all_user_telegram_ids (d_db d1))
    /\ NoDup (get_all_user_telegram_ids (d_db d1))
    /\ incl (get_all_user_telegram_ids (d_db d))
         (get_all_user_telegram_ids (d_db d1))
    /\ (get_user_by_telegram_id t (d_db d) = Ok None ->
        Models.is_admin u = is_admin admin_ids_list t)
    /\ predictions (d_db d1) = predictions (d_db d)
    /\ choices (d_db d1) = choices (d_db d).
Proof. exact get_or_create_user_effect. Qed.

Lemma sample_directory_consistent :
  directory_consistent MoreScenarios.sample_directory.
Proof.
  split.
  - exact JobProps.due_db_consistent.
  - repeat constructor; simpl; lia.
Qed.

Lemma recipient_is_registered_once_witness :
  directory_consistent MoreScenarios.sample_directory
  /\ exists u d1,
       get_or_create_user [12] 12 MoreScenarios.sample_directory = Ok (u, d1)
       /\ get_or_create_user [] 12 d1 = Ok (u, d1)
       /\ Models.is_admin u = true.
Proof.
  split; [exact sample_directory_consistent|].
  destruct (recipient_is_registered_once [12] [] 12
              MoreScenarios.sample_directory sample_directory_consistent)
    as (u & d1 & H1 & _ & _ & H2 & _ & _ & _ & _ & Hadm & _).
  exists u, d1. split; [exact H1|]. split; [exact H2|].
  apply Hadm. reflexivity.
Defined.

End DirectoryProps.

(** ** Statistics of one prediction *)

Module PredictionStatisticsProps.

Import StatisticsService PredictionStatistics StatisticsProps.

Lemma prediction_filter_ext : forall pid l,
  filter (fun c => (prediction_id c =? pid) && Bool.eqb (is_test c) false) l
  = filter (fun c => (prediction_id c =? pid) && negb (is_test c)) l.
Proof.
  intros. apply filter_ext. intros c. destruct (is_test c); reflexivity.
Qed.

Lemma prediction_filter_without_tests : forall pid l,
  filter (fun c => (prediction_id c =? pid) && negb (is_test c))
    (filter (fun c => negb (is_test c)) l)
  = filter (fun c => (prediction_id c =? pid) && negb (is_test c)) l.
Proof.
  intros pid l. induction l as [|c l IH]; simpl.
  - reflexivity.
  - destruct (is_test c) eqn:E; simpl; rewrite IH.
    + rewrite andb_false_r. reflexivity.
    + rewrite E. reflexivity.
Qed.

Lemma prediction_statistics_value : forall pid db,
  get_prediction_statistics pid db
  = let stored :=
      filter (fun c => (prediction_id c =? pid) && negb (is_test c))
        (choices db) in
    mk_PredictionStats (List.length stored)
      (List.length (filter (fun c => selected_button c =? 1) stored))
      (List.length (filter (fun c => selected_button c =? 2) stored))
      (List.length (filter (fun c => selected_button c =? 3) stored)).
Proof.
  intros pid db. unfold get_prediction_statistics.
  rewrite prediction_filter_ext. cbv zeta.
  destruct (filter _ (choices db)) as [|c rest] eqn:E.
  - reflexivity.
  - rewrite !count_button_length. reflexivity.
Qed.

(** X24: the statistics of one prediction count its real choices.  The
    total is the number of stored choices for that prediction that are not
    test choices and each button count is the number of those with that
    button; the shortcut for an empty result gives the same numbers as the
    general case; deleting every test choice from the store changes
    nothing; and, the stored buttons being 1, 2 or 3, the three counts add
    up to the total. *)
Theorem prediction_statistics_count_real_choices :
  forall (pid : Z) (db : Database),
  let s := get_prediction_statistics pid db in
  let stored :=
    filter (fun c => (prediction_id c =? pid) && negb (is_test c))
      (choices db) in
  (total_choices s = List.length stored
   /\ ps_button_1_count s
      = List.length (filter (fun c => selected_button c =? 1) stored)
   /\ ps_button_2_count s
      = List.length (filter (fun c => selected_button c =? 2) stored)
   /\ ps_button_3_count s
      = List.length (filter (fun c => selected_button c =? 3) stored)
   /\ get_prediction_statistics pid (without_test_choices db) = s)
  /\ (Forall (fun c => valid_button c = true) stored ->
      (ps_button_1_count s + ps_button_2_count s + ps_button_3_count s
       = total_choices s)%nat).
Proof.
  intros pid db s stored. subst s.
  rewrite !prediction_statistics_value. cbv zeta. fold stored.
  cbn [total_choices ps_button_1_count ps_button_2_count ps_button_3_count].
  split.
  - repeat split.
    unfold without_test_choices, with_choices. cbn [choices].
    rewrite prediction_filter_without_tests. reflexivity.
  - intros Hv. apply (buttons_partition stored Hv).
Qed.

Lemma prediction_statistics_count_real_choices_witness :
  Forall (fun c => valid_button c = true)
    (filter (fun c => (prediction_id c =? 1) && negb (is_test c))
       (choices Scenarios.ledger_db))
  /\ (ps_button_1_count (get_prediction_statistics 1 Scenarios.ledger_db)
      + ps_button_2_count (get_prediction_statistics 1 Scenarios.ledger_db)
      + ps_button_3_count (get_prediction_statistics 1 Scenarios.ledger_db)
      = total_choices (get_prediction_statistics 1 Scenarios.ledger_db))%nat.
Proof.
  assert (Hv : Forall (fun c => valid_button c = true)
    (filter (fun c => (prediction_id c =? 1) && negb (is_test c))
       (choices Scenarios.ledger_db))).
  { simpl. repeat constructor. }
  split; [exact Hv|].
  exact (proj2 (prediction_statistics_count_real_choices 1
                  Scenarios.ledger_db) Hv).
Defined.

End PredictionStatisticsProps.

(** ** The admin menu *)

Module AdminMenuProps.

Import PredictionService Handlers Dispatch AdminKeyboards Ui AdminMenu.
Import StoreProps LifecycleProps LifecycleMore LookupProps HandlerMore.

Lemma split_cancel_data : forall n : Z,
  split ":"%char ("admin:cancel_prediction:" ++ str_of_int n)
  = ["admin"%string; "cancel_prediction"%string; str_of_int n].
Proof.
  intros n.
  change ("admin:cancel_prediction:" ++ str_of_int n)%string
    with ("admin" ++ String ":"%char
            ("cancel_prediction" ++ String ":"%char (str_of_int n)))%string.
  rewrite split_at_sep by reflexivity.
  rewrite split_at_sep by reflexivity.
  rewrite split_no_sep by apply no_colon_in_str_of_int.
  reflexivity.
Qed.

Lemma menu_route_cancel : forall rest : string,
  menu_route (Some ("admin:cancel_prediction:" ++ rest)%string)
  = to_cancel_prediction.
Proof.
  intros rest. unfold menu_route, startswith.
  replace (String.eqb ("admin:cancel_prediction:" ++ rest) "admin:menu")
    with false by reflexivity.
  replace (String.eqb ("admin:cancel_prediction:" ++ rest)
             "admin:current_prediction") with false by reflexivity.
  replace (String.eqb ("admin:cancel_prediction:" ++ rest) "admin:statistics")
    with false by reflexivity.
  replace (String.eqb ("admin:cancel_prediction:" ++ rest)
             "admin:test_message") with false by reflexivity.
  rewrite prefix_append. reflexivity.
Qed.

Lemma route_admin : forall rest : string,
  route (Some ("admin:" ++ rest)%string) = not_handled.
Proof.
  intros rest. reflexivity.
Qed.

(** An update that neither removes a row from a status nor brings one to
    it leaves the rows of that status as they were. *)
Lemma select_update_other : forall s f i db,
  (forall r, In r (predictions db) -> id r = i ->
     has_status s r = false /\ has_status s (f r) = false) ->
  select_by_status s (update_prediction i f db) = select_by_status s db.
Proof.
  intros s f i db. unfold select_by_status. simpl.
  induction (predictions db) as [|r rows IH]; simpl; intros H.
  - reflexivity.
  - rewrite IH by (intros q Hq; apply H; right; exact Hq).
    destruct (id r =? i) eqn:E.
    + apply Z.eqb_eq in E.
      destruct (H r (or_introl eq_refl) E) as [H1 H2].
      rewrite H1, H2. reflexivity.
    + reflexivity.
Qed.

Lemma cancel_scheduled_effect : forall p db,
  consistent db -> In p (predictions db) -> status p = SCHEDULED ->
  let db1 := update_prediction (id p) (set_status CANCELLED) db in
  PredictionService.cancel_prediction p db = Ok db1
  /\ consistent db1
  /\ get_prediction_by_id (id p) db1 = Ok (Some (set_status CANCELLED p))
  /\ get_scheduled_prediction db1 = Ok None
  /\ get_active_prediction db1 = get_active_prediction db
  /\ (forall q, In q (predictions db) -> id q <> id p ->
        In q (predictions db1)).
Proof.
  intros p db Hc Hin Hs db1.
  assert (Hnd : NoDup (map id (predictions db))).
  { destruct Hc as (Hcons & _). apply constraints_split in Hcons. tauto. }
  destruct (cancel_prediction_ok p db Hc) as (db' & Hcancel & Hc').
  assert (Hdb' : db' = db1).
  { unfold PredictionService.cancel_prediction in Hcancel.
    apply flush_update_inv in Hcancel. exact Hcancel. }
  subst db'. split; [exact Hcancel|]. split; [exact Hc'|].
  assert (Hsel : select_by_status SCHEDULED db = [p]).
  { apply only_selected; auto. }
  split.
  { unfold get_prediction_by_id. subst db1.
    rewrite (consistent_int32 db p Hc Hin).
    rewrite select_by_id_update by reflexivity.
    rewrite select_by_id_unique by assumption.
    simpl. rewrite Z.eqb_refl. reflexivity. }
  split.
  { unfold get_scheduled_prediction. subst db1.
    rewrite select_update_none; [reflexivity| |reflexivity].
    intros r Hr. rewrite Hsel in Hr. destruct Hr as [<- | []]. reflexivity. }
  split.
  { unfold get_active_prediction. subst db1.
    rewrite select_update_other; [reflexivity|].
    intros r Hr Hid.
    assert (r = p) by (apply (rows_same_id (predictions db)); assumption).
    subst r. split; [|reflexivity].
    unfold has_status. rewrite Hs. reflexivity. }
  intros q Hq Hne. subst db1. apply update_keeps_row; assumption.
Qed.

Lemma by_id_found : forall n db p,
  get_prediction_by_id n db = Ok (Some p) ->
  In p (predictions db) /\ id p = n.
Proof.
  intros n db p H. apply get_prediction_by_id_some in H.
  assert (Hin : In p (select_by_id n db)) by (rewrite H; left; reflexivity).
  unfold select_by_id in Hin. apply filter_In in Hin as [Hin Hid].
  split; [exact Hin | apply Z.eqb_eq; exact Hid].
Qed.

Section Transport.

Variable Bot : Type.
Variable bot_call : Bot -> BotCall -> ApiOutcome * Bot.
Variable ui_call : Bot -> UiCall -> ApiOutcome * Bot.
Variable py_int : string -> option Z.

Lemma say_session : forall (Session : Type) c (s : Session) bot tr,
  u_session (say ui_call c s bot tr) = s.
Proof.
  intros. unfold say. destruct (ui_call bot c). reflexivity.
Qed.

Lemma show_current_session : forall db bot tr,
  u_session (show_current_prediction Bot ui_call db bot tr) = db.
Proof.
  intros db bot tr. unfold show_current_prediction.
  destruct (get_active_prediction db) as [active|]; [|reflexivity].
  destruct (get_scheduled_prediction db) as [scheduled|]; [|reflexivity].
  destruct (ui_call bot _) as [o bot1].
  destruct o; try reflexivity. apply say_session.
Qed.

(** Every path of the handler but one leaves the session as it found it;
    the remaining one has passed both guards and the cancellation. *)
Lemma cancel_cases : forall callback db bot,
  let r := AdminMenu.cancel_prediction Bot ui_call py_int callback db bot in
  u_session r = db
  \/ exists d p db1,
       data callback = Some d
       /\ py_int (last (split ":"%char d) EmptyString) = Some (id p)
       /\ In p (predictions db)
       /\ status p = SCHEDULED
       /\ PredictionService.cancel_prediction p db = Ok db1
       /\ u_session r = db1.
Proof.
  intros callback db bot r. subst r. unfold AdminMenu.cancel_prediction.
  destruct (truthy (data callback));
    [|left; destruct (data callback); apply say_session].
  destruct (data callback) as [d|]; [|left; apply say_session].
  destruct (py_int _) as [n|] eqn:Hn; [|left; apply say_session].
  destruct (get_prediction_by_id n db) as [[p|]|e] eqn:Hg;
    [|left; apply say_session|left; reflexivity].
  destruct (status_eqb (status p) SCHEDULED) eqn:Hs; simpl;
    [|left; apply say_session].
  destruct (PredictionService.cancel_prediction p db) as [db1|e] eqn:Hcan;
    [|left; reflexivity].
  right. exists d, p, db1.
  apply by_id_found in Hg as [Hin Hid].
  split; [reflexivity|]. split; [rewrite Hid; exact Hn|].
  split; [exact Hin|].
  split; [destruct (status p); simpl in Hs; try discriminate; reflexivity|].
  split; [exact Hcan|].
  destruct (ui_call bot _) as [o bot1].
  destruct o; try reflexivity. apply show_current_session.
Qed.

(** X25: the cancel button of the admin menu is all or nothing and only
    ever cancels a SCHEDULED prediction.  Behind the session middleware,
    whoever sends the callback and whatever its data, a consistent store
    stays consistent and either it is exactly as it was, or the handler has
    returned and one prediction that was SCHEDULED is now CANCELLED: it
    reads back as CANCELLED, nothing is scheduled any more, the active
    prediction is the one it was, and every other prediction, every user
    and every choice is untouched. *)
Theorem admin_cancel_is_all_or_nothing :
  forall (callback : CallbackQuery) (db : Database) (bot : Bot),
  consistent db ->
  let r := with_session rollback
             (AdminMenu.cancel_prediction Bot ui_call py_int callback)
             db bot in
  consistent (u_session r)
  /\ (u_session r = db
      \/ exists p,
           In p (predictions db) /\ status p = SCHEDULED
           /\ u_returned r = true
           /\ get_prediction_by_id (id p) (u_session r)
              = Ok (Some (set_status CANCELLED p))
           /\ get_scheduled_prediction (u_session r) = Ok None
           /\ get_active_prediction (u_session r) = get_active_prediction db
           /\ (forall q, In q (predictions db) -> id q <> id p ->
                 In q (predictions (u_session r)))
           /\ users (u_session r) = users db
           /\ choices (u_session r) = choices db).
Proof.
  intros callback db bot Hc r. subst r. unfold with_session, rollback.
  destruct (cancel_cases callback db bot)
    as [Hsame | (d & p & db1 & _ & _ & Hin & Hs & Hcan & Hdb1)].
  - destruct (u_returned _); cbn [u_session];
      [rewrite Hsame|]; (split; [exact Hc | left; reflexivity]).
  - destruct (u_returned _) eqn:Hret; cbn [u_session u_returned];
      [|split; [exact Hc | left; reflexivity]].
    destruct (cancel_scheduled_effect p db Hc Hin Hs)
      as (Hcan' & Hc1 & Hrow & Hnone & Hact & Hrest).
    rewrite Hcan' in Hcan. inversion Hcan as [Hdb]. clear Hcan.
    rewrite Hdb1, <- Hdb.
    split; [exact Hc1|]. right. exists p.
    repeat (split; [assumption || reflexivity|]). reflexivity.
Qed.

Section Returning.

Hypothesis ui_returns : forall bot c, fst (ui_call bot c) = Returned.

Lemma ui_call_returned : forall bot c,
  ui_call bot c = (Returned, snd (ui_call bot c)).
Proof.
  intros bot c. pose proof (ui_returns bot c) as H.
  destruct (ui_call bot c) as [o b]. simpl in *. subst o. reflexivity.
Qed.

Lemma show_current_returning : forall db bot tr active scheduled,
  get_active_prediction db = Ok active ->
  get_scheduled_prediction db = Ok scheduled ->
  (forall a, active = Some a -> status a = ACTIVE) ->
  let kb := get_prediction_actions_keyboard scheduled in
  u_returned (show_current_prediction Bot ui_call db bot tr) = true
  /\ u_trace (show_current_prediction Bot ui_call db bot tr)
     = tr ++ [Said (edit_text_current_predictions active scheduled kb);
              Said (callback_answer None false)].
Proof.
  intros db bot tr active scheduled Ha Hs Hstat kb.
  unfold show_current_prediction. rewrite Ha, Hs.
  assert (Hkb : match scheduled with
                | Some s => Some s
                | None =>
                    match active with
                    | Some a =>
                        if status_eqb (status a) SCHEDULED
                        then Some a else None
                    | None => None
                    end
                end = scheduled).
  { destruct scheduled as [s|]; [reflexivity|].
    destruct active as [a|]; [|reflexivity].
    rewrite (Hstat a eq_refl). reflexivity. }
  cbv zeta. rewrite Hkb. fold kb.
  rewrite ui_call_returned. unfold say.
  rewrite ui_call_returned. cbn [u_returned u_trace].
  split; [reflexivity|]. rewrite <- app_assoc. reflexivity.
Qed.

(** X26: the cancel button cancels the prediction it is shown for.  On a
    consistent store with a scheduled prediction, the view of the current
    predictions offers a button whose callback data the user router lets
    pass and the menu router hands to the cancel handler; when [int] reads
    the id back and the replies go through, pressing it leaves that
    prediction CANCELLED and nothing scheduled, and the handler answers,
    redraws the view without the scheduled prediction - now with no cancel
    button on it - and the session is committed. *)
Theorem cancel_button_cancels_the_shown_prediction :
  forall (db : Database) (bot : Bot) (s : Prediction) (who : option Z),
  consistent db ->
  get_scheduled_prediction db = Ok (Some s) ->
  py_int (str_of_int (id s)) = Some (id s) ->
  exists active cancel_button others,
    get_active_prediction db = Ok active
    /\ u_trace (show_current_prediction Bot ui_call db bot [])
       = [Said (edit_text_current_predictions active (Some s)
                  (get_prediction_actions_keyboard (Some s)));
          Said (callback_answer None false)]
    /\ get_prediction_actions_keyboard (Some s) = [cancel_button] :: others
    /\ route (Some (callback_data cancel_button)) = not_handled
    /\ menu_route (Some (callback_data cancel_button)) = to_cancel_prediction
    /\ let r := with_session rollback
                  (AdminMenu.cancel_prediction Bot ui_call py_int
                     (mk_CallbackQuery who (Some (callback_data cancel_button))))
                  db bot in
       u_returned r = true
       /\ get_prediction_by_id (id s) (u_session r)
          = Ok (Some (set_status CANCELLED s))
       /\ get_scheduled_prediction (u_session r) = Ok None
       /\ u_trace r
          = [Said (callback_answer (Some PredictionCancelled) false);
             Said (edit_text_current_predictions active None
                     (get_prediction_actions_keyboard None));
             Said (callback_answer None false);
             Service Commit]
       /\ Forall (fun b => menu_route (Some (callback_data b))
                           <> to_cancel_prediction)
            (List.concat (get_prediction_actions_keyboard None)).
Proof.
  clear bot_call.
  intros db bot s who Hc Hsched Hint.
  assert (Hsel : In s (select_by_status SCHEDULED db)).
  { unfold get_scheduled_prediction in Hsched.
    apply scalar_some_inv in Hsched. rewrite Hsched. left. reflexivity. }
  apply selected_row in Hsel as [Hin Hs].
  assert (Hle : (List.length (select_by_status ACTIVE db) <= 1)%nat).
  { destruct Hc as (Hcons & _). apply constraints_split in Hcons. tauto. }
  destruct (scalar_of_at_most_one _ _ Hle) as (active & Hact & Hactive).
  assert (Hstat : forall a, active = Some a -> status a = ACTIVE).
  { intros a Ha. apply Hactive in Ha. apply selected_row in Ha. tauto. }
  destruct (cancel_scheduled_effect s db Hc Hin Hs)
    as (Hcan & Hc1 & Hrow & Hnone & Hact1 & _).
  set (db1 := update_prediction (id s) (set_status CANCELLED) db) in *.
  assert (Hkb : get_prediction_actions_keyboard (Some s)
                = [mk_Button "❌ Отменить"
                     ("admin:cancel_prediction:" ++ str_of_int (id s))]
                  :: [ [mk_Button "🔄 Пересоздать" "admin:create_prediction"];
                       [mk_Button "🔙 Назад" "admin:menu"] ]).
  { unfold get_prediction_actions_keyboard. rewrite Hs. reflexivity. }
  exists active, (mk_Button "❌ Отменить"
                    ("admin:cancel_prediction:" ++ str_of_int (id s))),
    [ [mk_Button "🔄 Пересоздать" "admin:create_prediction"];
      [mk_Button "🔙 Назад" "admin:menu"] ].
  split; [exact Hact|].
  split.
  { apply (show_current_returning db bot [] active (Some s) Hact Hsched Hstat). }
  split; [exact Hkb|].
  cbn [callback_data].
  split; [reflexivity|].
  split; [apply menu_route_cancel|].
  pose proof (split_cancel_data (id s)) as Hsplit.
  assert (Ht : truthy (Some ("admin:cancel_prediction:" ++ str_of_int (id s))%string)
               = true) by reflexivity.
  remember ("admin:cancel_prediction:" ++ str_of_int (id s))%string as d eqn:Hd.
  assert (Hby : get_prediction_by_id (id s) db = Ok (Some s)).
  { exact (get_prediction_by_id_stored db s Hc Hin). }
  assert (Hrun :
    let h := AdminMenu.cancel_prediction Bot ui_call py_int
               (mk_CallbackQuery who (Some d)) db bot in
    u_returned h = true /\ u_session h = db1
    /\ u_trace h
       = [Said (callback_answer (Some PredictionCancelled) false);
          Said (edit_text_current_predictions active None
                  (get_prediction_actions_keyboard None));
          Said (callback_answer None false)]).
  { unfold AdminMenu.cancel_prediction. cbn [data].
    rewrite Ht, Hsplit. cbn [last]. rewrite Hint, Hby, Hs.
    cbn [status_eqb negb]. rewrite Hcan.
    rewrite ui_call_returned.
    assert (Hact2 : get_active_prediction db1 = Ok active)
      by (rewrite Hact1; exact Hact).
    destruct (show_current_returning db1 (snd (ui_call bot
                (callback_answer (Some PredictionCancelled) false)))
                [Said (callback_answer (Some PredictionCancelled) false)]
                active None Hact2 Hnone Hstat) as [Hr Htr].
    split; [exact Hr|]. split; [apply show_current_session|]. exact Htr. }
  destruct Hrun as (Hret & Hdb & Htr).
  unfold with_session. rewrite Hret. cbn [u_returned u_session u_trace].
  rewrite Hdb, Htr.
  split; [reflexivity|]. split; [exact Hrow|]. split; [exact Hnone|].
  split; [reflexivity|].
  simpl. repeat constructor; intro H; vm_compute in H; discriminate.
Qed.

End Returning.

Lemma send_test_session : forall callback db bot,
  u_session (send_test_message Bot bot_call ui_call callback db bot) = db.
Proof.
  intros callback db bot. unfold send_test_message.
  destruct (from_user callback); [|apply say_session].
  destruct (get_current_or_scheduled_prediction db) as [[p|]|e];
    [|apply say_session|reflexivity].
  destruct (BroadcastService.send_test_prediction _ _ _ _ _ _)
    as [[success b1] tr].
  destruct success; apply say_session.
Qed.

(** X27: the admin's test message writes nothing and is sent once.
    Whoever asks and whatever the transport answers, the store after
    [send_test_message] is the store before it; either nothing is sent,
    or there is exactly one send, with no retry: to the chat of the sender,
    of the active prediction, or of the scheduled one when none is active,
    with the test keyboard; and the answer to the callback says that the
    test was sent exactly when that one send returned. *)
Theorem test_message_writes_nothing_and_is_sent_once :
  forall (callback : CallbackQuery) (db : Database) (bot : Bot),
  let r := with_session rollback
             (send_test_message Bot bot_call ui_call callback) db bot in
  u_session r = db
  /\ (api_calls (u_trace r) = []
      \/ exists user_id p,
           from_user callback = Some user_id
           /\ get_current_or_scheduled_prediction db = Ok (Some p)
           /\ let c := BroadcastService.media_call user_id p
                         (get_prediction_keyboard p true) in
              api_calls (u_trace r) = [c]
              /\ answers (u_trace r)
                 = [match fst (bot_call bot c) with
                    | Returned =>
                        callback_answer (Some TestMessageSent) false
                    | _ => callback_answer (Some TestSendFailed) true
                    end]).
Proof.
  intros callback db bot r. subst r. split.
  { unfold with_session, rollback.
    destruct (u_returned _); cbn [u_session];
      [apply send_test_session | reflexivity]. }
  unfold with_session, rollback, send_test_message.
  destruct (from_user callback) as [user_id|].
  2:{ left. unfold say. destruct (ui_call bot _) as [o b].
      destruct o; reflexivity. }
  destruct (get_current_or_scheduled_prediction db) as [[p|]|e].
  2:{ left. unfold say. destruct (ui_call bot _) as [o b].
      destruct o; reflexivity. }
  2:{ left. reflexivity. }
  right. exists user_id, p.
  split; [reflexivity|]. split; [reflexivity|]. cbv zeta.
  unfold BroadcastService.send_test_prediction,
    BroadcastService._send_media_message.
  set (c := BroadcastService.media_call user_id p
              (get_prediction_keyboard p true)).
  destruct (bot_call bot c) as [o b1]. cbn [fst].
  destruct o; cbn [map]; unfold say;
    destruct (ui_call b1 _) as [o2 b2];
    destruct o2; cbn; split; reflexivity.
Qed.

End Transport.

Lemma admin_cancel_is_all_or_nothing_witness :
  consistent Scenarios.busy_db
  /\ consistent
       (u_session
          (with_session rollback
             (AdminMenu.cancel_prediction unit
                (MoreScenarios.ui_always Returned) MoreScenarios.decimal_int
                (mk_CallbackQuery (Some 10)
                   (Some "admin:cancel_prediction:3"%string)))
             Scenarios.busy_db tt)).
Proof.
  split; [exact CreateProps.busy_db_consistent|].
  exact (proj1 (admin_cancel_is_all_or_nothing unit
                  (MoreScenarios.ui_always Returned)
                  MoreScenarios.decimal_int
                  (mk_CallbackQuery (Some 10)
                     (Some "admin:cancel_prediction:3"%string))
                  Scenarios.busy_db tt CreateProps.busy_db_consistent)).
Defined.

Lemma cancel_button_cancels_the_shown_prediction_witness :
  (forall bot c, fst (MoreScenarios.ui_always Returned bot c) = Returned)
  /\ consistent Scenarios.busy_db
  /\ get_scheduled_prediction Scenarios.busy_db
     = Ok (Some (Scenarios.sample_prediction 3 SCHEDULED))
  /\ MoreScenarios.decimal_int
       (str_of_int (id (Scenarios.sample_prediction 3 SCHEDULED)))
     = Some (id (Scenarios.sample_prediction 3 SCHEDULED))
  /\ exists active, get_active_prediction Scenarios.busy_db = Ok active.
Proof.
  split; [intros bot c; reflexivity|].
  split; [exact CreateProps.busy_db_consistent|].
  split; [reflexivity|]. split; [reflexivity|].
  destruct (cancel_button_cancels_the_shown_prediction unit
              (MoreScenarios.ui_always Returned) MoreScenarios.decimal_int
              (fun bot c => eq_refl)
              Scenarios.busy_db tt (Scenarios.sample_prediction 3 SCHEDULED)
              (Some 10) CreateProps.busy_db_consistent eq_refl eq_refl)
    as (active & _ & _ & Hact & _).
  exists active. exact Hact.
Defined.

End AdminMenuProps.

(** ** The /start command *)

Module StartProps.

Import PredictionService UserService UserDirectory Ui Start.
Import StoreProps LookupProps DirectoryProps AdminMenuProps.

Lemma get_or_create_user_seq : forall admin t d u d1,
  get_or_create_user admin t d = Ok (u, d1) ->
  users_id_seq d <= users_id_seq d1.
Proof.
  intros admin t d u d1. unfold get_or_create_user.
  destruct (get_user_by_telegram_id t (d_db d)) as [[u0|]|e]; simpl.
  - intros H. inversion H. lia.
  - destruct (flush _) as [db1|e]; simpl; intros H; inversion H. simpl. lia.
  - discriminate.
Qed.

Lemma api_calls_app : forall tr1 tr2,
  api_calls (tr1 ++ tr2) = api_calls tr1 ++ api_calls tr2.
Proof.
  intros. unfold api_calls. apply flat_map_app.
Qed.

Section Transport.

Variable Bot : Type.
Variable bot_call : Bot -> BotCall -> ApiOutcome * Bot.
Variable ui_call : Bot -> UiCall -> ApiOutcome * Bot.

Lemma say_calls : forall (Session : Type) c (s : Session) bot tr,
  api_calls (u_trace (say ui_call c s bot tr)) = api_calls tr.
Proof.
  intros. unfold say. destruct (ui_call bot c). cbn [u_trace].
  rewrite api_calls_app. cbn. apply app_nil_r.
Qed.

(** What the handler leaves behind for a sender it can see. *)
Lemma cmd_start_shape : forall admin now message flag user_id d bot,
  directory_consistent d ->
  m_from_user message = Some user_id ->
  let h := cmd_start Bot bot_call ui_call admin now message flag d bot in
  exists u d1,
    get_or_create_user admin user_id d = Ok (u, d1)
    /\ u_session h = d1
    /\ (api_calls (u_trace h) = []
        \/ (flag = false
            /\ has_user_chosen_this_month user_id (dt_year now)
                 (dt_month now) (d_db d1) = Ok false
            /\ exists p,
                 get_active_prediction (d_db d1) = Ok (Some p)
                 /\ api_calls (u_trace h)
                    = [BroadcastService.media_call (m_chat_id message) p
                         (get_prediction_keyboard p false)])).
Proof.
  intros admin now message flag user_id d bot Hd Hfrom h. subst h.
  destruct (get_or_create_user_effect admin admin user_id d Hd)
    as (u & d1 & Hget & _).
  exists u, d1. split; [exact Hget|].
  unfold cmd_start. rewrite Hfrom, Hget.
  destruct flag.
  { split; [apply (say_session Bot ui_call)|].
    left. apply say_calls. }
  destruct (get_active_prediction (d_db d1)) as [[p|]|e].
  2:{ split; [apply (say_session Bot ui_call)|]. left. apply say_calls. }
  2:{ split; [reflexivity|]. left. reflexivity. }
  destruct (has_user_chosen_this_month _ _ _ _) as [[|]|e] eqn:Hchosen.
  1:{ split; [apply (say_session Bot ui_call)|]. left. apply say_calls. }
  2:{ split; [reflexivity|]. left. reflexivity. }
  cbv zeta.
  destruct (bot_call bot _) as [o bot1].
  assert (Hsend : forall (r : UiEnd Bot Directory),
            u_session r = d1 ->
            api_calls (u_trace r)
            = [BroadcastService.media_call (m_chat_id message) p
                 (get_prediction_keyboard p false)] ->
            u_session r = d1
            /\ (api_calls (u_trace r) = []
                \/ (false = false /\ Ok false = Ok false
                    /\ exists p0,
                         Ok (Some p) = Ok (Some p0)
                         /\ api_calls (u_trace r)
                            = [BroadcastService.media_call
                                 (m_chat_id message) p0
                                 (get_prediction_keyboard p0 false)]))).
  { intros r Hs Hc. split; [exact Hs|]. right.
    split; [reflexivity|]. split; [reflexivity|].
    exists p. split; [reflexivity | exact Hc]. }
  destruct o; apply Hsend;
    first [reflexivity | apply (say_session Bot ui_call) | apply say_calls].
Qed.

(** X28: what /start does and does not do.  For a sender the handler can
    see, on a consistent directory and whatever the transport answers, the
    session around [cmd_start] leaves the directory consistent, changes no
    prediction and no choice, and forgets no recipient; when it commits,
    the sender is among the broadcast recipients.  The prediction is sent
    at most once, and only to a sender who is not an admin and has no real
    choice for the current month: then it is the active prediction, sent to
    the chat of the message with the live keyboard. *)
Theorem start_registers_and_offers_once :
  forall (admin_ids_list : list Z) (now : datetime) (message : Message)
         (user_id : Z) (d : Directory) (bot : Bot),
  directory_consistent d ->
  m_from_user message = Some user_id ->
  let r := on_start Bot bot_call ui_call admin_ids_list now message d bot in
  directory_consistent (u_session r)
  /\ predictions (d_db (u_session r)) = predictions (d_db d)
  /\ choices (d_db (u_session r)) = choices (d_db d)
  /\ incl (get_all_user_telegram_ids (d_db d))
        (get_all_user_telegram_ids (d_db (u_session r)))
  /\ (u_returned r = true ->
      In user_id (get_all_user_telegram_ids (d_db (u_session r))))
  /\ (api_calls (u_trace r) = []
      \/ (middleware_is_admin admin_ids_list (Some user_id) = false
          /\ has_user_chosen_this_month user_id (dt_year now) (dt_month now)
               (d_db d) = Ok false
          /\ exists p,
               get_active_prediction (d_db d) = Ok (Some p)
               /\ api_calls (u_trace r)
                  = [BroadcastService.media_call (m_chat_id message) p
                       (get_prediction_keyboard p false)])).
Proof.
  intros admin now message user_id d bot Hd Hfrom r. subst r.
  unfold on_start.
  destruct (cmd_start_shape admin now message
              (middleware_is_admin admin (m_from_user message))
              user_id d bot Hd Hfrom)
    as (u & d1 & Hget & Hsess & Hcalls).
  destruct (get_or_create_user_effect admin admin user_id d Hd)
    as (u' & d1' & Hget' & Hd1 & _ & _ & _ & Hin & _ & Hincl & _ & Hpred & Hch).
  rewrite Hget in Hget'. inversion Hget'. subst u' d1'. clear Hget'.
  pose proof (get_or_create_user_seq _ _ _ _ _ Hget) as Hseq.
  assert (Hcalls' :
    api_calls (u_trace (cmd_start Bot bot_call ui_call admin now message
                          (middleware_is_admin admin (m_from_user message))
                          d bot)) = []
    \/ (middleware_is_admin admin (Some user_id) = false
        /\ has_user_chosen_this_month user_id (dt_year now) (dt_month now)
             (d_db d) = Ok false
        /\ exists p,
             get_active_prediction (d_db d) = Ok (Some p)
             /\ api_calls (u_trace (cmd_start Bot bot_call ui_call admin now
                                      message
                                      (middleware_is_admin admin
                                         (m_from_user message)) d bot))
                = [BroadcastService.media_call (m_chat_id message) p
                     (get_prediction_keyboard p false)])).
  { destruct Hcalls as [Hnone | (Hflag & Hchosen & p & Hact & Hsent)].
    - left. exact Hnone.
    - right. rewrite <- Hfrom. split; [exact Hflag|].
      split.
      + unfold has_user_chosen_this_month in *. rewrite <- Hch. exact Hchosen.
      + exists p. split; [|exact Hsent].
        unfold get_active_prediction, select_by_status in *.
        rewrite <- Hpred. exact Hact. }
  assert (Htrace : forall x, x = Commit \/ x = Rollback ->
    api_calls (u_trace (cmd_start Bot bot_call ui_call admin now message
                          (middleware_is_admin admin (m_from_user message))
                          d bot) ++ [Service x])
    = api_calls (u_trace (cmd_start Bot bot_call ui_call admin now message
                            (middleware_is_admin admin (m_from_user message))
                            d bot))).
  { intros x [-> | ->]; rewrite api_calls_app; cbn; apply app_nil_r. }
  unfold with_session.
  destruct (u_returned _) eqn:Hret; cbn [u_session u_returned u_trace];
    rewrite Htrace by auto.
  - rewrite Hsess.
    repeat (split; [assumption|]).
    split; [intros _; exact Hin|]. exact Hcalls'.
  - unfold rollback. rewrite Hsess. cbn [d_db].
    split.
    { destruct Hd as [Hc Hu]. split; [exact Hc|]. cbn [d_db users_id_seq].
      eapply Forall_impl; [|exact Hu]. intros a Ha. simpl in Ha. lia. }
    split; [reflexivity|]. split; [reflexivity|].
    split; [apply incl_refl|].
    split; [discriminate|]. exact Hcalls'.
Qed.

End Transport.

Lemma start_registers_and_offers_once_witness :
  directory_consistent MoreScenarios.sample_directory
  /\ m_from_user (mk_Message (Some 12) 12) = Some 12
  /\ directory_consistent
       (u_session
          (on_start unit (Scenarios.always Returned)
             (MoreScenarios.ui_always Returned) [] Scenarios.nov_2026
             (mk_Message (Some 12) 12) MoreScenarios.sample_directory tt)).
Proof.
  split; [exact sample_directory_consistent|].
  split; [reflexivity|].
  exact (proj1 (start_registers_and_offers_once unit
                  (Scenarios.always Returned)
                  (MoreScenarios.ui_always Returned) [] Scenarios.nov_2026
                  (mk_Message (Some 12) 12) 12 MoreScenarios.sample_directory
                  tt sample_directory_consistent eq_refl)).
Defined.

End StartProps.

(** ** Looking a choice up by prediction *)

Module ChoiceLookupProps.

Import PredictionService ChoiceLookup.
Import StoreProps LedgerProps LedgerMore HandlerMore.

Lemma filter_snoc : forall (A : Type) (f : A -> bool) (l : list A) (x : A),
  filter f (l ++ [x]) = filter f l ++ (if f x then [x] else []).
Proof.
  intros A f l x. rewrite filter_app. reflexivity.
Qed.

(** X29: [get_user_choice] can raise on a store that breaks no constraint.
    The ledger is unique per recipient and month, not per recipient and
    prediction: when a recipient who has a real choice for a prediction
    chooses for the same prediction in a month in which they have no row
    yet, the store accepts the second choice and stays consistent, the
    recipient counts as having chosen this month, and from then on
    [get_user_choice] for that recipient and prediction raises
    MultipleResultsFound. *)
Theorem get_user_choice_raises_after_a_second_month :
  forall (now : datetime) (u pid k : Z) (db : Database)
         (c0 : UserPredictionChoice),
  consistent db ->
  get_user_choice u pid db = Ok (Some c0) ->
  (forall c, In c (choices db) -> telegram_user_id c = u ->
             year c = dt_year now -> month c = dt_month now -> False) ->
  exists c db1,
    record_user_choice now u pid k false db = Ok (c, db1)
    /\ consistent db1
    /\ has_user_chosen_this_month u (dt_year now) (dt_month now) db1 = Ok true
    /\ get_user_choice u pid db1 = Raise MultipleResultsFound.
Proof.
  intros now u pid k db c0 Hc Hget Hfree.
  assert (Hp : exists p, In p (predictions db) /\ id p = pid).
  { pose proof Hget as Hrow. unfold get_user_choice in Hrow.
    apply scalar_some_inv in Hrow.
    assert (Hin : In c0 (filter (fun c =>
                    (telegram_user_id c =? u) && (prediction_id c =? pid)
                    && Bool.eqb (is_test c) false)
                    (choices db))) by (rewrite Hrow; left; reflexivity).
    apply filter_In in Hin as [Hin Hkey].
    apply andb_true_iff in Hkey as [Hkey _].
    apply andb_true_iff in Hkey as [_ Hkey]. apply Z.eqb_eq in Hkey.
    destruct Hc as (Hcons & _). apply constraints_split in Hcons.
    destruct Hcons as (_ & _ & _ & _ & _ & _ & _ & Href & _).
    unfold references_ok in Href. apply andb_true_iff in Href as [_ Href].
    rewrite forallb_forall in Href. specialize (Href c0 Hin).
    unfold prediction_reference_ok in Href.
    apply existsb_exists in Href as (p & Hp & Hid).
    exists p. split; [exact Hp|]. apply Z.eqb_eq in Hid. lia. }
  destruct (record_user_choice_ok now u pid k false db Hc Hp Hfree)
    as (c & db1 & Hr).
  exists c, db1. split; [exact Hr|].
  pose proof (record_user_choice_consistent _ _ _ _ _ _ _ _ Hc Hr) as Hc1.
  split; [exact Hc1|].
  destruct (record_user_choice_shape _ _ _ _ _ _ _ _ Hr) as (Hcv & Hch & _).
  split.
  - rewrite has_user_chosen_value by exact Hc1. f_equal.
    apply existsb_exists. exists c. split.
    + rewrite Hch. apply in_or_app. right. left. reflexivity.
    + subst c. simpl. rewrite !Z.eqb_refl. reflexivity.
  - unfold get_user_choice in *. apply scalar_some_inv in Hget.
    rewrite Hch, filter_snoc, Hget. subst c. simpl.
    rewrite !Z.eqb_refl. reflexivity.
Qed.

Lemma get_user_choice_raises_after_a_second_month_witness :
  consistent Scenarios.ledger_db
  /\ get_user_choice 13 1 Scenarios.ledger_db
     = Ok (Some (mk_Choice 4 13 1 2 2026 10 false))
  /\ exists c db1,
       record_user_choice Scenarios.nov_2026 13 1 3 false Scenarios.ledger_db
       = Ok (c, db1)
       /\ get_user_choice 13 1 db1 = Raise MultipleResultsFound.
Proof.
  assert (Hc : consistent Scenarios.ledger_db).
  { split; [reflexivity|]. split; repeat constructor. }
  split; [exact Hc|]. split; [reflexivity|].
  destruct (get_user_choice_raises_after_a_second_month Scenarios.nov_2026
              13 1 3 Scenarios.ledger_db (mk_Choice 4 13 1 2 2026 10 false)
              Hc eq_refl)
    as (c & db1 & Hr & _ & _ & Hraise).
  - intros c Hin Hu Hy Hm. simpl in Hin.
    destruct Hin as [<- | [<- | [<- | [<- | []]]]];
      simpl in Hu, Hy, Hm; discriminate.
  - exists c, db1. split; assumption.
Defined.

End ChoiceLookupProps.

(** ** The list of admins *)

Module SettingsProps.

Import Handlers Dispatch Settings UserDirectory MoreScenarios.
Import HandlerMore.

Lemma contains_app : forall c s1 s2,
  contains c (s1 ++ s2) = contains c s1 || contains c s2.
Proof.
  intros c s1 s2. induction s1 as [|a s1 IH]; simpl.
  - reflexivity.
  - rewrite IH. apply orb_assoc.
Qed.

Lemma numeral_of_uint : forall (d : Decimal.uint) (c : ascii),
  contains c (NilEmpty.string_of_uint d) = true -> numeral_char c = true.
Proof.
  induction d; cbn [NilEmpty.string_of_uint contains]; intros c H;
    try discriminate;
    apply orb_true_iff in H as [H | H];
    try (apply Ascii.eqb_eq in H; subst c; reflexivity);
    auto.
Qed.

Lemma numeral_of_int : forall (n : Z) (c : ascii),
  contains c (str_of_int n) = true -> numeral_char c = true.
Proof.
  intros n c.
  unfold str_of_int, NilZero.string_of_int, NilZero.string_of_uint.
  destruct (Z.to_int n) as [d|d]; destruct d;
    cbn [NilEmpty.string_of_uint contains]; intros H;
    repeat match type of H with
           | (_ || _) = true => apply orb_true_iff in H as [H | H]
           | Ascii.eqb _ _ = true =>
               apply Ascii.eqb_eq in H; subst c; reflexivity
           | false = true => discriminate
           end;
    apply (numeral_of_uint _ _ H).
Qed.

Lemma numeral_not_space : forall c : ascii,
  numeral_char c = true -> isspace c = false.
Proof.
  intros c H. unfold numeral_char in H. simpl in H.
  repeat (apply orb_true_iff in H as [H | H];
          [apply Ascii.eqb_eq in H; subst c; reflexivity|]).
  discriminate.
Qed.

Lemma numeral_not_comma : forall n : Z,
  contains ","%char (str_of_int n) = false.
Proof.
  intros n. destruct (contains ","%char (str_of_int n)) eqn:E; [|reflexivity].
  apply numeral_of_int in E. discriminate.
Qed.

Lemma str_of_int_head : forall n : Z,
  exists c rest, str_of_int n = String c rest.
Proof.
  intros n.
  unfold str_of_int, NilZero.string_of_int, NilZero.string_of_uint.
  destruct (Z.to_int n) as [d|d]; destruct d; simpl; eauto.
Qed.

Lemma spaces_no_comma : forall k, contains ","%char (spaces k) = false.
Proof.
  induction k; simpl; auto.
Qed.

Lemma written_no_comma : forall e, contains ","%char (written e) = false.
Proof.
  intros e. unfold written. rewrite !contains_app, !spaces_no_comma.
  destruct (number e); [rewrite numeral_not_comma|]; reflexivity.
Qed.

Lemma lstrip_spaces : forall k s, lstrip (spaces k ++ s) = lstrip s.
Proof.
  induction k; simpl; auto.
Qed.

Lemma rstrip_only_spaces : forall k, rstrip (spaces k) = EmptyString.
Proof.
  induction k; simpl; [|rewrite IHk]; reflexivity.
Qed.

Lemma rstrip_spaces : forall s k, rstrip (s ++ spaces k) = rstrip s.
Proof.
  induction s as [|c s IH]; intros k; simpl.
  - apply rstrip_only_spaces.
  - rewrite IH. reflexivity.
Qed.

Lemma rstrip_no_space : forall s,
  (forall c, contains c s = true -> isspace c = false) -> rstrip s = s.
Proof.
  induction s as [|a s IH]; simpl; intros H.
  - reflexivity.
  - rewrite IH.
    + destruct s; [|reflexivity].
      rewrite (H a); [reflexivity|]. rewrite Ascii.eqb_refl. reflexivity.
    + intros c Hc. apply H. rewrite Hc. apply orb_true_r.
Qed.

Lemma strip_written_number : forall a n b,
  strip (written (mk_Entry a (Some n) b)) = str_of_int n.
Proof.
  intros a n b. unfold strip, written. cbn [lead number trail].
  rewrite lstrip_spaces.
  assert (Hns : forall c, contains c (str_of_int n) = true ->
                          isspace c = false).
  { intros c Hc. apply numeral_not_space. apply (numeral_of_int n). exact Hc. }
  destruct (str_of_int_head n) as (c & rest & Hhead).
  assert (Hl : lstrip (str_of_int n ++ spaces b) = (str_of_int n ++ spaces b)%string).
  { rewrite Hhead. simpl. rewrite (Hns c); [reflexivity|].
    rewrite Hhead. simpl. rewrite Ascii.eqb_refl. reflexivity. }
  rewrite Hl, rstrip_spaces. apply rstrip_no_space. exact Hns.
Qed.

Lemma strip_written_blank : forall a b,
  strip (written (mk_Entry a None b)) = EmptyString.
Proof.
  intros a b. unfold strip, written. cbn [lead number trail].
  rewrite lstrip_spaces. simpl.
  induction b as [|b IH]; simpl; [reflexivity | exact IH].
Qed.

Lemma split_join : forall l : list string,
  l <> [] ->
  (forall x, In x l -> contains ","%char x = false) ->
  split ","%char (join "," l) = l.
Proof.
  induction l as [|x [|y rest] IH]; intros Hne Hl.
  - contradiction.
  - simpl. apply split_no_sep. apply Hl. left. reflexivity.
  - change (join "," (x :: y :: rest))
      with (x ++ String ","%char (join "," (y :: rest)))%string.
    rewrite split_at_sep by (apply Hl; left; reflexivity).
    rewrite IH; [reflexivity|discriminate|].
    intros z Hz. apply Hl. right. exact Hz.
Qed.

Section Reader.

Variable py_int : string -> option Z.

Lemma admin_ids_list_ints : forall s : string,
  admin_ids_list py_int s = ints py_int (split ","%char s).
Proof.
  intros [|c s]; reflexivity.
Qed.

Lemma ints_written : forall es : list Entry,
  (forall n, In n (numbers es) -> py_int (str_of_int n) = Some n) ->
  ints py_int (map written es) = Some (numbers es).
Proof.
  induction es as [|[a [n|] b] es IH]; intros Hread.
  - reflexivity.
  - cbn [map ints]. rewrite strip_written_number.
    destruct (str_of_int_head n) as (c & rest & Hhead).
    rewrite Hhead, <- Hhead.
    rewrite Hread by (left; reflexivity).
    rewrite IH by (intros m Hm; apply Hread; right; exact Hm).
    reflexivity.
  - cbn [map ints]. rewrite strip_written_blank.
    apply IH. exact Hread.
Qed.

(** X30: the admin list reads back what was written.  When [ADMIN_IDS]
    holds ids separated by commas, with any number of spaces around each
    and with entries that are empty or blank in between, and [int] reads
    each id back, [admin_ids_list] is the list of those ids in the order
    they were written, the blank entries skipped; and the admin middleware
    flags a sender with a non-zero id exactly when the id is among them. *)
Theorem admin_ids_read_back :
  forall es : list Entry,
  (forall n, In n (numbers es) -> py_int (str_of_int n) = Some n) ->
  admin_ids_list py_int (join "," (map written es)) = Some (numbers es)
  /\ forall user_id : Z, user_id <> 0 ->
       (middleware_is_admin (numbers es) (Some user_id) = true
        <-> In user_id (numbers es)).
Proof.
  intros es Hread. split.
  - rewrite admin_ids_list_ints.
    destruct es as [|e es]; [reflexivity|].
    rewrite split_join.
    + apply ints_written. exact Hread.
    + discriminate.
    + intros x Hx. apply in_map_iff in Hx as (e' & <- & _).
      apply written_no_comma.
  - intros user_id Hnz. unfold middleware_is_admin, in_admin_ids_list.
    apply Z.eqb_neq in Hnz. rewrite Hnz. rewrite existsb_exists. split.
    + intros (x & Hin & Heq). apply Z.eqb_eq in Heq. subst x. exact Hin.
    + intros Hin. exists user_id. split; [exact Hin | apply Z.eqb_refl].
Qed.

End Reader.

Lemma admin_ids_read_back_witness :
  (forall n,
     In n (numbers [mk_Entry 0 (Some 5) 0; mk_Entry 1 (Some 7) 0;
                    mk_Entry 1 None 0]) ->
     decimal_int (str_of_int n) = Some n)
  /\ admin_ids_list decimal_int "5, 7, " = Some [5; 7].
Proof.
  assert (H : forall n,
            In n (numbers [mk_Entry 0 (Some 5) 0; mk_Entry 1 (Some 7) 0;
                           mk_Entry 1 None 0]) ->
            decimal_int (str_of_int n) = Some n).
  { intros n [<- | [<- | []]]; reflexivity. }
  split; [exact H|].
  exact (proj1 (admin_ids_read_back decimal_int
                  [mk_Entry 0 (Some 5) 0; mk_Entry 1 (Some 7) 0;
                   mk_Entry 1 None 0] H)).
Defined.

End SettingsProps.
